(** * solana-mcp: the memecoin scoring engine

    A shallow embedding of the scoring functions of the repository
    (src/utils/safetyUtils.js, src/utils/socialUtils.js and the handlers
    under src/functions/), followed by the properties of these functions.

    Conventions of the embedding.
    - A JavaScript number is an exact rational ([Q]); quantities that the
      source obtains as array lengths or as counters are integers ([Z]).
      The doubles of the source round where the rationals do not. A
      statement about amounts or scores is made where that rounding cannot
      change it: for an investment of at most 10^9, or with a margin of
      10^-9 on a bound. [Doubles] has the arithmetic of the allocation and
      of the market factor on the doubles themselves, and evaluates it at
      the inputs where the two differ.
    - NaN is modelled where the source reaches it, in the hype score, as
      the [None] of an [option]. The infinities are outside the model.
    - [Math.log10] is the one operation of the source that leaves the
      rationals. The functions that call it take it as a parameter
      [log10 : Q -> Q]; the facts about it that the proofs use are collected
      in [Log10Spec].
    - A string is a [string] of 8-bit characters; case folding and the
      regular-expression class [\W] act on the ASCII range.
    - An [async] function that can throw returns a [result]; [try]/[catch] is
      [try_catch]. Network and database collaborators are fields of an
      environment record. *)

From Stdlib Require Import QArith Qround Qminmax Qabs Lqa.
From Stdlib Require Import ZArith Lia Bool List String Ascii DecimalString.
From Stdlib Require Import Sorting.Sorted Sorting.Permutation.
From Stdlib Require Import Morphisms.
From Stdlib Require PrimFloat FloatOps SpecFloat Uint63.
Import ListNotations.

Open Scope string_scope.
Open Scope Q_scope.

(* ================================================================== *)
(** ** The JavaScript fragment used by the sources *)
(* ================================================================== *)

Module JS.

(** *** Numbers *)

(** [x < y], [x > y], [x >= y] on numbers, as booleans. *)
Definition lt (x y : Q) : bool := negb (Qle_bool y x).
Definition gt (x y : Q) : bool := negb (Qle_bool x y).
Definition ge (x y : Q) : bool := Qle_bool y x.

(** [Math.floor] and [Math.round] (halves go up). *)
Definition Math_floor (x : Q) : Z := Qfloor x.
Definition Math_round (x : Q) : Z := Qfloor (x + (1 # 2)).

(** [Number(n)] of an integer. *)
Definition Number (n : Z) : Q := inject_Z n.

(** *** Exceptions *)

Inductive result (A : Type) : Type :=
| Ok (value : A)
| Throw (message : string).
Arguments Ok {A} value.
Arguments Throw {A} message.

Definition bind {A B : Type} (r : result A) (k : A -> result B) : result B :=
  match r with
  | Ok a => k a
  | Throw message => Throw message
  end.

(** [try { body } catch (error) { handler(error.message) }] *)
Definition try_catch {A : Type} (body : result A) (handler : string -> result A)
  : result A :=
  match body with
  | Ok a => Ok a
  | Throw message => handler message
  end.

(** [array.map(f)] where [f] may throw: the first exception wins. *)
Fixpoint mapM {A B : Type} (f : A -> result B) (l : list A) : result (list B) :=
  match l with
  | [] => Ok []
  | a :: l' =>
      bind (f a) (fun b => bind (mapM f l') (fun bs => Ok (b :: bs)))
  end.

(** *** Arrays *)

(** [array.sort(compare)]: the sort of the language is stable; for a
    comparator that orders the elements consistently it is the stable
    insertion of every element before the first one it does not follow. *)
Fixpoint insert {A : Type} (compare : A -> A -> Q) (x : A) (l : list A) : list A :=
  match l with
  | [] => [x]
  | y :: l' =>
      if Qle_bool (compare x y) 0 then x :: y :: l'
      else y :: insert compare x l'
  end.

Definition sort {A : Type} (compare : A -> A -> Q) (l : list A) : list A :=
  fold_right (insert compare) [] l.

(** The comparator [(a, b) => b.key - a.key], and the order it sorts into. *)
Definition descending_by {A : Type} (key : A -> Q) : A -> A -> Q :=
  fun a b => key b - key a.

Definition descends {A : Type} (key : A -> Q) (a b : A) : Prop :=
  key b <= key a.

(** [array.slice(0, n)] *)
Definition slice0 {A : Type} (n : Z) (l : list A) : list A :=
  firstn (Z.to_nat n) l.

(** [array.forEach((x, index) => ...)] collecting what the body pushes. *)
Definition mapi {A B : Type} (f : A -> nat -> B) (l : list A) : list B :=
  map (fun p => f (snd p) (fst p)) (combine (seq 0 (List.length l)) l).

(** [object[key] = value] on an object whose keys are strings other than
    array indices: the keys stay in the order of their first assignment. *)
Fixpoint assign {V : Type} (object : list (string * V)) (key : string)
  (value : V) : list (string * V) :=
  match object with
  | [] => [(key, value)]
  | (k, v) :: rest =>
      if String.eqb k key
      then (k, value) :: rest
      else (k, v) :: assign rest key value
  end.

(** [array.includes(x)] on an array of strings. *)
Definition array_includes (l : list string) (x : string) : bool :=
  existsb (String.eqb x) l.

(** *** Strings *)

Definition is_upper (c : ascii) : bool :=
  let n := nat_of_ascii c in (65 <=? n)%nat && (n <=? 90)%nat.

Definition lower_char (c : ascii) : ascii :=
  if is_upper c then ascii_of_nat (nat_of_ascii c + 32) else c.

(** [s.toLowerCase()] *)
Fixpoint toLowerCase (s : string) : string :=
  match s with
  | EmptyString => EmptyString
  | String c s' => String (lower_char c) (toLowerCase s')
  end.

(** The class [\w]: letters, digits and the underscore. *)
Definition is_word_char (c : ascii) : bool :=
  let n := nat_of_ascii c in
  ((48 <=? n)%nat && (n <=? 57)%nat)
  || ((65 <=? n)%nat && (n <=? 90)%nat)
  || ((97 <=? n)%nat && (n <=? 122)%nat)
  || (n =? 95)%nat.

(** [s.split(/\W+/).filter(Boolean)]: the maximal runs of word characters
    of [s], in order. [current] is the run being read. *)
Fixpoint split_words_from (current : string) (s : string) : list string :=
  match s with
  | EmptyString =>
      match current with EmptyString => [] | _ => [current] end
  | String c s' =>
      if is_word_char c
      then split_words_from (current ++ String c EmptyString) s'
      else match current with
           | EmptyString => split_words_from EmptyString s'
           | _ => current :: split_words_from EmptyString s'
           end
  end.

Definition split_words (s : string) : list string :=
  split_words_from EmptyString s.

(** [s.includes(t)]: [t] occurs in [s] as a substring. *)
Fixpoint includes (s t : string) : bool :=
  prefix t s
  || match s with
     | EmptyString => false
     | String _ s' => includes s' t
     end.

(** The decimal numeral of an integer, as [String(n)] prints it. *)
Definition string_of_Z (n : Z) : string :=
  NilZero.string_of_int (Z.to_int n).

Fixpoint zeros (n : nat) : string :=
  match n with
  | O => EmptyString
  | S n' => String "0" (zeros n')
  end.

(** [x.toFixed(digits)]: the nearest numeral with [digits] decimals, halves
    away from zero (numbers below 1e21). *)
Definition toFixed (x : Q) (digits : nat) : string :=
  let scale := (10 ^ Z.of_nat digits)%Z in
  let n := Qfloor (Qabs x * inject_Z scale + (1 # 2)) in
  let fraction := string_of_Z (n mod scale) in
  let body :=
    string_of_Z (n / scale)
    ++ match digits with
       | O => EmptyString
       | _ => "." ++ zeros (digits - String.length fraction) ++ fraction
       end in
  if lt x 0 then "-" ++ body else body.

Definition is_lower (c : ascii) : bool :=
  let n := nat_of_ascii c in (97 <=? n)%nat && (n <=? 122)%nat.

Definition upper_char (c : ascii) : ascii :=
  if is_lower c then ascii_of_nat (nat_of_ascii c - 32) else c.

(** [s.toUpperCase()] *)
Fixpoint toUpperCase (s : string) : string :=
  match s with
  | EmptyString => EmptyString
  | String c s' => String (upper_char c) (toUpperCase s')
  end.

(** [array.reduce((acc, x) => acc + f(x), 0)], and the loops that add up a
    number per element. *)
Definition sum_of {A : Type} (f : A -> Q) (l : list A) : Q :=
  fold_left (fun acc x => acc + f x) l 0.

(** [s.trim()] on ASCII strings: the white space and line terminators
    below 128 are the characters 9 to 13 and the space. *)
Definition is_space (c : ascii) : bool :=
  let n := nat_of_ascii c in
  (n =? 32)%nat || ((9 <=? n)%nat && (n <=? 13)%nat).

Fixpoint trimStart (s : string) : string :=
  match s with
  | EmptyString => EmptyString
  | String c s' => if is_space c then trimStart s' else s
  end.

Fixpoint trimEnd (s : string) : string :=
  match s with
  | EmptyString => EmptyString
  | String c s' =>
      match trimEnd s' with
      | EmptyString => if is_space c then EmptyString else String c EmptyString
      | kept => String c kept
      end
  end.

Definition trim (s : string) : string := trimEnd (trimStart s).

End JS.

Import JS.

Notation "x <- r ;; k" := (JS.bind r (fun x => k))
  (at level 61, r at next level, right associativity).

(* ================================================================== *)
(** ** src/utils/safetyUtils.js *)
(* ================================================================== *)

Module SafetyUtils.

(** The metrics object handed to [calculateSafetyScore] and
    [generateWarnings]. [holderCount] is the length of the array of token
    accounts. *)
Record SafetyMetrics : Type := {
  mintAuthorityExists : bool;
  freezeAuthorityExists : bool;
  topHolderPercentage : Q;
  holderCount : Z;
  hasLiquidity : bool
}.

(** The [details] object of the analysis: the five metrics and the supply. *)
Record SafetyDetails : Type := {
  metrics :> SafetyMetrics;
  supplySize : Q
}.

Record SafetyAnalysis : Type := {
  tokenAddress : string;
  safetyScore : Q;
  details : SafetyDetails;
  warnings : list string
}.

Definition calculateSafetyScore (metrics : SafetyMetrics) : Q :=
  let score := 100 in
  (* mint authority (can create more tokens) *)
  let score := if mintAuthorityExists metrics then score - 20 else score in
  (* freeze authority (can freeze token accounts) *)
  let score := if freezeAuthorityExists metrics then score - 10 else score in
  (* high concentration of tokens in top holder *)
  let score :=
    if gt (topHolderPercentage metrics) 50
    then score - Qmin 40 (topHolderPercentage metrics - 50)
    else score in
  (* low holder count *)
  let score :=
    if (holderCount metrics <? 100)%Z
    then score - Qmin 20 (Number (100 - holderCount metrics) / 5)
    else score in
  (* no liquidity *)
  let score := if negb (hasLiquidity metrics) then score - 30 else score in
  Qmax 0 (Qmin 100 score).

Definition mintAuthorityWarning : string :=
  "The token has an active mint authority, which means more tokens can be created.".
Definition freezeAuthorityWarning : string :=
  "The token has an active freeze authority, which allows freezing token accounts.".
Definition topHolderWarning (percentage : Q) : string :=
  "The top holder owns " ++ toFixed percentage 2
  ++ "% of the supply, creating concentration risk.".
Definition holderCountWarning (count : Z) : string :=
  "The token has only " ++ string_of_Z count
  ++ " holders, indicating low distribution.".
Definition liquidityWarning : string :=
  "The token has no detectable liquidity on major DEXs, making it difficult to trade.".

Definition generateWarnings (metrics : SafetyMetrics) : list string :=
  let warnings := [] in
  let warnings :=
    if mintAuthorityExists metrics
    then (warnings ++ [mintAuthorityWarning])%list else warnings in
  let warnings :=
    if freezeAuthorityExists metrics
    then (warnings ++ [freezeAuthorityWarning])%list else warnings in
  let warnings :=
    if gt (topHolderPercentage metrics) 50
    then (warnings ++ [topHolderWarning (topHolderPercentage metrics)])%list
    else warnings in
  let warnings :=
    if (holderCount metrics <? 50)%Z
    then (warnings ++ [holderCountWarning (holderCount metrics)])%list
    else warnings in
  let warnings :=
    if negb (hasLiquidity metrics)
    then (warnings ++ [liquidityWarning])%list else warnings in
  warnings.

(** The mint account as [getMint] returns it. *)
Record MintInfo : Type := {
  mintAuthority : option string;
  freezeAuthority : option string;
  supply : Z;
  decimals : Z
}.

(** A token account as [getProgramAccounts] returns it. *)
Record ProgramAccount : Type := {
  pubkey : string;
  data : list Byte.byte
}.

(** The collaborators of the analysis: the key parser of the chain
    library, the two RPC calls, and the price endpoint of the DEX
    aggregator ([None] when the answer carries no entry for the token). *)
Record Env : Type := {
  PublicKey : string -> result string;
  getMint : string -> result MintInfo;
  getProgramAccounts : string -> result (list ProgramAccount);
  priceEndpoint : string -> result (option Q)
}.

(** [buffer.readBigUInt64LE(offset)]: eight bytes, least significant
    first; a [RangeError] when the buffer is too short. *)
Definition readBigUInt64LE (buffer : list Byte.byte) (offset : nat) : result Z :=
  let bytes := firstn 8 (skipn offset buffer) in
  if (List.length bytes =? 8)%nat
  then Ok (fold_right (fun b acc => (Z.of_N (Byte.to_N b) + 256 * acc)%Z) 0%Z bytes)
  else Throw "The value of offset is out of range".

Definition checkTokenLiquidity (env : Env) (tokenAddress : string) : bool :=
  match priceEndpoint env tokenAddress with
  | Ok (Some price) => gt price 0
  | Ok None => false
  | Throw _ => false
  end.

Record Holder : Type := {
  holderPubkey : string;
  balance : Q
}.

(** The body of the [try] block of [analyzeTokenSafety]. *)
Definition analyzeTokenSafety_try (env : Env) (address : string)
  : result SafetyAnalysis :=
  mintPublicKey <- PublicKey env address ;;
  mintInfo <- getMint env mintPublicKey ;;
  let mintAuthorityExists :=
    match mintAuthority mintInfo with Some _ => true | None => false end in
  let freezeAuthorityExists :=
    match freezeAuthority mintInfo with Some _ => true | None => false end in
  programAccounts <- getProgramAccounts env mintPublicKey ;;
  let totalSupply := Number (supply mintInfo) in
  let holderCount := Z.of_nat (List.length programAccounts) in
  topHolderPercentage <-
    (if (0 <? List.length programAccounts)%nat && gt totalSupply 0
     then
       accounts <-
         mapM (fun account =>
                 balance <- readBigUInt64LE (data account) 64 ;;
                 Ok {| holderPubkey := pubkey account;
                       balance := Number balance |})
              programAccounts ;;
       let accounts := sort (fun a b => balance b - balance a) accounts in
       match accounts with
       | top :: _ => Ok (balance top / totalSupply * 100)
       | [] => Ok 0
       end
     else Ok 0) ;;
  let hasLiquidity := checkTokenLiquidity env address in
  let metrics :=
    {| mintAuthorityExists := mintAuthorityExists;
       freezeAuthorityExists := freezeAuthorityExists;
       topHolderPercentage := topHolderPercentage;
       holderCount := holderCount;
       hasLiquidity := hasLiquidity |} in
  Ok {| tokenAddress := address;
        safetyScore := calculateSafetyScore metrics;
        details :=
          {| metrics := metrics;
             supplySize := totalSupply / 10 ^ decimals mintInfo |};
        warnings := generateWarnings metrics |}.

(** What the [catch] block returns. *)
Definition analysisUnavailable (address : string) : SafetyAnalysis :=
  {| tokenAddress := address;
     safetyScore := 0;
     details :=
       {| metrics :=
            {| mintAuthorityExists := true;
               freezeAuthorityExists := true;
               topHolderPercentage := 100;
               holderCount := 0;
               hasLiquidity := false |};
          supplySize := 0 |};
     warnings := ["Unable to analyze token safety"] |}.

Definition analyzeTokenSafety (env : Env) (address : string)
  : result SafetyAnalysis :=
  try_catch (analyzeTokenSafety_try env address)
            (fun _ => Ok (analysisUnavailable address)).

Record ScamPatterns : Type := {
  highMintAuthority : bool;
  suspiciousHolderPattern : bool;
  recentRugPullSimilarity : bool
}.

Record ScamSimilarity : Type := {
  scamTokenAddress : string;
  scamScore : Q;
  scamPatterns : ScamPatterns
}.

Definition checkScamSimilarity (address : string) : ScamSimilarity :=
  let patterns :=
    {| highMintAuthority := false;
       suspiciousHolderPattern := false;
       recentRugPullSimilarity := false |} in
  let values :=
    [highMintAuthority patterns; suspiciousHolderPattern patterns;
     recentRugPullSimilarity patterns] in
  {| scamTokenAddress := address;
     scamScore := Number (Z.of_nat (List.length (filter (fun b => b) values)) * 33);
     scamPatterns := patterns |}.

End SafetyUtils.

(* ================================================================== *)
(** ** The decimal logarithm *)
(* ================================================================== *)

Module Log10.

(** What the proofs use of [Math.log10]: it respects equality of
    rationals, it is not positive from 0 to 1, [log10(1) = 0], it is not
    negative from 1 on, and [log10(10^6) = 6]. At 0, where [Math.log10] is
    -Infinity, [log10] has some value that is not positive: the statements
    reach it there only in the hype score, under a [Math.max] with 0.2,
    which gives 0.2 for both. *)
Record Log10Spec (log10 : Q -> Q) : Prop := {
  log10_proper : Proper (Qeq ==> Qeq) log10;
  log10_small : forall x, 0 <= x -> x <= 1 -> log10 x <= 0;
  log10_one : log10 1 == 0;
  log10_nonneg : forall x, 1 <= x -> 0 <= log10 x;
  log10_million : log10 1000000 == 6
}.

(** The number of decimal digits of [n], less one. *)
Fixpoint count_digits (fuel : nat) (n : Z) : Z :=
  match fuel with
  | O => 0
  | S fuel' => if (n <? 10)%Z then 0 else 1 + count_digits fuel' (n / 10)
  end.

(** The integer part of the decimal logarithm: an executable function
    that meets [Log10Spec], on which the scoring functions can be run. *)
Definition floor_log10 (x : Q) : Q :=
  let n := Qfloor x in
  inject_Z (count_digits (S (Z.to_nat (Z.log2 n))) n).

End Log10.

Import Log10.

(* ================================================================== *)
(** ** src/utils/database.js and src/utils/tokenUtils.js *)
(* ================================================================== *)

Module Database.

(** A row of the table [tokens] as a handler receives it. A date is the
    time it denotes, in milliseconds since the epoch. [creation_date] is the
    column of the table, [None] when it is NULL. The table that
    [createTables] creates has no column [created_at]: its rows have none,
    which is [None], and [new Date] of it is an invalid date. *)
Record TokenInfo : Type := {
  address : string;
  name : string;
  symbol : string;
  creation_date : option Z;
  created_at : option Z;
  safety_score : option Q
}.

End Database.

Module TokenUtils.

(** The market data [getTokenLiquidity] returns. *)
Record MarketData : Type := {
  price : Q;
  volume24h : Q;
  liquidity : Q;
  marketCap : Q;
  priceChange24h : Q
}.

(** The price entry of the aggregator; a field may be absent. *)
Record PriceData : Type := {
  data_price : option Q;
  data_volume24h : option Q;
  data_liquidity : option Q;
  data_market_cap : option Q;
  data_price_change_24h : option Q
}.

(** [x || 0] *)
Definition or_zero (x : option Q) : Q :=
  match x with Some v => v | None => 0 end.

Definition noMarketData : MarketData :=
  {| price := 0; volume24h := 0; liquidity := 0; marketCap := 0;
     priceChange24h := 0 |}.

Definition getTokenLiquidity (endpoint : string -> result (option PriceData))
           (tokenAddress : string) : MarketData :=
  match endpoint tokenAddress with
  | Ok (Some priceData) =>
      {| price := or_zero (data_price priceData);
         volume24h := or_zero (data_volume24h priceData);
         liquidity := or_zero (data_liquidity priceData);
         marketCap := or_zero (data_market_cap priceData);
         priceChange24h := or_zero (data_price_change_24h priceData) |}
  | Ok None => noMarketData
  | Throw _ => noMarketData
  end.

(** The token information [isMemetoken] reads; a missing name or symbol is
    [None]. *)
Record TokenMetadata : Type := {
  tokenName : option string;
  tokenSymbol : option string;
  tokenSupply : Q
}.

Definition memeTerms : list string :=
  [ "meme"; "doge"; "shib"; "inu"; "cat"; "elon"; "pepe"; "moon"; "safe";
    "cum"; "chad"; "based"; "wojak"; "coin"; "rocket"; "lambo"; "tendies";
    "wen"; "wojak"; "pepe"; "frog"; "moon"; "bored"; "ape"; "monkey"; "trump";
    "biden"; "pump"; "dump"; "fomo"; "goku"; "senpai"; "sama"; "waifu" ].

(** [x || ''] *)
Definition or_empty (x : option string) : string :=
  match x with Some v => v | None => EmptyString end.

Definition isMemetoken (tokenInfo : TokenMetadata) : bool :=
  let nameLC := toLowerCase (or_empty (tokenName tokenInfo)) in
  let symbolLC := toLowerCase (or_empty (tokenSymbol tokenInfo)) in
  (* meme terms in name or symbol *)
  let hasMemeTerms :=
    existsb (fun term => includes nameLC term || includes symbolLC term)
            memeTerms in
  (* common patterns in memecoin symbols (all caps, short) *)
  let hasMemecoinSymbolPattern :=
    String.eqb symbolLC (toUpperCase symbolLC)
    && (String.length symbolLC <=? 10)%nat
    && (2 <=? String.length symbolLC)%nat in
  (* large supply *)
  let hasLargeSupply := gt (tokenSupply tokenInfo) 1000000 in
  hasMemeTerms
  || (hasMemecoinSymbolPattern && hasLargeSupply)
  || (includes nameLC "token" && hasLargeSupply).

End TokenUtils.

(* ================================================================== *)
(** ** src/utils/socialUtils.js *)
(* ================================================================== *)

Module SocialUtils.

(** What [searchTwitterMentions] returns. *)
Record TwitterData : Type := {
  count : Z;
  sentiment : Q;
  engagement : Z;
  sources : list string
}.

(** One platform of [crawlForTokenMentions]: [{count, sentiment}] and the
    posts or channels found. *)
Record PlatformData : Type := {
  platformCount : Z;
  platformSentiment : Q;
  posts : list string
}.

Record PlatformMentions : Type := {
  reddit : PlatformData;
  telegram : PlatformData
}.

Record TrendingMeme : Type := {
  name : string;
  source : string;
  date : string
}.

Record Correlation : Type := {
  meme : string;
  correlation : Q;
  correlationSource : string;
  correlationDate : string
}.

(** The body of the loop of [calculateMemeCorrelation]: the correlation of
    the token with one meme, after the cap. *)
Definition memeCorrelation (tokenNameLC tokenSymbolLC : string)
           (trendingMeme : TrendingMeme) : Q :=
  let memeName := toLowerCase (name trendingMeme) in
  (* Jaccard similarity coefficient (simplified) *)
  let tokenWords := split_words tokenNameLC in
  let memeWords := split_words memeName in
  let intersection :=
    List.length (filter (fun word => array_includes memeWords word) tokenWords) in
  let union := List.length (nodup string_dec (tokenWords ++ memeWords)%list) in
  let correlation :=
    if (0 <? intersection)%nat
    then Number (Z.of_nat intersection) / Number (Z.of_nat union)
    else 0 in
  (* weighting for symbol matches *)
  let correlation :=
    if includes memeName tokenSymbolLC then correlation + 0.3 else correlation in
  (* cap at 1.0 *)
  Qmin correlation 1.0.

Definition calculateMemeCorrelation (tokenName tokenSymbol : string)
           (trendingMemes : list TrendingMeme) : list Correlation :=
  let tokenNameLC := toLowerCase tokenName in
  let tokenSymbolLC := toLowerCase tokenSymbol in
  let correlations :=
    flat_map
      (fun trendingMeme =>
         let correlation := memeCorrelation tokenNameLC tokenSymbolLC trendingMeme in
         if gt correlation 0.1
         then [ {| meme := name trendingMeme;
                   correlation := correlation;
                   correlationSource := source trendingMeme;
                   correlationDate := date trendingMeme |} ]
         else [])
      trendingMemes in
  sort (fun a b => correlation b - correlation a) correlations.

Definition positiveWords : list string :=
  [ "moon"; "gem"; "hodl"; "bullish"; "gains"; "pump"; "green"; "buy";
    "win"; "profit"; "rocket"; "lambo"; "rich"; "good"; "great"; "best";
    "amazing"; "excellent"; "winner"; "early"; "opportunity"; "next"; "x10";
    "x100" ].

Definition negativeWords : list string :=
  [ "dump"; "scam"; "rug"; "sell"; "red"; "loss"; "crash"; "bad"; "worst";
    "terrible"; "avoid"; "bear"; "bearish"; "fake"; "shit"; "crap"; "trash";
    "waste"; "poor"; "fail"; "failure"; "ponzi"; "beware"; "careful" ].

(** The counter of one of the two loops of [calculateSentiment]: the words
    of the list that occur in the text. *)
Definition countWords (textLower : string) (words : list string) : Z :=
  fold_left (fun counter word =>
               if includes textLower word then (counter + 1)%Z else counter)
            words 0%Z.

Definition calculateSentiment (text : string) : Q :=
  let textLower := toLowerCase text in
  let positiveCount := countWords textLower positiveWords in
  let negativeCount := countWords textLower negativeWords in
  if (positiveCount =? 0)%Z && (negativeCount =? 0)%Z then 0
  else Number (positiveCount - negativeCount)
       / Number (positiveCount + negativeCount).

Record PublicMetrics : Type := {
  like_count : option Z;
  retweet_count : option Z;
  reply_count : option Z
}.

Record Tweet : Type := {
  tweetId : string;
  text : string;
  tweetCreatedAt : string;
  public_metrics : option PublicMetrics
}.

(** [tweet.public_metrics?.field || 0] *)
Definition metric (field : PublicMetrics -> option Z) (tweet : Tweet) : Z :=
  match public_metrics tweet with
  | Some metrics => match field metrics with Some n => n | None => 0%Z end
  | None => 0%Z
  end.

Definition tweetEngagement (tweet : Tweet) : Z :=
  (metric like_count tweet + metric retweet_count tweet
   + metric reply_count tweet)%Z.

Definition noTwitterData : TwitterData :=
  {| count := 0; sentiment := 0; engagement := 0; sources := [] |}.

(** [searchTwitterMentions]. The client is absent without credentials; its
    search takes the query and may throw, or answer without data. A source
    is kept as the text of its tweet. *)
Definition searchTwitterMentions
  (twitterClient : option (string -> result (option (list Tweet))))
  (tokenSymbol tokenName : string) : TwitterData :=
  match twitterClient with
  | None => noTwitterData
  | Some search =>
      let searchQuery := tokenSymbol ++ " OR " ++ tokenName ++ " crypto" in
      match search searchQuery with
      | Throw _ => noTwitterData
      | Ok None => noTwitterData
      | Ok (Some []) => noTwitterData
      | Ok (Some tweets) =>
          let totalSentiment :=
            sum_of (fun tweet => calculateSentiment (text tweet)) tweets in
          let totalEngagement :=
            fold_left (fun acc tweet => (acc + tweetEngagement tweet)%Z)
                      tweets 0%Z in
          {| count := Z.of_nat (List.length tweets);
             sentiment :=
               if (0 <? List.length tweets)%nat
               then totalSentiment / Number (Z.of_nat (List.length tweets))
               else 0;
             engagement := totalEngagement;
             sources := firstn 10 (map text tweets) |}
      end
  end.

Definition telegramChannels : list string :=
  [ "solana_news"; "solana_defi"; "solana_memecoin"; "crypto_signals";
    "crypto_gems" ].

(** [crawlTelegramMentions]; [random1] and [random2] are the two values
    drawn from [Math.random()]. *)
Definition crawlTelegramMentions (random1 random2 : Q) : PlatformData :=
  let randomMentions := Math_floor (random1 * 10) in
  {| platformCount := randomMentions;
     platformSentiment := random2 * 2 - 1;
     posts := slice0 randomMentions telegramChannels |}.

(** What the search of Reddit found: title and votes of each post. *)
Record RedditPost : Type := {
  title : string;
  upvotes : string
}.

(** [crawlForTokenMentions]; a search of Reddit that fails, through the
    browser or through the JSON endpoint, leaves no post. *)
Definition crawlForTokenMentions (redditSearch : result (list RedditPost))
  (random1 random2 : Q) : PlatformMentions :=
  let redditPosts :=
    match redditSearch with
    | Ok found => found
    | Throw _ => []
    end in
  let telegramMentions := crawlTelegramMentions random1 random2 in
  {| reddit :=
       {| platformCount := Z.of_nat (List.length redditPosts);
          platformSentiment :=
            if (0 <? List.length redditPosts)%nat
            then sum_of (fun post => calculateSentiment (title post)) redditPosts
                 / Number (Z.of_nat (List.length redditPosts))
            else 0;
          posts := firstn 5 (map title redditPosts) |};
     telegram := telegramMentions |}.

(** What [trackTrendingMemes] reads. [knowYourMeme] is the text of the
    heading of every entry of the trending page, [redditHot] the children of
    the listing, each request or its parsing possibly failing; [clock] gives
    the successive readings of [new Date().toISOString()]. *)
Inductive RedditChild : Type :=
| malformed
| untitled
| titled (title : string) (permalink : option string).

Record MemeSites : Type := {
  knowYourMeme : result (list string);
  redditHot : result (list RedditChild);
  clock : nat -> string
}.

(** The ten predefined memes, each with the reading of the clock at which
    it is built. *)
Definition fallbackMemes (clock : nat -> string) : list TrendingMeme :=
  mapi (fun entry index =>
          {| name := fst entry; source := snd entry; date := clock index |})
       [ ("Dogwifhat", "popular culture");
         ("Pepe the Frog", "popular culture");
         ("Wojak", "popular culture");
         ("Chad", "popular culture");
         ("Doge", "popular culture");
         ("Moon Boy", "crypto culture");
         ("Diamond Hands", "crypto culture");
         ("Paper Hands", "crypto culture");
         ("WAGMI", "crypto culture");
         ("HODL", "crypto culture") ].

(** [if (memeName && !trendingMemes.some(m => m.name === memeName))
    trendingMemes.push(...)]; the ten readings of the clock before the
    first push are those of the predefined memes. *)
Definition pushMeme (clock : nat -> string) (trendingMemes : list TrendingMeme)
  (memeName memeSource : string) : list TrendingMeme :=
  if negb (String.eqb memeName EmptyString)
     && negb (existsb (fun m => String.eqb (name m) memeName) trendingMemes)
  then (trendingMemes
        ++ [ {| name := memeName;
                source := memeSource;
                date := clock (10 + List.length trendingMemes)%nat |} ])%list
  else trendingMemes.

Definition scrapeKnowYourMeme (clock : nat -> string) (headings : list string)
  (trendingMemes : list TrendingMeme) : list TrendingMeme :=
  fold_left (fun trendingMemes heading =>
               pushMeme clock trendingMemes (trim heading)
                        "https://knowyourmeme.com/memes/trending")
            headings trendingMemes.

(** The loop over the posts of the listing: a post without data or title
    is passed over, and a child on which the body throws ends the loop, the
    memes pushed before it being kept. *)
Fixpoint scrapeReddit (clock : nat -> string) (children : list RedditChild)
  (trendingMemes : list TrendingMeme) : list TrendingMeme :=
  match children with
  | [] => trendingMemes
  | malformed :: _ => trendingMemes
  | untitled :: rest => scrapeReddit clock rest trendingMemes
  | titled title permalink :: rest =>
      scrapeReddit clock rest
        (pushMeme clock trendingMemes (trim title)
                  ("https://www.reddit.com"
                   ++ match permalink with
                      | Some link => link
                      | None => "undefined"
                      end))
  end.

Definition trackTrendingMemes (sites : MemeSites) : list TrendingMeme :=
  let trendingMemes := [] in
  let trendingMemes :=
    match knowYourMeme sites with
    | Ok headings => scrapeKnowYourMeme (clock sites) headings trendingMemes
    | Throw _ => trendingMemes
    end in
  let trendingMemes :=
    match redditHot sites with
    | Ok children => scrapeReddit (clock sites) children trendingMemes
    | Throw _ => trendingMemes
    end in
  (* use fallback memes if scraping failed to get any *)
  if (List.length trendingMemes =? 0)%nat
  then fallbackMemes (clock sites)
  else trendingMemes.

End SocialUtils.

(* ================================================================== *)
(** ** src/functions/getHypeScore.js *)
(* ================================================================== *)

Module GetHypeScore.

Import Database TokenUtils SocialUtils.

(** The report of the handler. A number of the source that can be NaN is
    an [option] here, NaN being [None]. *)
Record HypeReport : Type := {
  tokenAddress : string;
  reportName : string;
  reportSymbol : string;
  hypeScore : option Z;
  totalEngagement : Z;
  reportSentiment : Q;
  recentTwitter : list string;
  recentReddit : list string
}.

(** What the handler calls: the query for the token, the Twitter client
    and the search of Reddit behind the two collectors, the two values that
    [Math.random()] returns to [crawlTelegramMentions], the price endpoint
    behind [getTokenLiquidity], the [INSERT] of the signals and the clock. *)
Record Env : Type := {
  queryOne : string -> result (option TokenInfo);
  twitterClient : option (string -> result (option (list Tweet)));
  redditSearch : string -> string -> result (list RedditPost);
  random1 : Q;
  random2 : Q;
  priceData : string -> result (option PriceData);
  execute : string -> TwitterData -> result unit;
  now : Z
}.

Definition socialEngagement (twitterData : TwitterData)
           (platformMentions : PlatformMentions) : Z :=
  (engagement twitterData
   + platformCount (reddit platformMentions) * 5
   + platformCount (telegram platformMentions) * 3)%Z.

Definition twitterWeight : Q := 0.5.
Definition redditWeight : Q := 0.3.
Definition telegramWeight : Q := 0.2.

Definition averageSentiment (twitterData : TwitterData)
           (platformMentions : PlatformMentions) : Q :=
  let weightedSentiment := 0 in
  let totalWeight := 0 in
  let '(weightedSentiment, totalWeight) :=
    if (count twitterData >? 0)%Z
    then (weightedSentiment + sentiment twitterData * twitterWeight,
          totalWeight + twitterWeight)
    else (weightedSentiment, totalWeight) in
  let '(weightedSentiment, totalWeight) :=
    if (platformCount (reddit platformMentions) >? 0)%Z
    then (weightedSentiment
          + platformSentiment (reddit platformMentions) * redditWeight,
          totalWeight + redditWeight)
    else (weightedSentiment, totalWeight) in
  let '(weightedSentiment, totalWeight) :=
    if (platformCount (telegram platformMentions) >? 0)%Z
    then (weightedSentiment
          + platformSentiment (telegram platformMentions) * telegramWeight,
          totalWeight + telegramWeight)
    else (weightedSentiment, totalWeight) in
  if gt totalWeight 0 then weightedSentiment / totalWeight else 0.

(** [(now - new Date(tokenInfo.created_at)) / (1000 * 60 * 60 * 24)]:
    NaN when the row has no [created_at]. *)
Definition ageInDays (now : Z) (created_at : option Z) : option Q :=
  match created_at with
  | Some tokenCreatedDate =>
      Some (Number (now - tokenCreatedDate) / (1000 * 60 * 60 * 24))
  | None => None
  end.

(** Higher for newer tokens, 1.0 at 30 days. *)
Definition ageFactor (ageInDays : Q) : Q :=
  Qmax 0.5 (Qmin 1.5 (2 - ageInDays / 30)).

Definition priceChangeFactor (liquidityData : MarketData) : Q :=
  Qmin 2 (Qmax 0.5 ((priceChange24h liquidityData + 100) / 100)).

(** -1..1 to 0.5..1.5 *)
Definition sentimentFactor (averageSentiment : Q) : Q :=
  averageSentiment * 0.5 + 1.

Section WithLog10.

Variable log10 : Q -> Q.

(** The two factors with a logarithm, for an argument of [Math.log10] that
    is not negative; [hypeScoreOf] below has the other case. *)
Definition volumeFactor (liquidityData : MarketData) : Q :=
  Qmin 2 (Qmax 0.2 (log10 (volume24h liquidityData + 1) / 4)).

Definition socialEngagementFactor (socialEngagement : Z) : Q :=
  Qmin 2 (Qmax 0.2 (log10 (Number socialEngagement + 1) / 2)).

(** The final hype score (0-100) of the handler, for an age that is a
    number. *)
Definition calculateHypeScore (ageInDays : Q) (twitterData : TwitterData)
           (platformMentions : PlatformMentions) (liquidityData : MarketData)
  : Z :=
  Z.min 100
        (Math_round
           (20 * ageFactor ageInDays
            * volumeFactor liquidityData
            * priceChangeFactor liquidityData
            * socialEngagementFactor
                (socialEngagement twitterData platformMentions)
            * sentimentFactor
                (averageSentiment twitterData platformMentions))).

(** The hype score as the handler computes it. [Math.log10] of a negative
    number is NaN, and a NaN passes through [Math.min], [Math.max], the
    product and [Math.round]: the score is NaN when the age is, and when one
    of the two logarithms is taken of a negative number. *)
Definition hypeScoreOf (ageInDays : option Q) (twitterData : TwitterData)
           (platformMentions : PlatformMentions) (liquidityData : MarketData)
  : option Z :=
  match ageInDays with
  | None => None
  | Some ageInDays =>
      if lt (volume24h liquidityData + 1) 0
         || lt (Number (socialEngagement twitterData platformMentions) + 1) 0
      then None
      else Some (calculateHypeScore ageInDays twitterData platformMentions
                                    liquidityData)
  end.

Definition handler (env : Env) (tokenAddress : option string)
  : result HypeReport :=
  match tokenAddress with
  | None => Throw "Token address is required"
  | Some EmptyString => Throw "Token address is required"
  | Some tokenAddress =>
      try_catch
        (found <- queryOne env tokenAddress ;;
         match found with
         | None => Throw ("Token not found: " ++ tokenAddress)
         | Some tokenInfo =>
             let twitterData :=
               searchTwitterMentions
                 (twitterClient env)
                 (Database.symbol tokenInfo) (Database.name tokenInfo) in
             let platformMentions :=
               crawlForTokenMentions
                 (redditSearch env (Database.symbol tokenInfo)
                               (Database.name tokenInfo))
                 (random1 env) (random2 env) in
             let liquidityData := getTokenLiquidity (priceData env) tokenAddress in
             let hypeScore :=
               hypeScoreOf
                 (ageInDays (now env) (created_at tokenInfo))
                 twitterData platformMentions liquidityData in
             _ <- execute env tokenAddress twitterData ;;
             Ok {| tokenAddress := tokenAddress;
                   reportName := Database.name tokenInfo;
                   reportSymbol := Database.symbol tokenInfo;
                   hypeScore := hypeScore;
                   totalEngagement :=
                     socialEngagement twitterData platformMentions;
                   reportSentiment :=
                     averageSentiment twitterData platformMentions;
                   recentTwitter := firstn 3 (sources twitterData);
                   recentReddit := firstn 3 (posts (reddit platformMentions)) |}
         end)
        (fun message => Throw ("Failed to calculate hype score: " ++ message))
  end.

End WithLog10.

End GetHypeScore.

(* ================================================================== *)
(** ** src/functions/runRugpullScan.js *)
(* ================================================================== *)

Module RunRugpullScan.

Import Database SafetyUtils.

(** The row written to the table [safety_scores]. *)
Record SafetyScoreRow : Type := {
  token_address : string;
  contract_score : Q;
  rugpull_risk_score : Q;
  holder_distribution_score : Q;
  liquidity_score : Q;
  overall_safety_score : Z
}.

Record Env : Type := {
  queryOne : string -> result (option TokenInfo);
  chain : SafetyUtils.Env;
  execute : SafetyScoreRow -> result unit
}.

Record RugpullReport : Type := {
  reportAddress : string;
  reportName : string;
  reportSymbol : string;
  reportSafetyScore : Z;
  riskLevel : string;
  onChainMetrics : SafetyDetails;
  scamSimilarity : ScamSimilarity;
  reportWarnings : list string;
  recommendations : list string
}.

(** Combined safety score (weighted average). *)
Definition combinedSafetyScore (safetyAnalysis : SafetyAnalysis)
           (scamSimilarity : ScamSimilarity) : Q :=
  (safetyScore safetyAnalysis * 0.7) + (100 - scamScore scamSimilarity) * 0.3.

Definition generateRiskLevel (safetyScore : Q) : string :=
  if ge safetyScore 80 then "Low"
  else if ge safetyScore 50 then "Medium"
  else if ge safetyScore 20 then "High"
  else "Extreme".

Definition scamWarning : string :=
  "This token has some similarities to previously identified scam tokens.".

(** The [warnings] of the report. *)
Definition scanWarnings (safetyAnalysis : SafetyAnalysis)
           (scamSimilarity : ScamSimilarity) : list string :=
  (warnings safetyAnalysis
   ++ (if gt (scamScore scamSimilarity) 30 then [scamWarning] else []))%list.

Definition generateRecommendations (safetyScore : Q)
           (safetyAnalysis : SafetyAnalysis) (scamSimilarity : ScamSimilarity)
  : list string :=
  let recommendations :=
    if lt safetyScore 20 then
      ["EXTREME CAUTION: This token exhibits multiple high-risk characteristics. Not recommended for investment."]
    else if lt safetyScore 50 then
      ["HIGH RISK: This token shows several concerning patterns. Proceed with significant caution if considering investment."]
    else if lt safetyScore 80 then
      ["MODERATE RISK: This token has some risk factors to be aware of. Practice caution and only invest what you can afford to lose."]
    else
      ["LOWER RISK: This token appears to have fewer risk factors than many memecoins, but all memecoins carry inherent risks."] in
  let recommendations :=
    if mintAuthorityExists (details safetyAnalysis)
    then (recommendations ++
          ["The token has an active mint authority, meaning more tokens can be created at any time. This could lead to value dilution."])%list
    else recommendations in
  let recommendations :=
    if gt (topHolderPercentage (details safetyAnalysis)) 50
    then (recommendations ++
          [("A single holder owns "
            ++ toFixed (topHolderPercentage (details safetyAnalysis)) 2
            ++ "% of the supply, creating high concentration risk and potential for price manipulation.")%string])%list
    else recommendations in
  let recommendations :=
    if negb (hasLiquidity (details safetyAnalysis))
    then (recommendations ++
          ["The token lacks significant liquidity on major DEXs, which could make it difficult to exit positions."])%list
    else recommendations in
  let recommendations :=
    if gt (scamScore scamSimilarity) 50
    then (recommendations ++
          ["This token has significant similarities to tokens previously identified as scams or rugpulls."])%list
    else recommendations in
  let recommendations :=
    if (holderCount (details safetyAnalysis) <? 50)%Z
    then (recommendations ++
          ["The token has a small holder base, which often indicates a new or less established project."])%list
    else recommendations in
  (recommendations ++
   ["REMINDER: All memecoins are speculative investments with high volatility. Never invest more than you can afford to lose."])%list.

Definition handler (env : Env) (tokenAddress : option string)
  : result RugpullReport :=
  match tokenAddress with
  | None => Throw "Token address is required"
  | Some EmptyString => Throw "Token address is required"
  | Some tokenAddress =>
      try_catch
        (found <- queryOne env tokenAddress ;;
         match found with
         | None => Throw ("Token not found: " ++ tokenAddress)
         | Some tokenInfo =>
             safetyAnalysis <- analyzeTokenSafety (chain env) tokenAddress ;;
             let scamSimilarity := checkScamSimilarity tokenAddress in
             let safetyScore := combinedSafetyScore safetyAnalysis scamSimilarity in
             let riskLevel := generateRiskLevel safetyScore in
             _ <- execute env
                    {| token_address := tokenAddress;
                       contract_score :=
                         if mintAuthorityExists (details safetyAnalysis)
                         then 50 else 90;
                       rugpull_risk_score := scamScore scamSimilarity;
                       holder_distribution_score :=
                         100 - topHolderPercentage (details safetyAnalysis);
                       liquidity_score :=
                         if hasLiquidity (details safetyAnalysis)
                         then 80 else 20;
                       overall_safety_score := Math_round safetyScore |} ;;
             Ok {| reportAddress := tokenAddress;
                   reportName := Database.name tokenInfo;
                   reportSymbol := Database.symbol tokenInfo;
                   reportSafetyScore := Math_round safetyScore;
                   riskLevel := riskLevel;
                   onChainMetrics := details safetyAnalysis;
                   scamSimilarity := scamSimilarity;
                   reportWarnings := scanWarnings safetyAnalysis scamSimilarity;
                   recommendations :=
                     generateRecommendations
                       safetyScore safetyAnalysis scamSimilarity |}
         end)
        (fun message => Throw ("Failed to run rugpull scan: " ++ message))
  end.

End RunRugpullScan.

(* ================================================================== *)
(** ** src/functions/getPortfolioStrategy.js *)
(* ================================================================== *)

Module GetPortfolioStrategy.

Import TokenUtils.

(** Novelty factor from the age of the token. *)
Definition calculateNoveltyFactor (now creationDate : Z) : Q :=
  let ageInDays := Number (now - creationDate) / (1000 * 60 * 60 * 24) in
  if lt ageInDays 1 then 1.0
  else if lt ageInDays 7 then 0.8
  else if lt ageInDays 30 then 0.6
  else if lt ageInDays 90 then 0.4
  else 0.2.

Definition calculateRiskAdjustedScore (safetyScore noveltyFactor marketFactor : Q)
  : Q :=
  let normalizedSafety := safetyScore / 100 in
  (normalizedSafety * 0.5) + (noveltyFactor * 0.25) + (marketFactor * 0.25).

(** The aggregate row of the table [social_signals]; a [NULL] is [None]. *)
Record SocialSignals : Type := {
  avg_sentiment : option Q;
  total_mentions : option Z;
  total_engagement : option Z
}.

(** A row of the table [meme_correlations]. *)
Record MemeCorrelationRow : Type := {
  meme_name : string;
  correlation_score : option Q
}.

Definition calculateMemeScore (memeCorrelations : list MemeCorrelationRow) : Q :=
  match memeCorrelations with
  | [] => 0.2
  | _ =>
      let avgCorrelation :=
        fold_left (fun sum item => sum + or_zero (correlation_score item))
                  memeCorrelations 0
        / Number (Z.of_nat (List.length memeCorrelations)) in
      let countBonus :=
        Qmin 0.3 (Number (Z.of_nat (List.length memeCorrelations)) * 0.05) in
      Qmin 1 (avgCorrelation + countBonus)
  end.

(** The final opportunity score computed by the handler. *)
Definition opportunityScoreOf (riskAdjustedScore socialScore memeScore : Q) : Q :=
  riskAdjustedScore * 0.4 + socialScore * 0.3 + memeScore * 0.3.

Section WithLog10.

Variable log10 : Q -> Q.

Definition calculateMarketFactor (marketData : MarketData) : Q :=
  let priceChangeFactor :=
    if gt (priceChange24h marketData) 0
    then Qmin 1 (priceChange24h marketData / 100) + 0.5
    else Qmax 0 (0.5 - Qabs (priceChange24h marketData) / 100) in
  let volumeFactor := Qmin 1 (log10 (volume24h marketData + 1) / 6) in
  let liquidityFactor := Qmin 1 (log10 (liquidity marketData + 1) / 6) in
  (priceChangeFactor * 0.4) + (volumeFactor * 0.3) + (liquidityFactor * 0.3).

Definition calculateSocialScore (socialData : option SocialSignals) : Q :=
  match socialData with
  | None => 0.3
  | Some socialData =>
      match total_mentions socialData with
      | None => 0.3
      | Some 0%Z => 0.3
      | Some mentions =>
          let mentionsFactor := Qmin 1 (log10 (Number mentions + 1) / 3) in
          let engagementFactor :=
            Qmin 1 (log10 (Number (match total_engagement socialData with
                                   | Some e => e
                                   | None => 0%Z
                                   end) + 1) / 4) in
          let sentimentFactor :=
            match avg_sentiment socialData with
            | Some s => if Qeq_bool s 0 then 0.5 else (s + 1) / 2
            | None => 0.5
            end in
          (mentionsFactor * 0.4) + (engagementFactor * 0.3)
          + (sentimentFactor * 0.3)
      end
  end.

(** The opportunity score of one token, as the loop of the handler
    computes it from the safety score in use, the novelty factor, the
    market data and the two database aggregates. *)
Definition computeOpportunityScore (safetyScore noveltyFactor : Q)
           (marketData : MarketData) (socialSignals : option SocialSignals)
           (memeCorrelations : list MemeCorrelationRow) : Q :=
  let marketFactor := calculateMarketFactor marketData in
  let riskAdjustedScore :=
    calculateRiskAdjustedScore safetyScore noveltyFactor marketFactor in
  let socialScore := calculateSocialScore socialSignals in
  let memeScore := calculateMemeScore memeCorrelations in
  opportunityScoreOf riskAdjustedScore socialScore memeScore.

End WithLog10.

(** An entry of [processedTokens], with the fields the allocation reads. *)
Record ProcessedToken : Type := {
  address : string;
  name : string;
  symbol : string;
  safetyScore : Q;
  opportunityScore : Q
}.

Record AllocationParameters : Type := {
  maxTokens : Z;
  estabRatio : Q;
  newRatio : Q;
  specRatio : Q;
  minSafetyScore : Q
}.

(** The [switch] on the risk tolerance; 'moderate' and any other value keep
    the defaults. *)
Definition allocationParameters (riskTolerance : string) : AllocationParameters :=
  if String.eqb riskTolerance "conservative" then
    {| maxTokens := 3; estabRatio := 0.8; newRatio := 0.2; specRatio := 0;
       minSafetyScore := 70 |}
  else if String.eqb riskTolerance "aggressive" then
    {| maxTokens := 7; estabRatio := 0.4; newRatio := 0.4; specRatio := 0.2;
       minSafetyScore := 40 |}
  else if String.eqb riskTolerance "very_aggressive" then
    {| maxTokens := 10; estabRatio := 0.2; newRatio := 0.5; specRatio := 0.3;
       minSafetyScore := 30 |}
  else
    {| maxTokens := 5; estabRatio := 0.6; newRatio := 0.3; specRatio := 0.1;
       minSafetyScore := 60 |}.

Definition byOpportunity (a b : ProcessedToken) : Q :=
  opportunityScore b - opportunityScore a.

Definition established (parameters : AllocationParameters)
           (processedTokens : list ProcessedToken) : list ProcessedToken :=
  slice0 (Z.max 1 (Math_floor (Number (maxTokens parameters) * 0.4)))
         (filter (fun t => ge (safetyScore t) (minSafetyScore parameters))
                 processedTokens).

Definition newTokens (parameters : AllocationParameters)
           (processedTokens : list ProcessedToken) : list ProcessedToken :=
  slice0 (Z.max 1 (Math_floor (Number (maxTokens parameters) * 0.4)))
         (sort byOpportunity
               (filter (fun t =>
                          ge (safetyScore t) (minSafetyScore parameters * 0.7)
                          && lt (safetyScore t) (minSafetyScore parameters))
                       processedTokens)).

Definition speculative (parameters : AllocationParameters)
           (processedTokens : list ProcessedToken) : list ProcessedToken :=
  slice0 (Z.max 1 (Math_floor (Number (maxTokens parameters) * 0.2)))
         (sort byOpportunity
               (filter (fun t =>
                          lt (safetyScore t) (minSafetyScore parameters * 0.7))
                       processedTokens)).

(** An entry of the caller's existing portfolio. *)
Record Holding : Type := {
  heldAddress : string;
  heldAmount : Q
}.

(** The tokens of a bucket that are not in the existing portfolio. *)
Definition notHeld (existingPortfolio : option (list Holding))
           (bucket : list ProcessedToken) : list ProcessedToken :=
  let existingAddresses :=
    map heldAddress
        (match existingPortfolio with Some p => p | None => [] end) in
  filter (fun t => negb (array_includes existingAddresses (address t))) bucket.

Record Allocation : Type := {
  token : ProcessedToken;
  amount : Q;
  category : string;
  reasoning : string
}.

(** One of the three [forEach] loops: the bucket shares [bucketAllocation]
    by position in the list, each amount rounded to cents. *)
Definition allocate (bucket : list ProcessedToken) (bucketAllocation : Q)
           (category reasoning : string) : list Allocation :=
  mapi (fun token index =>
          let weight :=
            1 - (Number (Z.of_nat index)
                 / Number (Z.of_nat (List.length bucket))) * 0.5 in
          let amount :=
            (bucketAllocation * weight)
            / Number (Z.of_nat (List.length bucket)) in
          {| token := token;
             amount := Number (Math_round (amount * 100)) / 100;
             category := category;
             reasoning := reasoning |})
       bucket.

(** The array [allocations] built by [generatePortfolioAllocation]. *)
Definition allocations (processedTokens : list ProcessedToken)
           (riskTolerance : string) (investmentSize : Q)
           (existingPortfolio : option (list Holding)) : list Allocation :=
  let parameters := allocationParameters riskTolerance in
  let filteredEstablished :=
    notHeld existingPortfolio (established parameters processedTokens) in
  let filteredNew :=
    notHeld existingPortfolio (newTokens parameters processedTokens) in
  let filteredSpeculative :=
    notHeld existingPortfolio (speculative parameters processedTokens) in
  let remainingAllocation := investmentSize in
  (* established tokens *)
  let estabAllocation := investmentSize * estabRatio parameters in
  let remainingAllocation := remainingAllocation - estabAllocation in
  (* new tokens *)
  let newAllocation := investmentSize * newRatio parameters in
  let remainingAllocation := remainingAllocation - newAllocation in
  (allocate filteredEstablished estabAllocation "established"
            "Lower risk established memecoin with good market metrics"
   ++ allocate filteredNew newAllocation "new"
            "Moderate risk newer memecoin showing promising signals"
   ++ allocate filteredSpeculative remainingAllocation "speculative"
            "Higher risk speculative memecoin with potential for significant returns")%list.

Record Recommendation : Type := {
  tokenAddress : string;
  recommendedName : string;
  recommendedSymbol : string;
  recommendedAmount : Q;
  percentage : string;
  recommendationReasoning : string;
  recommendedOpportunityScore : string;
  recommendedSafetyScore : Q
}.

Record Categories : Type := {
  establishedShare : Z;
  newShare : Z;
  speculativeShare : Z
}.

Record Portfolio : Type := {
  totalInvestment : Q;
  riskTolerance : string;
  recommendations : list Recommendation;
  categories : Categories
}.

(** [(amount / investmentSize * 100).toFixed(1) + '%']; with no investment
    the quotient is 0/0 and prints as NaN. *)
Definition percentageOf (amount investmentSize : Q) : string :=
  if Qeq_bool investmentSize 0 then "NaN%"
  else toFixed (amount / investmentSize * 100) 1 ++ "%".

Definition generatePortfolioAllocation (processedTokens : list ProcessedToken)
           (riskTolerance : string) (investmentSize : Q)
           (existingPortfolio : option (list Holding)) : Portfolio :=
  let parameters := allocationParameters riskTolerance in
  let allocations :=
    allocations processedTokens riskTolerance investmentSize existingPortfolio in
  let recommendations :=
    map (fun allocation =>
           {| tokenAddress := address (token allocation);
              recommendedName := name (token allocation);
              recommendedSymbol := symbol (token allocation);
              recommendedAmount := amount allocation;
              percentage := percentageOf (amount allocation) investmentSize;
              recommendationReasoning := reasoning allocation;
              recommendedOpportunityScore :=
                toFixed (opportunityScore (token allocation)) 2;
              recommendedSafetyScore := safetyScore (token allocation) |})
        allocations in
  {| totalInvestment := investmentSize;
     riskTolerance := riskTolerance;
     recommendations := recommendations;
     categories :=
       {| establishedShare := Math_round (estabRatio parameters * 100);
          newShare := Math_round (newRatio parameters * 100);
          speculativeShare := Math_round (specRatio parameters * 100) |} |}.

(** The texts of [generateStrategy], chosen by its [switch]; a risk
    tolerance outside the four cases leaves them empty. *)
Definition baseStrategyFor (riskTolerance : string) : string :=
  if String.eqb riskTolerance "conservative" then
    "Focus on established memecoins with proven market presence "
    ++ "and higher safety scores. Minimize exposure to newer, "
    ++ "unproven tokens."
  else if String.eqb riskTolerance "moderate" then
    "Balanced approach with majority in established memecoins but "
    ++ "allowing for moderate exposure to newer tokens with strong "
    ++ "signals."
  else if String.eqb riskTolerance "aggressive" then
    "Growth-focused approach with significant allocation to newer "
    ++ "tokens showing strong social signals and meme correlation. "
    ++ "Still maintain some safer positions as anchors."
  else if String.eqb riskTolerance "very_aggressive" then
    "Maximum growth potential with heavy focus on emerging tokens "
    ++ "with strong meme correlation and social signals. Minimal "
    ++ "allocation to established tokens."
  else EmptyString.

Definition entryStrategyFor (riskTolerance : string) : string :=
  if String.eqb riskTolerance "conservative" then
    "Dollar-cost average into positions over 1-2 weeks rather "
    ++ "than buying all at once."
  else if String.eqb riskTolerance "moderate" then
    "Enter positions in 2-3 tranches, with larger allocations to "
    ++ "safer tokens first."
  else if String.eqb riskTolerance "aggressive" then
    "More aggressive entry with 60-70% of position at once for "
    ++ "tokens with strong momentum."
  else if String.eqb riskTolerance "very_aggressive" then
    "Rapid entry on tokens showing momentum, with focus on "
    ++ "catching early moves in trending meme themes."
  else EmptyString.

Definition exitStrategyFor (riskTolerance : string) : string :=
  if String.eqb riskTolerance "conservative" then
    "Set conservative profit targets of 20-50% and use stop "
    ++ "losses at 15-20% below entry."
  else if String.eqb riskTolerance "moderate" then
    "Set profit targets of 50-100% for established tokens and "
    ++ "100-200% for newer ones. Use trailing stops of 20-25%."
  else if String.eqb riskTolerance "aggressive" then
    "Set tiered profit-taking at 100%, 200%, and 300%+. Use "
    ++ "looser stops of 30-35% or based on key support levels."
  else if String.eqb riskTolerance "very_aggressive" then
    "Set partial profit-taking at 100%, but let winners run with "
    ++ "trailing stops. Quickly cut losses on tokens that don't gain "
    ++ "traction."
  else EmptyString.

Definition timeHorizonFor (riskTolerance : string) : string :=
  if String.eqb riskTolerance "conservative" then
    "Medium-term: Hold positions for 1-3 months, reassessing "
    ++ "based on continued performance."
  else if String.eqb riskTolerance "moderate" then
    "Mixed: Hold established positions for 1-3 months, newer "
    ++ "tokens for 2-6 weeks depending on momentum."
  else if String.eqb riskTolerance "aggressive" then
    "Shorter-term: Actively monitor positions daily, with average "
    ++ "hold times of 2-4 weeks for most positions."
  else if String.eqb riskTolerance "very_aggressive" then
    "Very short-term: Actively trade positions with average hold "
    ++ "times of 1-2 weeks, rotating into new opportunities quickly."
  else EmptyString.

Definition keyRisksOfMemecoins : list string :=
  [ "All memecoins carry significant volatility and risk of "
       ++ "permanent loss";
    "Market sentiment can shift rapidly with little warning";
    "Regulatory changes could impact the entire memecoin sector";
    "Liquidity can disappear quickly, especially for newer tokens";
    "Always use proper position sizing and only invest what you "
       ++ "can afford to lose" ].

Record Strategy : Type := {
  overallStrategy : string;
  entryStrategy : string;
  exitStrategy : string;
  timeHorizon : string;
  keyRisks : list string
}.

Definition generateStrategy (portfolio : Portfolio) (riskTolerance : string)
  : Strategy :=
  {| overallStrategy := baseStrategyFor riskTolerance;
     entryStrategy := entryStrategyFor riskTolerance;
     exitStrategy := exitStrategyFor riskTolerance;
     timeHorizon := timeHorizonFor riskTolerance;
     keyRisks := keyRisksOfMemecoins |}.

(** What the handler calls: the clock, the query for the recent memecoins
    with their stored safety score, the price endpoint behind
    [getTokenLiquidity], the chain behind [analyzeTokenSafety], and the two
    queries made for each token. *)
Record Env : Type := {
  now : Z;
  recentMemecoins : result (list Database.TokenInfo);
  priceData : string -> result (option PriceData);
  chain : SafetyUtils.Env;
  socialSignalsOf : string -> result (list SocialSignals);
  memeCorrelationsOf : string -> result (list MemeCorrelationRow)
}.

Record StrategyReport : Type := {
  reportRiskTolerance : string;
  reportInvestmentSize : Q;
  strategy : Strategy;
  portfolio : Portfolio
}.

Section HandlerWithLog10.

Variable log10 : Q -> Q.

(** The safety score in use for a token: the stored one, or that of a new
    analysis when none is stored or the stored one is 0. *)
Definition safetyScoreInUse (env : Env) (token : Database.TokenInfo)
  : result Q :=
  match Database.safety_score token with
  | Some stored =>
      if Qeq_bool stored 0
      then safetyAnalysis <-
             SafetyUtils.analyzeTokenSafety (chain env) (Database.address token) ;;
           Ok (SafetyUtils.safetyScore safetyAnalysis)
      else Ok stored
  | None =>
      safetyAnalysis <-
        SafetyUtils.analyzeTokenSafety (chain env) (Database.address token) ;;
      Ok (SafetyUtils.safetyScore safetyAnalysis)
  end.

(** [calculateNoveltyFactor(token.creation_date || token.created_at)]:
    without either date the age is NaN, no comparison of it holds and the
    factor is the last one, 0.2. *)
Definition noveltyFactorOf (env : Env) (token : Database.TokenInfo) : Q :=
  match match Database.creation_date token with
        | Some createdAt => Some createdAt
        | None => Database.created_at token
        end
  with
  | Some createdAt => calculateNoveltyFactor (now env) createdAt
  | None => 0.2
  end.

(** The body of the loop of the handler for one token. *)
Definition processToken (env : Env) (token : Database.TokenInfo)
  : result ProcessedToken :=
  let marketData :=
    getTokenLiquidity (priceData env) (Database.address token) in
  safetyScore <- safetyScoreInUse env token ;;
  let noveltyFactor := noveltyFactorOf env token in
  socialSignals <- socialSignalsOf env (Database.address token) ;;
  memeCorrelations <- memeCorrelationsOf env (Database.address token) ;;
  Ok {| address := Database.address token;
        name := Database.name token;
        symbol := Database.symbol token;
        safetyScore := safetyScore;
        opportunityScore :=
          computeOpportunityScore log10 safetyScore noveltyFactor marketData
                                  (hd_error socialSignals) memeCorrelations |}.

(** The loop: a token whose processing throws is skipped. *)
Definition processTokens (env : Env) (recent : list Database.TokenInfo)
  : list ProcessedToken :=
  flat_map (fun token =>
              match processToken env token with
              | Ok processed => [processed]
              | Throw _ => []
              end)
           recent.

Definition handler (env : Env) (riskTolerance : string) (investmentSize : Q)
  (existingPortfolio : option (list Holding)) : result StrategyReport :=
  try_catch
    (recent <- recentMemecoins env ;;
     let processedTokens := sort byOpportunity (processTokens env recent) in
     let portfolio :=
       generatePortfolioAllocation processedTokens riskTolerance
                                   investmentSize existingPortfolio in
     let strategy := generateStrategy portfolio riskTolerance in
     Ok {| reportRiskTolerance := riskTolerance;
           reportInvestmentSize := investmentSize;
           strategy := strategy;
           portfolio := portfolio |})
    (fun message =>
       Throw ("Failed to generate portfolio strategy: " ++ message)).

End HandlerWithLog10.

End GetPortfolioStrategy.

(* ================================================================== *)
(** ** src/functions/analyzeMemeCorrelation.js *)
(* ================================================================== *)

Module AnalyzeMemeCorrelation.

Import Database SocialUtils.

(** [word[0]] of a word of the split. *)
Definition firstLetter (word : string) : string :=
  match word with
  | String c _ => String c EmptyString
  | EmptyString => EmptyString
  end.

Definition generateTokenThemesFromMeme (memeName : string) : list string :=
  let memeWords := split_words memeName in
  (* basic transformations *)
  let themes := [memeName ++ " Coin"; memeName ++ " Token"] in
  (* if multiple words, create acronym *)
  let themes :=
    if (1 <? List.length memeWords)%nat
    then (themes
          ++ [String.concat
                EmptyString
                (map (fun word => toUpperCase (firstLetter word)) memeWords)])%list
    else themes in
  (* take first word if multiple *)
  match memeWords with
  | first :: _ => (themes ++ [(toUpperCase first ++ " Coin")%string])%list
  | [] => themes
  end.

(** A row of the table [meme_correlations]. *)
Record CorrelationRow : Type := {
  token_address : string;
  meme_name : string;
  correlation_score : Q
}.

(** What the handler calls: [trackTrendingMemes], the two queries on the
    table [tokens], and the database, which may refuse an [INSERT] into, or
    a [SELECT] from, the table [meme_correlations] with an error. *)
Record Env : Type := {
  trackTrendingMemes : list TrendingMeme;
  queryOne : string -> result (option TokenInfo);
  query : result (list TokenInfo);
  insertError : list CorrelationRow -> CorrelationRow -> option string;
  selectError : list CorrelationRow -> option string
}.

(** [execute('INSERT INTO meme_correlations ... VALUES (?, ?, ?)', row)] on
    the table: the outcome and the table afterwards. *)
Definition execute (env : Env) (row : CorrelationRow)
  (table : list CorrelationRow) : result unit * list CorrelationRow :=
  match insertError env table row with
  | Some message => (Throw message, table)
  | None => (Ok tt, (table ++ [row])%list)
  end.

(** [query('SELECT DISTINCT meme_name FROM meme_correlations')] *)
Definition selectMemeNames (env : Env) (table : list CorrelationRow)
  : result (list string) :=
  match selectError env table with
  | Some message => Throw message
  | None => Ok (nodup string_dec (map meme_name table))
  end.

Record TokenCorrelations : Type := {
  correlatedName : string;
  correlatedSymbol : string;
  correlations : list Correlation
}.

Record PredictedOpportunity : Type := {
  tokenAddress : string;
  opportunityName : string;
  opportunitySymbol : string;
  trendingMemeMatches : list Correlation
}.

Record MissingMemeOpportunity : Type := {
  memeName : string;
  memeSource : string;
  potentialTokenThemes : list string
}.

Record Results : Type := {
  tokens : list (string * TokenCorrelations);
  trendingMemes : option (list TrendingMeme);
  predictedOpportunities : list PredictedOpportunity;
  missingMemeOpportunities : list MissingMemeOpportunity
}.

(** The row inserted for a correlation of a token. *)
Definition correlationRow (token : TokenInfo) (found : Correlation)
  : CorrelationRow :=
  {| token_address := Database.address token;
     meme_name := meme found;
     correlation_score := correlation found |}.

(** The inner loop: the correlations of at least 0.3 are saved, one
    [INSERT] each; the first refusal ends it. *)
Fixpoint saveCorrelations (env : Env) (token : TokenInfo)
  (found : list Correlation) (table : list CorrelationRow)
  : result unit * list CorrelationRow :=
  match found with
  | [] => (Ok tt, table)
  | entry :: rest =>
      if ge (correlation entry) 0.3
      then match execute env (correlationRow token entry) table with
           | (Throw message, table) => (Throw message, table)
           | (Ok _, table) => saveCorrelations env token rest table
           end
      else saveCorrelations env token rest table
  end.

Definition tokenCorrelations (token : TokenInfo) (found : list Correlation)
  : TokenCorrelations :=
  {| correlatedName := Database.name token;
     correlatedSymbol := Database.symbol token;
     correlations := firstn 5 found |}.

Definition strongCorrelations (found : list Correlation) : list Correlation :=
  filter (fun c => ge (correlation c) 0.6) found.

Definition predictedOpportunity (token : TokenInfo)
  (strong : list Correlation) : PredictedOpportunity :=
  {| tokenAddress := Database.address token;
     opportunityName := Database.name token;
     opportunitySymbol := Database.symbol token;
     trendingMemeMatches := strong |}.

(** The loop over the tokens. [summaries] is [results.tokens] and
    [opportunities] is [results.predictedOpportunities] so far, [table] the
    table [meme_correlations]. *)
Fixpoint processTokens (env : Env) (trendingMemes : list TrendingMeme)
  (tokens : list TokenInfo)
  (summaries : list (string * TokenCorrelations))
  (opportunities : list PredictedOpportunity)
  (table : list CorrelationRow)
  : result (list (string * TokenCorrelations) * list PredictedOpportunity)
    * list CorrelationRow :=
  match tokens with
  | [] => (Ok (summaries, opportunities), table)
  | token :: rest =>
      let found :=
        calculateMemeCorrelation
          (Database.name token) (Database.symbol token) trendingMemes in
      match saveCorrelations env token found table with
      | (Throw message, table) => (Throw message, table)
      | (Ok _, table) =>
          let summaries :=
            assign summaries (Database.address token)
                   (tokenCorrelations token found) in
          let strong := strongCorrelations found in
          let opportunities :=
            if (0 <? List.length strong)%nat
            then (opportunities ++ [predictedOpportunity token strong])%list
            else opportunities in
          processTokens env trendingMemes rest summaries opportunities table
      end
  end.

(** Trending memes without a token: those whose name, in lower case, is
    not among the names of the set, the first five. *)
Definition findMissingMemes (trendingMemes : list TrendingMeme)
  (allMemeNames : list string) : list MissingMemeOpportunity :=
  let allMemeSet := map toLowerCase allMemeNames in
  firstn 5
    (map (fun trendingMeme =>
            {| memeName := name trendingMeme;
               memeSource := source trendingMeme;
               potentialTokenThemes :=
                 generateTokenThemesFromMeme (name trendingMeme) |})
         (filter (fun trendingMeme =>
                    let memeName := toLowerCase (name trendingMeme) in
                    let hasExistingToken := array_includes allMemeSet memeName in
                    negb hasExistingToken)
                 trendingMemes)).

(** The tokens to analyse: the one of the address, when an address is
    given, or the recent ones. *)
Definition tokensToAnalyze (env : Env) (tokenAddress : option string)
  : result (list TokenInfo) :=
  match tokenAddress with
  | Some (String c rest) =>
      tokenInfo <- queryOne env (String c rest) ;;
      match tokenInfo with
      | Some tokenInfo => Ok [tokenInfo]
      | None => Throw ("Token not found: " ++ String c rest)
      end
  | _ => query env
  end.

(** What the [catch] of the handler throws. *)
Definition rethrown (message : string) : string :=
  "Failed to analyze meme correlation: " ++ message.

(** The handler, from the table [meme_correlations] before the call to
    its outcome and the table after the call. *)
Definition handler (env : Env) (tokenAddress : option string)
  (includeTrendingReport : bool) (table : list CorrelationRow)
  : result Results * list CorrelationRow :=
  let trendingMemes := trackTrendingMemes env in
  match tokensToAnalyze env tokenAddress with
  | Throw message => (Throw (rethrown message), table)
  | Ok [] => (Throw (rethrown "No tokens found to analyze"), table)
  | Ok tokens =>
      match processTokens env trendingMemes tokens [] [] table with
      | (Throw message, table) => (Throw (rethrown message), table)
      | (Ok (summaries, opportunities), table) =>
          match selectMemeNames env table with
          | Throw message => (Throw (rethrown message), table)
          | Ok allMemeNames =>
              (Ok {| tokens := summaries;
                     trendingMemes :=
                       if includeTrendingReport
                       then Some (firstn 10 trendingMemes)
                       else None;
                     predictedOpportunities := opportunities;
                     missingMemeOpportunities :=
                       findMissingMemes trendingMemes allMemeNames |},
               table)
          end
      end
  end.

End AnalyzeMemeCorrelation.

(* ================================================================== *)
(** ** The doubles of the source *)
(* ================================================================== *)

Set Warnings "-inexact-float".

(** The arithmetic of [generatePortfolioAllocation] and of
    [calculateMarketFactor] on the IEEE doubles of the source, for the
    inputs at which the rounding of a double decides what is returned. The
    tokens, the buckets and the presets are those of [GetPortfolioStrategy];
    only the amounts and the factors are doubles. *)
Module Doubles.

Import PrimFloat.
Local Open Scope float_scope.

Definition of_Z (z : Z) : float :=
  match z with
  | Z0 => 0
  | Zpos _ => of_uint63 (Uint63.of_Z z)
  | Zneg p => - of_uint63 (Uint63.of_Z (Zpos p))
  end.

Definition of_nat (n : nat) : float := of_Z (Z.of_nat n).

(** The double that a decimal literal denotes, and that holds a number
    read from outside: the quotient of two integers below 2^53 is rounded
    once, to the nearest double. *)
Definition literal (q : Q) : float := of_Z (Qnum q) / of_Z (Zpos (Qden q)).

(** The number that a finite double is. *)
Definition value (x : float) : Q :=
  match FloatOps.Prim2SF x with
  | SpecFloat.S754_finite negative mantissa exponent =>
      let magnitude :=
        if (0 <=? exponent)%Z
        then inject_Z (Zpos mantissa * 2 ^ exponent)
        else Qmake (Zpos mantissa) (2 ^ Z.to_pos (- exponent)) in
      if negative then Qopp magnitude else magnitude
  | _ => 0%Q
  end.

(** [Math.min] and [Math.max] of two numbers. *)
Definition Math_min (x y : float) : float := if x <? y then x else y.
Definition Math_max (x y : float) : float := if x <? y then y else x.

(** [Math.floor]: below 2^52 in size, adding and taking away 2^52 rounds
    to an integer next to [x]; a double of that size or more is an
    integer. *)
Definition Math_floor (x : float) : float :=
  if abs x <? 4503599627370496
  then
    let nearest :=
      if x <? 0
      then (x - 4503599627370496) + 4503599627370496
      else (x + 4503599627370496) - 4503599627370496 in
    if x <? nearest then nearest - 1 else nearest
  else x.

(** [Math.round]: the nearest integer, a half going up. *)
Definition Math_round (x : float) : float :=
  let below := Math_floor x in
  if 0.5 <=? x - below then below + 1 else below.

Record Allocation : Type := {
  token : GetPortfolioStrategy.ProcessedToken;
  amount : float;
  category : string
}.

(** One of the three [forEach] loops. *)
Definition allocate (bucket : list GetPortfolioStrategy.ProcessedToken)
           (bucketAllocation : float) (category : string)
  : list Allocation :=
  mapi (fun token index =>
          let weight :=
            1 - (of_nat index / of_nat (List.length bucket)) * 0.5 in
          let amount :=
            (bucketAllocation * weight) / of_nat (List.length bucket) in
          {| token := token;
             amount := Math_round (amount * 100) / 100;
             category := category |})
       bucket.

(** The array [allocations] built by [generatePortfolioAllocation]. *)
Definition allocations
           (processedTokens : list GetPortfolioStrategy.ProcessedToken)
           (riskTolerance : string) (investmentSize : float)
           (existingPortfolio : option (list GetPortfolioStrategy.Holding))
  : list Allocation :=
  let parameters := GetPortfolioStrategy.allocationParameters riskTolerance in
  let filteredEstablished :=
    GetPortfolioStrategy.notHeld
      existingPortfolio
      (GetPortfolioStrategy.established parameters processedTokens) in
  let filteredNew :=
    GetPortfolioStrategy.notHeld
      existingPortfolio
      (GetPortfolioStrategy.newTokens parameters processedTokens) in
  let filteredSpeculative :=
    GetPortfolioStrategy.notHeld
      existingPortfolio
      (GetPortfolioStrategy.speculative parameters processedTokens) in
  let remainingAllocation := investmentSize in
  (* established tokens *)
  let estabAllocation :=
    investmentSize * literal (GetPortfolioStrategy.estabRatio parameters) in
  let remainingAllocation := remainingAllocation - estabAllocation in
  (* new tokens *)
  let newAllocation :=
    investmentSize * literal (GetPortfolioStrategy.newRatio parameters) in
  let remainingAllocation := remainingAllocation - newAllocation in
  (allocate filteredEstablished estabAllocation "established"
   ++ allocate filteredNew newAllocation "new"
   ++ allocate filteredSpeculative remainingAllocation "speculative")%list.

(** The amounts of the recommendations, as the numbers they are. *)
Definition recommendedAmounts
           (processedTokens : list GetPortfolioStrategy.ProcessedToken)
           (riskTolerance : string) (investmentSize : Q)
           (existingPortfolio : option (list GetPortfolioStrategy.Holding))
  : list Q :=
  map (fun allocation => value (amount allocation))
      (allocations processedTokens riskTolerance (literal investmentSize)
                   existingPortfolio).

(** [Math.log10] where the tests below call it, at a power of ten: the
    exponent. *)
Definition log10 (x : float) : float := literal (floor_log10 (value x)).

Definition calculateMarketFactor (marketData : TokenUtils.MarketData)
  : float :=
  let priceChange24h := literal (TokenUtils.priceChange24h marketData) in
  let volume24h := literal (TokenUtils.volume24h marketData) in
  let liquidity := literal (TokenUtils.liquidity marketData) in
  let priceChangeFactor :=
    if 0 <? priceChange24h
    then Math_min 1 (priceChange24h / 100) + 0.5
    else Math_max 0 (0.5 - abs priceChange24h / 100) in
  let volumeFactor := Math_min 1 (log10 (volume24h + 1) / 6) in
  let liquidityFactor := Math_min 1 (log10 (liquidity + 1) / 6) in
  (priceChangeFactor * 0.4) + (volumeFactor * 0.3) + (liquidityFactor * 0.3).

End Doubles.

(* ================================================================== *)
(** ** Notions used in the statements *)
(* ================================================================== *)

Module Notions.

Import SafetyUtils.

(** The deduction conditions of the contract safety score that hold of a
    record, counted: mint authority present, freeze authority present,
    top holder above 50%, fewer than 100 holders, no liquidity. *)
Definition triggeredDeductions (metrics : SafetyMetrics) : nat :=
  (Nat.b2n (mintAuthorityExists metrics)
   + Nat.b2n (freezeAuthorityExists metrics)
   + Nat.b2n (gt (topHolderPercentage metrics) 50)
   + Nat.b2n (holderCount metrics <? 100)%Z
   + Nat.b2n (negb (hasLiquidity metrics)))%nat.

(** The strings of a list of guarded strings whose guard holds. *)
Definition emitted (guarded : list (bool * string)) : list string :=
  map snd (filter fst guarded).

(** The on-chain lookup fails: the address is not a key, or one of the two
    RPC calls throws. *)
Definition lookupFails (env : Env) (address : string) : Prop :=
  match PublicKey env address with
  | Throw _ => True
  | Ok mintPublicKey =>
      match getMint env mintPublicKey with
      | Throw _ => True
      | Ok _ =>
          match getProgramAccounts env mintPublicKey with
          | Throw _ => True
          | Ok _ => False
          end
      end
  end.

(** Two strings have the same set of words. *)
Definition sameWordSet (s t : string) : Prop :=
  forall word, In word (split_words s) <-> In word (split_words t).

(** The entry pushed for a meme that passes the threshold. *)
Definition entryOf (tokenNameLC tokenSymbolLC : string)
  (trendingMeme : SocialUtils.TrendingMeme) : SocialUtils.Correlation :=
  {| SocialUtils.meme := SocialUtils.name trendingMeme;
     SocialUtils.correlation :=
       SocialUtils.memeCorrelation tokenNameLC tokenSymbolLC trendingMeme;
     SocialUtils.correlationSource := SocialUtils.source trendingMeme;
     SocialUtils.correlationDate := SocialUtils.date trendingMeme |}.

(** No tweet that the client finds has a negative count of likes,
    retweets and replies together. *)
Definition countsNotNegative
  (twitterClient : option (string -> result (option (list SocialUtils.Tweet))))
  : Prop :=
  forall search query tweets,
    twitterClient = Some search ->
    search query = Ok (Some tweets) ->
    Forall (fun tweet => (0 <= SocialUtils.tweetEngagement tweet)%Z) tweets.


(** The aggregate of the stored social signals is in range for the social
    score: an average sentiment of at most 1, and sums of counts that are
    not negative ([Math.log10] is taken of each sum plus 1). *)
Definition plausibleAggregate
  (socialSignals : option GetPortfolioStrategy.SocialSignals) : Prop :=
  match socialSignals with
  | None => True
  | Some row =>
      match GetPortfolioStrategy.avg_sentiment row with
      | Some average => average <= 1
      | None => True
      end
      /\ match GetPortfolioStrategy.total_mentions row with
         | Some mentions => (0 <= mentions)%Z
         | None => True
         end
      /\ match GetPortfolioStrategy.total_engagement row with
         | Some engagement => (0 <= engagement)%Z
         | None => True
         end
  end.

(** The sum of a list of amounts. *)
Definition total (amounts : list Q) : Q := fold_right Qplus 0 amounts.

(** The sum of the amounts recommended by a portfolio. *)
Definition recommendedTotal (portfolio : GetPortfolioStrategy.Portfolio) : Q :=
  total (map GetPortfolioStrategy.recommendedAmount
             (GetPortfolioStrategy.recommendations portfolio)).

(** The balances read off the token accounts, as the analysis reads them. *)
Definition readHolders (programAccounts : list SafetyUtils.ProgramAccount)
  : result (list SafetyUtils.Holder) :=
  mapM (fun account =>
          balance <- SafetyUtils.readBigUInt64LE (SafetyUtils.data account) 64 ;;
          Ok {| SafetyUtils.holderPubkey := SafetyUtils.pubkey account;
                SafetyUtils.balance := Number balance |})
       programAccounts.

(** The opening recommendation that belongs to a risk level. *)
Definition openingFor (riskLevel : string) : string :=
  if String.eqb riskLevel "Low" then
    "LOWER RISK: This token appears to have fewer risk factors than many memecoins, but all memecoins carry inherent risks."
  else if String.eqb riskLevel "Medium" then
    "MODERATE RISK: This token has some risk factors to be aware of. Practice caution and only invest what you can afford to lose."
  else if String.eqb riskLevel "High" then
    "HIGH RISK: This token shows several concerning patterns. Proceed with significant caution if considering investment."
  else
    "EXTREME CAUTION: This token exhibits multiple high-risk characteristics. Not recommended for investment.".

Definition reminder : string :=
  "REMINDER: All memecoins are speculative investments with high volatility. Never invest more than you can afford to lose.".

(** The string has a letter of the ASCII alphabet. *)
Fixpoint hasLetter (s : string) : bool :=
  match s with
  | EmptyString => false
  | String c s' => is_upper c || is_lower c || hasLetter s'
  end.

(** The least safety score of the three categories of a preset. *)
Definition safetyOf (parameters : GetPortfolioStrategy.AllocationParameters)
  (label : string) (safetyScore : Q) : Prop :=
  (label = "established"
   /\ GetPortfolioStrategy.minSafetyScore parameters <= safetyScore)
  \/ (label = "new"
      /\ GetPortfolioStrategy.minSafetyScore parameters * 0.7 <= safetyScore
      /\ safetyScore < GetPortfolioStrategy.minSafetyScore parameters)
  \/ (label = "speculative"
      /\ safetyScore < GetPortfolioStrategy.minSafetyScore parameters * 0.7).

(** The correlations the handler computes for a token. *)
Definition correlationsOf (trendingMemes : list SocialUtils.TrendingMeme)
  (token : Database.TokenInfo) : list SocialUtils.Correlation :=
  SocialUtils.calculateMemeCorrelation
    (Database.name token) (Database.symbol token) trendingMemes.

(** The row of the table [safety_scores] for a token whose on-chain lookup
    failed. *)
Definition rowOfFailedLookup (address : string)
  : RunRugpullScan.SafetyScoreRow :=
  {| RunRugpullScan.token_address := address;
     RunRugpullScan.contract_score := 50;
     RunRugpullScan.rugpull_risk_score := 0;
     RunRugpullScan.holder_distribution_score := 0;
     RunRugpullScan.liquidity_score := 20;
     RunRugpullScan.overall_safety_score := 30 |}.

(** The amount given to a position of a bucket, after rounding. *)
Definition amountAt (bucketAllocation : Q) (size index : nat) : Q :=
  Number
    (Math_round
       ((bucketAllocation
         * (1 - (Number (Z.of_nat index) / Number (Z.of_nat size)) * 0.5))
        / Number (Z.of_nat size) * 100))
  / 100.

(** A list of memes as the scraping keeps it: no name twice, no empty
    name, every name one that [P] allows. *)
Definition scraped (P : string -> Prop)
  (trendingMemes : list SocialUtils.TrendingMeme) : Prop :=
  NoDup (map SocialUtils.name trendingMemes)
  /\ Forall (fun meme =>
               SocialUtils.name meme <> EmptyString
               /\ P (SocialUtils.name meme))
            trendingMemes.

End Notions.

(* ================================================================== *)
(** ** Inputs used in the examples *)
(* ================================================================== *)

Module Examples.

Import SafetyUtils.

(** The worked scenario of the safety score: mint authority present, top
    holder at 60%, 200 holders, liquidity found. *)
Definition scenarioMetrics : SafetyMetrics :=
  {| mintAuthorityExists := true;
     freezeAuthorityExists := false;
     topHolderPercentage := 60;
     holderCount := 200;
     hasLiquidity := true |}.

Definition scenarioAnalysis : SafetyAnalysis :=
  {| tokenAddress := "So11111111111111111111111111111111111111112";
     safetyScore := calculateSafetyScore scenarioMetrics;
     details := {| metrics := scenarioMetrics; supplySize := 1000000 |};
     warnings := generateWarnings scenarioMetrics |}.

(** A clean token held by 75 accounts. *)
Definition seventyFiveHolders : SafetyMetrics :=
  {| mintAuthorityExists := false;
     freezeAuthorityExists := false;
     topHolderPercentage := 0;
     holderCount := 75;
     hasLiquidity := true |}.

(** A chain whose key parser rejects every address. *)
Definition unreachableChain : Env :=
  {| PublicKey := fun _ => Throw "Invalid public key input";
     getMint := fun _ => Throw "unreachable";
     getProgramAccounts := fun _ => Throw "unreachable";
     priceEndpoint := fun _ => Throw "unreachable" |}.

(** A token account of 165 bytes holding [amount]: the balance is the
    eight bytes at offset 64, least significant first. *)
Definition le_bytes (amount : N) : list Byte.byte :=
  map (fun i =>
         match Byte.of_N (N.shiftr amount (8 * N.of_nat i) mod 256) with
         | Some b => b
         | None => Byte.x00
         end)
      (seq 0 8).

Definition tokenAccount (owner : string) (amount : N) : ProgramAccount :=
  {| pubkey := owner;
     data := (repeat Byte.x00 64 ++ le_bytes amount ++ repeat Byte.x00 93)%list |}.

(** A chain with one mint of supply 1000 under a mint authority, held by
    200 accounts of which the largest owns 600, and a price on the DEX. *)
Definition scenarioChain : Env :=
  {| PublicKey := fun address => Ok address;
     getMint := fun _ =>
       Ok {| mintAuthority := Some "authority"; freezeAuthority := None;
             supply := 1000; decimals := 0 |};
     getProgramAccounts := fun _ =>
       Ok (repeat (tokenAccount "small" 2) 120
           ++ tokenAccount "whale" 600
           :: repeat (tokenAccount "small" 2) 79)%list;
     priceEndpoint := fun _ => Ok (Some 0.01) |}.

Definition scenarioToken : Database.TokenInfo :=
  {| Database.address := "mint";
     Database.name := "Doge Coin";
     Database.symbol := "DOGE";
     Database.creation_date := Some 0%Z;
     Database.created_at := None;
     Database.safety_score := None |}.

(** The rugpull scan over [scenarioChain], with a database that knows the
    token and accepts the row. *)
Definition scenarioScan : RunRugpullScan.Env :=
  {| RunRugpullScan.queryOne := fun _ => Ok (Some scenarioToken);
     RunRugpullScan.chain := scenarioChain;
     RunRugpullScan.execute := fun _ => Ok tt |}.

Definition trending (memeName : string) : SocialUtils.TrendingMeme :=
  {| SocialUtils.name := memeName;
     SocialUtils.source := "https://knowyourmeme.com/memes/trending";
     SocialUtils.date := "2024-01-01T00:00:00.000Z" |}.

Definition silentTwitter : SocialUtils.TwitterData :=
  {| SocialUtils.count := 0; SocialUtils.sentiment := 0;
     SocialUtils.engagement := 0; SocialUtils.sources := [] |}.

Definition silentPlatforms : SocialUtils.PlatformMentions :=
  {| SocialUtils.reddit :=
       {| SocialUtils.platformCount := 0; SocialUtils.platformSentiment := 0;
          SocialUtils.posts := [] |};
     SocialUtils.telegram :=
       {| SocialUtils.platformCount := 0; SocialUtils.platformSentiment := 0;
          SocialUtils.posts := [] |} |}.

(** A token that doubled in a day, with a volume and a liquidity just under
    a million. *)
Definition bullMarket : TokenUtils.MarketData :=
  {| TokenUtils.price := 1;
     TokenUtils.volume24h := 999999;
     TokenUtils.liquidity := 999999;
     TokenUtils.marketCap := 1000000;
     TokenUtils.priceChange24h := 100 |}.

Definition glowingSignals : option GetPortfolioStrategy.SocialSignals :=
  Some {| GetPortfolioStrategy.avg_sentiment := Some 1;
          GetPortfolioStrategy.total_mentions := Some 999999%Z;
          GetPortfolioStrategy.total_engagement := Some 999999%Z |}.

(** Stored signals with an average sentiment of 3, outside [-1,1]. *)
Definition ravingSignals : option GetPortfolioStrategy.SocialSignals :=
  Some {| GetPortfolioStrategy.avg_sentiment := Some 3;
          GetPortfolioStrategy.total_mentions := Some 999%Z;
          GetPortfolioStrategy.total_engagement := Some 9999%Z |}.

Definition perfectCorrelation : list GetPortfolioStrategy.MemeCorrelationRow :=
  [ {| GetPortfolioStrategy.meme_name := "doge";
       GetPortfolioStrategy.correlation_score := Some 1 |} ].

Definition candidate (tokenAddress : string) (safetyScore opportunityScore : Q)
  : GetPortfolioStrategy.ProcessedToken :=
  {| GetPortfolioStrategy.address := tokenAddress;
     GetPortfolioStrategy.name := tokenAddress;
     GetPortfolioStrategy.symbol := tokenAddress;
     GetPortfolioStrategy.safetyScore := safetyScore;
     GetPortfolioStrategy.opportunityScore := opportunityScore |}.

(** One token safe enough to be established under the conservative preset
    and one that counts as new. *)
Definition twoCandidates : list GetPortfolioStrategy.ProcessedToken :=
  [candidate "SAFE" 80 0.5; candidate "NEWER" 60 0.4].

(** One token with a safety score of 10. *)
Definition riskyCandidate : list GetPortfolioStrategy.ProcessedToken :=
  [candidate "RISKY" 10 0.5].

(** The rugpull scan over a chain that cannot be reached. *)
Definition blindScan : RunRugpullScan.Env :=
  {| RunRugpullScan.queryOne := fun _ => Ok (Some scenarioToken);
     RunRugpullScan.chain := unreachableChain;
     RunRugpullScan.execute := fun _ => Ok tt |}.

(** What [scenarioChain] answers for the mint, and the analysis of it. *)
Definition scenarioMint : MintInfo :=
  match getMint scenarioChain "mint" with
  | Ok mintInfo => mintInfo
  | Throw _ => {| mintAuthority := None; freezeAuthority := None;
                  supply := 0; decimals := 0 |}
  end.

Definition scenarioAccounts : list ProgramAccount :=
  match getProgramAccounts scenarioChain "mint" with
  | Ok programAccounts => programAccounts
  | Throw _ => []
  end.

Definition scenarioResult : SafetyAnalysis :=
  match analyzeTokenSafety_try scenarioChain "mint" with
  | Ok analysis => analysis
  | Throw _ => analysisUnavailable "mint"
  end.

Definition tweet (content : string) (likes : Z) : SocialUtils.Tweet :=
  {| SocialUtils.tweetId := "1";
     SocialUtils.text := content;
     SocialUtils.tweetCreatedAt := "2024-01-01T00:00:00.000Z";
     SocialUtils.public_metrics :=
       Some {| SocialUtils.like_count := Some likes;
               SocialUtils.retweet_count := None;
               SocialUtils.reply_count := Some 1%Z |} |}.

(** A client that finds three tweets, whatever the query. *)
Definition threeTweets : option (string -> result (option (list SocialUtils.Tweet))) :=
  Some (fun _ =>
          Ok (Some [tweet "DOGE to the moon" 3; tweet "looks like a scam" 0;
                    tweet "gm" 5])).

Definition twoPosts : result (list SocialUtils.RedditPost) :=
  Ok [ {| SocialUtils.title := "Early gem or rug?"; SocialUtils.upvotes := "12" |};
       {| SocialUtils.title := "Best memecoin of the week";
          SocialUtils.upvotes := "40" |} ].

(** A token of a trillion units called Acme, symbol XYZ. *)
Definition acme : TokenUtils.TokenMetadata :=
  {| TokenUtils.tokenName := Some "Acme";
     TokenUtils.tokenSymbol := Some "XYZ";
     TokenUtils.tokenSupply := 1000000000000 |}.

(** Five candidates, ranked by opportunity score as the handler ranks
    them, and a portfolio that already holds the second. *)
Definition fiveCandidates : list GetPortfolioStrategy.ProcessedToken :=
  [candidate "A" 80 0.9; candidate "B" 70 0.8; candidate "C" 50 0.7;
   candidate "D" 45 0.6; candidate "E" 5 0.5].

Definition holdingB : option (list GetPortfolioStrategy.Holding) :=
  Some [ {| GetPortfolioStrategy.heldAddress := "B";
            GetPortfolioStrategy.heldAmount := 10 |} ].

(** A database that accepts every statement and knows [scenarioToken],
    with two trending memes. *)
Definition memeWatch : AnalyzeMemeCorrelation.Env :=
  {| AnalyzeMemeCorrelation.trackTrendingMemes :=
       [trending "Doge"; trending "Pepe the Frog"];
     AnalyzeMemeCorrelation.queryOne := fun _ => Ok (Some scenarioToken);
     AnalyzeMemeCorrelation.query := Ok [scenarioToken];
     AnalyzeMemeCorrelation.insertError := fun _ _ => None;
     AnalyzeMemeCorrelation.selectError := fun _ => None |}.

(** A strategy run in which the chain cannot be reached, the database
    stores no safety score for [scenarioToken], and every query succeeds
    with no row. *)
Definition blindStrategy : GetPortfolioStrategy.Env :=
  {| GetPortfolioStrategy.now := 0;
     GetPortfolioStrategy.recentMemecoins := Ok [scenarioToken];
     GetPortfolioStrategy.priceData := fun _ => Ok None;
     GetPortfolioStrategy.chain := unreachableChain;
     GetPortfolioStrategy.socialSignalsOf := fun _ => Ok [];
     GetPortfolioStrategy.memeCorrelationsOf := fun _ => Ok [] |}.

(** A run of the hype score handler on [scenarioToken], a row of the
    table [tokens] and so without [created_at], with three tweets and two
    posts found and a database that stores the signals. *)
Definition hypeWatch : GetHypeScore.Env :=
  {| GetHypeScore.queryOne := fun _ => Ok (Some scenarioToken);
     GetHypeScore.twitterClient := threeTweets;
     GetHypeScore.redditSearch := fun _ _ => twoPosts;
     GetHypeScore.random1 := 0.75;
     GetHypeScore.random2 := 0.25;
     GetHypeScore.priceData := fun _ => Ok None;
     GetHypeScore.execute := fun _ _ => Ok tt;
     GetHypeScore.now := 0 |}.



End Examples.

(* ================================================================== *)
(** * Properties *)
(* ================================================================== *)

(** ** Comparisons and rounding *)

Section JSFacts.

Lemma gt_true_iff (x y : Q) : gt x y = true <-> y < x.
Proof.
  unfold gt. rewrite negb_true_iff, <- not_true_iff_false, Qle_bool_iff.
  split; [apply Qnot_le_lt | apply Qlt_not_le].
Qed.

Lemma gt_false_iff (x y : Q) : gt x y = false <-> x <= y.
Proof.
  unfold gt. rewrite negb_false_iff. apply Qle_bool_iff.
Qed.

Lemma lt_true_iff (x y : Q) : lt x y = true <-> x < y.
Proof.
  unfold lt. rewrite negb_true_iff, <- not_true_iff_false, Qle_bool_iff.
  split; [apply Qnot_le_lt | apply Qlt_not_le].
Qed.

Lemma lt_false_iff (x y : Q) : lt x y = false <-> y <= x.
Proof.
  unfold lt. rewrite negb_false_iff. apply Qle_bool_iff.
Qed.

Lemma ge_true_iff (x y : Q) : ge x y = true <-> y <= x.
Proof. apply Qle_bool_iff. Qed.

(** [Math.round] moves a number by at most one half. *)
Lemma Math_round_upper (x : Q) : inject_Z (Math_round x) <= x + (1 # 2).
Proof. apply Qfloor_le. Qed.

Lemma Math_round_lower (x : Q) : x - (1 # 2) < inject_Z (Math_round x).
Proof.
  unfold Math_round.
  pose proof (Qlt_floor (x + (1 # 2))) as H.
  rewrite inject_Z_plus in H. change (inject_Z 1) with 1 in H. lra.
Qed.

Lemma Math_round_nonneg (x : Q) : 0 <= x -> (0 <= Math_round x)%Z.
Proof.
  intros Hx. unfold Math_round.
  change 0%Z with (Qfloor 0). apply Qfloor_resp_le. lra.
Qed.

Lemma Math_round_comp (x y : Q) : x == y -> Math_round x = Math_round y.
Proof.
  intros E. unfold Math_round. apply Qfloor_comp. rewrite E. reflexivity.
Qed.

Lemma Number_monotone (n m : Z) : (n <= m)%Z -> Number n <= Number m.
Proof. intros H. unfold Number. rewrite <- Zle_Qle. exact H. Qed.

End JSFacts.

(** Replaces every [Qmin] and [Qmax] of the goal by a fresh variable with
    its two defining cases, then splits the cases. *)
Ltac name_min a b :=
  let m := fresh "m" in
  pose proof (Q.min_spec a b);
  remember (Qmin a b) as m in *;
  match goal with E : m = Qmin a b |- _ => clear E end.

Ltac name_max a b :=
  let m := fresh "m" in
  pose proof (Q.max_spec a b);
  remember (Qmax a b) as m in *;
  match goal with E : m = Qmax a b |- _ => clear E end.

Ltac name_minmax :=
  repeat match goal with
    | |- context [Qmin ?a ?b] => name_min a b
    | |- context [Qmax ?a ?b] => name_max a b
    | H : context [Qmin ?a ?b] |- _ => name_min a b
    | H : context [Qmax ?a ?b] |- _ => name_max a b
    end.

Ltac split_cases :=
  repeat match goal with
    | H : _ /\ _ |- _ => destruct H
    | H : _ \/ _ |- _ => destruct H
    end.

(** Division by a numeral is multiplication by its inverse, computed. *)
Ltac div_numerals :=
  unfold Qdiv in *;
  repeat match goal with
    | |- context [Qinv (Qmake ?n ?d)] =>
        let v := eval vm_compute in (Qinv (Qmake n d)) in
        change (Qinv (Qmake n d)) with v in *
    | H : context [Qinv (Qmake ?n ?d)] |- _ =>
        let v := eval vm_compute in (Qinv (Qmake n d)) in
        change (Qinv (Qmake n d)) with v in *
    end.

Ltac minmax := div_numerals; name_minmax; split_cases; try lra.

(** ** The contract safety score *)

Section SafetyScore.

Import SafetyUtils.

Lemma Number_div5_mono (h1 h2 : Z) :
  (h1 <= h2)%Z -> Number (100 - h2) / 5 <= Number (100 - h1) / 5.
Proof.
  intros H. unfold Number.
  assert (inject_Z (100 - h2) <= inject_Z (100 - h1))
    by (rewrite <- Zle_Qle; lia).
  div_numerals. lra.
Qed.

Lemma Number_div5_nonneg (h : Z) :
  (h < 100)%Z -> 0 <= Number (100 - h) / 5.
Proof.
  intros H. unfold Number.
  assert (inject_Z 0 <= inject_Z (100 - h)) by (rewrite <- Zle_Qle; lia).
  change (inject_Z 0) with 0 in *. div_numerals. lra.
Qed.

(** C1. For every record of safety metrics the score of
    [calculateSafetyScore] lies in [0,100]; with the other metrics fixed it
    does not increase when [topHolderPercentage] grows above 50, and it does
    not increase when [100 - holderCount] grows (that is, when [holderCount]
    shrinks) below 100 holders. *)
Theorem calculateSafetyScore_range_monotone :
  (forall metrics, 0 <= calculateSafetyScore metrics <= 100)
  /\ (forall mint freeze holders liquid (t1 t2 : Q),
         50 < t1 -> t1 <= t2 ->
         calculateSafetyScore
           {| mintAuthorityExists := mint; freezeAuthorityExists := freeze;
              topHolderPercentage := t2; holderCount := holders;
              hasLiquidity := liquid |}
         <= calculateSafetyScore
              {| mintAuthorityExists := mint; freezeAuthorityExists := freeze;
                 topHolderPercentage := t1; holderCount := holders;
                 hasLiquidity := liquid |})
  /\ (forall mint freeze top liquid (h1 h2 : Z),
         (h2 < 100)%Z -> (h1 <= h2)%Z ->
         calculateSafetyScore
           {| mintAuthorityExists := mint; freezeAuthorityExists := freeze;
              topHolderPercentage := top; holderCount := h1;
              hasLiquidity := liquid |}
         <= calculateSafetyScore
              {| mintAuthorityExists := mint; freezeAuthorityExists := freeze;
                 topHolderPercentage := top; holderCount := h2;
                 hasLiquidity := liquid |}).
Proof.
  split; [| split].
  - intros metrics. unfold calculateSafetyScore. minmax.
  - intros mint freeze holders liquid t1 t2 H1 H12.
    unfold calculateSafetyScore; cbn [topHolderPercentage mintAuthorityExists
      freezeAuthorityExists holderCount hasLiquidity].
    assert (G1 : gt t1 50 = true) by (apply gt_true_iff; lra).
    assert (G2 : gt t2 50 = true) by (apply gt_true_iff; lra).
    rewrite G1, G2.
    destruct mint, freeze, liquid, (holders <? 100)%Z; cbn [negb]; minmax.
  - intros mint freeze top liquid h1 h2 H2 H12.
    unfold calculateSafetyScore; cbn [topHolderPercentage mintAuthorityExists
      freezeAuthorityExists holderCount hasLiquidity].
    assert (L1 : (h1 <? 100)%Z = true) by (apply Z.ltb_lt; lia).
    assert (L2 : (h2 <? 100)%Z = true) by (apply Z.ltb_lt; lia).
    rewrite L1, L2.
    pose proof (Number_div5_mono h1 h2 H12).
    destruct mint, freeze, liquid, (gt top 50); cbn [negb]; minmax.
Qed.

(** The monotonicity of C1 at 55% against 70%, and at 20 against 60 holders. *)
Lemma calculateSafetyScore_range_monotone_witness :
  calculateSafetyScore
    {| mintAuthorityExists := true; freezeAuthorityExists := false;
       topHolderPercentage := 70; holderCount := 200; hasLiquidity := true |}
  <= calculateSafetyScore
       {| mintAuthorityExists := true; freezeAuthorityExists := false;
          topHolderPercentage := 55; holderCount := 200; hasLiquidity := true |}
  /\ calculateSafetyScore
       {| mintAuthorityExists := true; freezeAuthorityExists := false;
          topHolderPercentage := 55; holderCount := 20; hasLiquidity := true |}
     <= calculateSafetyScore
          {| mintAuthorityExists := true; freezeAuthorityExists := false;
             topHolderPercentage := 55; holderCount := 60; hasLiquidity := true |}.
Proof.
  split.
  - apply (proj1 (proj2 calculateSafetyScore_range_monotone)); lra.
  - apply (proj2 (proj2 calculateSafetyScore_range_monotone)); lia.
Defined.

End SafetyScore.

(** ** The worked scenario *)

Section Scenario.

Import SafetyUtils RunRugpullScan Notions Examples.

(** The analysis of [scenarioChain] finds the metrics of the scenario. *)
Lemma analyzeTokenSafety_scenario :
  exists analysis,
    analyzeTokenSafety scenarioChain "mint" = Ok analysis
    /\ mintAuthorityExists (details analysis) = true
    /\ freezeAuthorityExists (details analysis) = false
    /\ topHolderPercentage (details analysis) == 60
    /\ holderCount (details analysis) = 200%Z
    /\ hasLiquidity (details analysis) = true
    /\ safetyScore analysis == 70.
Proof.
  eexists. split; [vm_compute; reflexivity |].
  repeat split; vm_compute; reflexivity.
Qed.

(** What a report of the scan carries: the rounded combined score, its risk
    level and the warnings, all computed from the analysis of the token. *)
Lemma handler_report (env : Env) (address : string) (report : RugpullReport) :
  handler env (Some address) = Ok report ->
  exists safetyAnalysis,
    analyzeTokenSafety (chain env) address = Ok safetyAnalysis
    /\ reportSafetyScore report
       = Math_round
           (combinedSafetyScore safetyAnalysis (checkScamSimilarity address))
    /\ riskLevel report
       = generateRiskLevel
           (combinedSafetyScore safetyAnalysis (checkScamSimilarity address))
    /\ reportWarnings report
       = scanWarnings safetyAnalysis (checkScamSimilarity address).
Proof.
  unfold handler. destruct address as [| c rest]; [discriminate |].
  destruct (queryOne env (String c rest)) as [[tokenInfo |] | m];
    cbn [bind try_catch]; try discriminate.
  destruct (analyzeTokenSafety (chain env) (String c rest))
    as [safetyAnalysis | m]; cbn [bind try_catch]; try discriminate.
  destruct (execute env _) as [[] | m]; cbn [bind try_catch]; try discriminate.
  intros E. injection E as <-. exists safetyAnalysis.
  repeat split; reflexivity.
Qed.

(** C8. With a mint authority, no freeze authority, a top holder at 60%,
    200 holders and liquidity the contract safety score is 70; combined
    with a scam similarity of 0 it gives 79, and the risk level of 79 is
    Medium, not Low. *)
Theorem scenario_scores :
  calculateSafetyScore Examples.scenarioMetrics == 70
  /\ scamScore (checkScamSimilarity (tokenAddress scenarioAnalysis)) == 0
  /\ combinedSafetyScore
       scenarioAnalysis (checkScamSimilarity (tokenAddress scenarioAnalysis))
     == 79
  /\ Math_round
       (combinedSafetyScore
          scenarioAnalysis (checkScamSimilarity (tokenAddress scenarioAnalysis)))
     = 79%Z
  /\ generateRiskLevel
       (combinedSafetyScore
          scenarioAnalysis (checkScamSimilarity (tokenAddress scenarioAnalysis)))
     = "Medium"
  /\ generateRiskLevel
       (combinedSafetyScore
          scenarioAnalysis (checkScamSimilarity (tokenAddress scenarioAnalysis)))
     <> "Low"
  /\ (exists report,
        handler scenarioScan (Some "mint") = Ok report
        /\ reportSafetyScore report = 79%Z
        /\ riskLevel report = "Medium").
Proof.
  repeat split; try (vm_compute; reflexivity).
  - vm_compute. discriminate.
  - eexists. split; [vm_compute; reflexivity |]. split; reflexivity.
Qed.

End Scenario.

(** ** Warnings *)

Section Warnings.

Import SafetyUtils RunRugpullScan Notions Examples.

(** C4 (amended). [generateWarnings] emits exactly one string for each of
    these conditions that holds, in this order: mint authority present,
    freeze authority present, top holder above 50%, fewer than 50 holders,
    no liquidity; so their number is the number of conditions that hold.
    The warnings of the rugpull scan are those of the analysis followed by
    one more string exactly when the scam score is above 30. *)
Theorem warnings_one_per_condition :
  (forall metrics,
      generateWarnings metrics
      = emitted
          [ (mintAuthorityExists metrics, mintAuthorityWarning);
            (freezeAuthorityExists metrics, freezeAuthorityWarning);
            (gt (topHolderPercentage metrics) 50,
             topHolderWarning (topHolderPercentage metrics));
            ((holderCount metrics <? 50)%Z,
             holderCountWarning (holderCount metrics));
            (negb (hasLiquidity metrics), liquidityWarning) ]
      /\ List.length (generateWarnings metrics)
         = (Nat.b2n (mintAuthorityExists metrics)
            + Nat.b2n (freezeAuthorityExists metrics)
            + Nat.b2n (gt (topHolderPercentage metrics) 50)
            + Nat.b2n (holderCount metrics <? 50)%Z
            + Nat.b2n (negb (hasLiquidity metrics)))%nat)
  /\ (forall safetyAnalysis scamSimilarity,
         scanWarnings safetyAnalysis scamSimilarity
         = (warnings safetyAnalysis
            ++ emitted [ (gt (scamScore scamSimilarity) 30, scamWarning) ])%list
         /\ List.length (scanWarnings safetyAnalysis scamSimilarity)
            = (List.length (warnings safetyAnalysis)
               + Nat.b2n (gt (scamScore scamSimilarity) 30))%nat).
Proof.
  split.
  - intros [mint freeze top holders liquid].
    unfold generateWarnings, emitted;
      cbn [mintAuthorityExists freezeAuthorityExists topHolderPercentage
           holderCount hasLiquidity].
    destruct mint, freeze, (gt top 50), (holders <? 50)%Z, liquid;
      split; reflexivity.
  - intros safetyAnalysis scamSimilarity. unfold scanWarnings, emitted.
    destruct (gt (scamScore scamSimilarity) 30); cbn [filter map fst snd Nat.b2n].
    + split; [reflexivity |]. rewrite length_app. reflexivity.
    + split; [reflexivity |]. rewrite length_app. reflexivity.
Qed.

(** With 75 holders the score loses five points for the low holder count,
    so one deduction condition holds, and no warning is emitted. *)
Lemma holder_deduction_without_warning :
  calculateSafetyScore seventyFiveHolders == 95
  /\ triggeredDeductions seventyFiveHolders = 1%nat
  /\ generateWarnings seventyFiveHolders = []
  /\ List.length (generateWarnings seventyFiveHolders)
     <> triggeredDeductions seventyFiveHolders.
Proof.
  repeat split; try (vm_compute; reflexivity).
  vm_compute. discriminate.
Qed.

End Warnings.

(** ** Failure of the on-chain lookup *)

Section LookupFailure.

Import SafetyUtils Notions Examples.

Lemma lookupFails_throws (env : Env) (address : string) :
  lookupFails env address ->
  exists message, analyzeTokenSafety_try env address = Throw message.
Proof.
  unfold lookupFails, analyzeTokenSafety_try.
  destruct (PublicKey env address) as [key | m1]; cbn [bind].
  - destruct (getMint env key) as [mintInfo | m2]; cbn [bind].
    + destruct (getProgramAccounts env key) as [accounts | m3]; cbn [bind].
      * intros [].
      * intros _. exists m3. reflexivity.
    + intros _. exists m2. reflexivity.
  - intros _. exists m1. reflexivity.
Qed.

(** Whatever throws inside the [try] block, the analysis returns the
    pessimistic record. *)
Lemma analyzeTokenSafety_caught (env : Env) (address message : string) :
  analyzeTokenSafety_try env address = Throw message ->
  analyzeTokenSafety env address = Ok (analysisUnavailable address).
Proof.
  intros E. unfold analyzeTokenSafety. rewrite E. reflexivity.
Qed.

(** [analyzeTokenSafety] never throws. *)
Lemma analyzeTokenSafety_total (env : Env) (address : string) :
  exists analysis, analyzeTokenSafety env address = Ok analysis.
Proof.
  unfold analyzeTokenSafety.
  destruct (analyzeTokenSafety_try env address) as [analysis | message].
  - exists analysis. reflexivity.
  - exists (analysisUnavailable address). reflexivity.
Qed.

(** C6. When the on-chain lookup fails, [analyzeTokenSafety] returns, and
    what it returns is the pessimistic result: safety score 0, both
    authorities present, top holder at 100%, no holder, no liquidity. *)
Theorem analyzeTokenSafety_lookup_failure (env : Env) (address : string) :
  lookupFails env address ->
  analyzeTokenSafety env address
  = Ok {| tokenAddress := address;
          safetyScore := 0;
          details :=
            {| metrics :=
                 {| mintAuthorityExists := true;
                    freezeAuthorityExists := true;
                    topHolderPercentage := 100;
                    holderCount := 0;
                    hasLiquidity := false |};
               supplySize := 0 |};
          warnings := ["Unable to analyze token safety"] |}.
Proof.
  intros F. destruct (lookupFails_throws env address F) as [message E].
  apply (analyzeTokenSafety_caught env address message E).
Qed.

Lemma analyzeTokenSafety_lookup_failure_witness :
  lookupFails unreachableChain "not a key"
  /\ analyzeTokenSafety unreachableChain "not a key"
     = Ok (analysisUnavailable "not a key").
Proof.
  split.
  - exact I.
  - apply (analyzeTokenSafety_lookup_failure unreachableChain "not a key").
    exact I.
Defined.

End LookupFailure.

(** ** Sorting *)

Section Sorting.

Context {A : Type} (key : A -> Q).

Lemma insert_permutation (compare : A -> A -> Q) (x : A) (l : list A) :
  Permutation (insert compare x l) (x :: l).
Proof.
  induction l as [| y l IH]; cbn [insert].
  - reflexivity.
  - destruct (Qle_bool (compare x y) 0).
    + reflexivity.
    + rewrite IH. apply perm_swap.
Qed.

Lemma sort_permutation (compare : A -> A -> Q) (l : list A) :
  Permutation (sort compare l) l.
Proof.
  induction l as [| x l IH]; cbn [sort fold_right].
  - reflexivity.
  - fold (sort compare l). rewrite insert_permutation.
    apply perm_skip, IH.
Qed.

Lemma insert_descending (x : A) (l : list A) :
  StronglySorted (descends key) l ->
  StronglySorted (descends key) (insert (descending_by key) x l).
Proof.
  induction 1 as [| y l Sl IH Hy]; cbn [insert].
  - repeat constructor.
  - unfold descending_by at 1.
    destruct (Qle_bool (key y - key x) 0) eqn:E.
    + apply Qle_bool_iff in E.
      constructor; [constructor; assumption |].
      constructor; [unfold descends; lra |].
      rewrite Forall_forall in Hy |- *. intros z Hz.
      specialize (Hy z Hz). unfold descends in *. lra.
    + assert (key x < key y).
      { apply Qnot_le_lt. intros C.
        assert (Qle_bool (key y - key x) 0 = true)
          by (apply Qle_bool_iff; lra).
        congruence. }
      constructor; [exact IH |].
      rewrite Forall_forall in Hy |- *. intros z Hz.
      apply (Permutation_in _ (insert_permutation (descending_by key) x l)) in Hz.
      destruct Hz as [<- | Hz].
      * unfold descends. lra.
      * apply Hy, Hz.
Qed.

Lemma sort_descending (l : list A) :
  StronglySorted (descends key) (sort (descending_by key) l).
Proof.
  induction l as [| x l IH]; cbn [sort fold_right].
  - constructor.
  - apply insert_descending, IH.
Qed.

End Sorting.

(** ** Strings *)

Section Strings.

Lemma prefix_reflexive (s : string) : prefix s s = true.
Proof.
  induction s as [| c s IH]; cbn [prefix].
  - reflexivity.
  - destruct (ascii_dec c c); [exact IH | contradiction].
Qed.

Lemma includes_itself (s : string) : includes s s = true.
Proof.
  destruct s; cbn [includes]; rewrite prefix_reflexive; reflexivity.
Qed.

Lemma includes_empty (s : string) : includes s EmptyString = true.
Proof. destruct s; reflexivity. Qed.

Lemma array_includes_iff (l : list string) (x : string) :
  array_includes l x = true <-> In x l.
Proof.
  unfold array_includes. rewrite existsb_exists. split.
  - intros [y [Hy E]]. apply String.eqb_eq in E. subst. exact Hy.
  - intros H. exists x. split; [exact H | apply String.eqb_refl].
Qed.

Lemma filter_all {A : Type} (f : A -> bool) (l : list A) :
  (forall x, In x l -> f x = true) -> filter f l = l.
Proof.
  induction l as [| x l IH]; intros H; cbn [filter].
  - reflexivity.
  - rewrite (H x (or_introl eq_refl)). f_equal.
    apply IH. intros y Hy. apply H. right. exact Hy.
Qed.

Lemma filter_none {A : Type} (f : A -> bool) (l : list A) :
  (forall x, In x l -> f x = false) -> filter f l = [].
Proof.
  induction l as [| x l IH]; intros H; cbn [filter].
  - reflexivity.
  - rewrite (H x (or_introl eq_refl)).
    apply IH. intros y Hy. apply H. right. exact Hy.
Qed.

End Strings.

(** ** Meme correlation *)

Section MemeCorrelation.

Import SocialUtils Notions Examples.

Lemma Number_nat_nonneg (n : nat) : 0 <= Number (Z.of_nat n).
Proof.
  unfold Number. change 0 with (inject_Z 0). rewrite <- Zle_Qle. lia.
Qed.

Lemma Qdiv_nonneg (a b : Q) : 0 <= a -> 0 <= b -> 0 <= a / b.
Proof.
  intros Ha Hb. unfold Qdiv.
  apply Qmult_le_0_compat; [exact Ha | apply Qinv_le_0_compat, Hb].
Qed.

(** The overlap of the two word lists, before the symbol bonus. *)
Lemma overlap_nonneg (intersection union : nat) :
  0 <= (if (0 <? intersection)%nat
        then Number (Z.of_nat intersection) / Number (Z.of_nat union)
        else 0).
Proof.
  destruct (0 <? intersection)%nat.
  - apply Qdiv_nonneg; apply Number_nat_nonneg.
  - lra.
Qed.

Lemma memeCorrelation_at_most_one (tokenNameLC tokenSymbolLC : string)
  (trendingMeme : TrendingMeme) :
  memeCorrelation tokenNameLC tokenSymbolLC trendingMeme <= 1.
Proof.
  unfold memeCorrelation. cbv zeta.
  match goal with |- Qmin ?c _ <= _ => pose proof (Q.le_min_r c 1.0) end.
  lra.
Qed.

(** An entry of the result is the entry of one of the memes, above the
    threshold. *)
Lemma calculateMemeCorrelation_entries (tokenName tokenSymbol : string)
  (trendingMemes : list TrendingMeme) (entry : Correlation) :
  In entry (calculateMemeCorrelation tokenName tokenSymbol trendingMemes)
  <-> exists trendingMeme,
      In trendingMeme trendingMemes
      /\ entry = entryOf (toLowerCase tokenName) (toLowerCase tokenSymbol)
                         trendingMeme
      /\ 0.1 < correlation entry.
Proof.
  unfold calculateMemeCorrelation. cbv zeta.
  match goal with
  | |- In _ (sort ?c ?l) <-> _ =>
      assert (P : Permutation (sort c l) l) by apply sort_permutation;
      set (pushed := l) in *
  end.
  split.
  - intros H. apply (Permutation_in _ P) in H.
    unfold pushed in H. apply in_flat_map in H.
    destruct H as [trendingMeme [Hm He]].
    exists trendingMeme. split; [exact Hm |].
    destruct (gt _ 0.1) eqn:G in He; [| destruct He].
    destruct He as [<- | []].
    split; [reflexivity |]. apply gt_true_iff in G. exact G.
  - intros [trendingMeme [Hm [-> Hc]]].
    apply (Permutation_in _ (Permutation_sym P)).
    unfold pushed. apply in_flat_map. exists trendingMeme.
    split; [exact Hm |].
    apply gt_true_iff in Hc. cbn [correlation entryOf] in Hc.
    rewrite Hc. left. reflexivity.
Qed.

(** The words of the token name are those of the meme name, and there is at
    least one: the overlap is at least 1. *)
Lemma same_words_overlap (tokenWords memeWords : list string) :
  (forall word, In word tokenWords <-> In word memeWords) ->
  memeWords <> [] ->
  let intersection :=
    List.length (filter (fun word => array_includes memeWords word) tokenWords) in
  let union := List.length (nodup string_dec (tokenWords ++ memeWords)%list) in
  (0 <? intersection)%nat = true
  /\ 1 <= Number (Z.of_nat intersection) / Number (Z.of_nat union).
Proof.
  intros Same NonEmpty intersection union.
  assert (Ei : intersection = List.length tokenWords).
  { unfold intersection. f_equal. apply filter_all.
    intros word Hw. apply array_includes_iff, Same, Hw. }
  assert (Hpos : (0 < List.length tokenWords)%nat).
  { destruct memeWords as [| word rest]; [contradiction |].
    assert (Hin : In word tokenWords) by (apply Same; left; reflexivity).
    destruct tokenWords; [destruct Hin | cbn; lia]. }
  assert (Hu : (union <= List.length tokenWords)%nat).
  { unfold union. apply NoDup_incl_length; [apply NoDup_nodup |].
    intros word Hw. apply nodup_In, in_app_or in Hw.
    destruct Hw as [Hw | Hw]; [exact Hw | apply Same, Hw]. }
  assert (Hu0 : (0 < union)%nat).
  { unfold union. destruct tokenWords as [| word rest]; [cbn in Hpos; lia |].
    assert (Hin : In word (nodup string_dec ((word :: rest) ++ memeWords)%list))
      by (apply nodup_In; left; reflexivity).
    destruct (nodup _ _); [destruct Hin | cbn; lia]. }
  split.
  - rewrite Ei. apply Nat.ltb_lt, Hpos.
  - apply Qle_shift_div_l.
    + unfold Number. change 0 with (inject_Z 0). rewrite <- Zlt_Qlt. lia.
    + rewrite Qmult_1_l. unfold Number. rewrite <- Zle_Qle. lia.
Qed.

(** A token whose symbol is the meme name, up to case, and whose name has
    the words of the meme name, at least one, correlates at exactly 1. *)
Lemma memeCorrelation_symbol_is_meme (tokenName tokenSymbol : string)
  (trendingMeme : TrendingMeme) :
  toLowerCase tokenSymbol = toLowerCase (name trendingMeme) ->
  sameWordSet (toLowerCase tokenName) (toLowerCase (name trendingMeme)) ->
  split_words (toLowerCase (name trendingMeme)) <> [] ->
  memeCorrelation (toLowerCase tokenName) (toLowerCase tokenSymbol) trendingMeme
  == 1.
Proof.
  intros -> Same NonEmpty. unfold memeCorrelation. cbv zeta.
  rewrite includes_itself.
  destruct (same_words_overlap _ _ Same NonEmpty) as [Hi Hq].
  cbv zeta in Hi, Hq. rewrite Hi.
  match goal with
  | |- Qmin ?c _ == _ => assert (Hc : 1.0 <= c) by lra; rewrite (Q.min_r _ _ Hc)
  end.
  reflexivity.
Qed.

(** C7 (amended). Every entry returned by [calculateMemeCorrelation] has a
    correlation above 0.1 and at most 1; the entries are in descending order
    of correlation; and a meme whose name is the token symbol (up to case),
    when the token name has the same words as the meme name and these are at
    least one, is returned with correlation 1. *)
Theorem calculateMemeCorrelation_ranked (tokenName tokenSymbol : string)
  (trendingMemes : list TrendingMeme) :
  Forall (fun entry => 0.1 < correlation entry /\ correlation entry <= 1)
         (calculateMemeCorrelation tokenName tokenSymbol trendingMemes)
  /\ StronglySorted (descends correlation)
       (calculateMemeCorrelation tokenName tokenSymbol trendingMemes)
  /\ (forall trendingMeme,
         In trendingMeme trendingMemes ->
         toLowerCase tokenSymbol = toLowerCase (name trendingMeme) ->
         sameWordSet (toLowerCase tokenName) (toLowerCase (name trendingMeme)) ->
         split_words (toLowerCase (name trendingMeme)) <> [] ->
         exists entry,
           In entry (calculateMemeCorrelation tokenName tokenSymbol trendingMemes)
           /\ meme entry = name trendingMeme
           /\ correlation entry == 1).
Proof.
  split; [| split].
  - apply Forall_forall. intros entry H.
    apply calculateMemeCorrelation_entries in H.
    destruct H as [trendingMeme [_ [E Hc]]].
    split; [exact Hc |]. subst entry. apply memeCorrelation_at_most_one.
  - apply (sort_descending correlation).
  - intros trendingMeme Hm Hs Same NonEmpty.
    pose proof (memeCorrelation_symbol_is_meme
                  tokenName tokenSymbol trendingMeme Hs Same NonEmpty) as One.
    exists (entryOf (toLowerCase tokenName) (toLowerCase tokenSymbol) trendingMeme).
    split; [| split; [reflexivity | exact One]].
    apply calculateMemeCorrelation_entries. exists trendingMeme.
    split; [exact Hm |]. split; [reflexivity |].
    cbn [correlation entryOf]. rewrite One. reflexivity.
Qed.

(** C7 at the token "Doge!" with the symbol DOGE against the meme "doge". *)
Lemma calculateMemeCorrelation_ranked_witness :
  exists entry,
    In entry (calculateMemeCorrelation "Doge!" "DOGE" [trending "doge"])
    /\ meme entry = "doge"
    /\ correlation entry == 1.
Proof.
  apply (proj2 (proj2 (calculateMemeCorrelation_ranked
                         "Doge!" "DOGE" [trending "doge"]))
           (trending "doge")).
  - left. reflexivity.
  - reflexivity.
  - intros word. vm_compute. tauto.
  - vm_compute. discriminate.
Defined.

(** A token named "!!!" with the symbol "???" against the meme "???": the
    symbol is the meme name and both names have the same words, none; the
    correlation is the bonus alone, 0.3. *)
Lemma symbol_is_meme_without_words :
  "???" = name (trending "???")
  /\ sameWordSet (toLowerCase "!!!") (toLowerCase (name (trending "???")))
  /\ map (fun entry => (meme entry, Qred (correlation entry)))
         (calculateMemeCorrelation "!!!" "???" [trending "???"])
     = [("???", 0.3)]
  /\ ~ memeCorrelation (toLowerCase "!!!") (toLowerCase "???") (trending "???")
       == 1.
Proof.
  split; [reflexivity |]. split; [intros word; vm_compute; tauto |].
  split; [vm_compute; reflexivity |].
  vm_compute. discriminate.
Qed.

(** C9. The empty string is a substring of every meme name, so with the
    empty string as token symbol the symbol bonus is applied to every meme:
    every meme of the list is returned, each with a correlation of at least
    0.3; when the token name shares no word with the meme name the
    correlation is 0.3 exactly. *)
Theorem empty_symbol_matches_every_meme (tokenName : string)
  (trendingMemes : list TrendingMeme) :
  Permutation
    (map meme (calculateMemeCorrelation tokenName "" trendingMemes))
    (map name trendingMemes)
  /\ Forall (fun entry => 0.3 <= correlation entry)
       (calculateMemeCorrelation tokenName "" trendingMemes)
  /\ (forall trendingMeme,
         In trendingMeme trendingMemes ->
         exists entry,
           In entry (calculateMemeCorrelation tokenName "" trendingMemes)
           /\ meme entry = name trendingMeme
           /\ 0.3 <= correlation entry
           /\ ((forall word,
                   In word (split_words (toLowerCase tokenName)) ->
                   ~ In word (split_words (toLowerCase (name trendingMeme)))) ->
               correlation entry == 0.3))
  /\ (forall trendingMeme,
         includes (toLowerCase (name trendingMeme)) (toLowerCase "") = true).
Proof.
  assert (Bonus : forall trendingMeme,
             0.3 <= memeCorrelation (toLowerCase tokenName) "" trendingMeme).
  { intros trendingMeme. unfold memeCorrelation. cbv zeta.
    rewrite includes_empty.
    match goal with
    | |- _ <= Qmin ((if _ then ?q else 0) + _) _ =>
        pose proof (overlap_nonneg
                      (List.length
                         (filter
                            (fun word =>
                               array_includes
                                 (split_words (toLowerCase (name trendingMeme)))
                                 word)
                            (split_words (toLowerCase tokenName))))
                      (List.length
                         (nodup string_dec
                            (split_words (toLowerCase tokenName)
                             ++ split_words (toLowerCase (name trendingMeme)))%list)))
    end.
    apply Q.min_glb; lra. }
  assert (Pushed :
           flat_map
             (fun trendingMeme =>
                if gt (memeCorrelation (toLowerCase tokenName) "" trendingMeme) 0.1
                then [entryOf (toLowerCase tokenName) "" trendingMeme]
                else [])
             trendingMemes
           = map (entryOf (toLowerCase tokenName) "") trendingMemes).
  { induction trendingMemes as [| trendingMeme rest IH]; cbn [flat_map map].
    - reflexivity.
    - assert (G : gt (memeCorrelation (toLowerCase tokenName) "" trendingMeme) 0.1
                  = true)
        by (apply gt_true_iff; specialize (Bonus trendingMeme); lra).
      rewrite G, IH. reflexivity. }
  assert (P : Permutation (calculateMemeCorrelation tokenName "" trendingMemes)
                (map (entryOf (toLowerCase tokenName) "") trendingMemes)).
  { unfold calculateMemeCorrelation. cbv zeta. cbn [toLowerCase].
    rewrite <- Pushed. apply sort_permutation. }
  split; [| split; [| split]].
  - rewrite P, map_map. reflexivity.
  - apply Forall_forall. intros entry H.
    apply (Permutation_in _ P), in_map_iff in H.
    destruct H as [trendingMeme [<- _]]. apply Bonus.
  - intros trendingMeme Hm.
    exists (entryOf (toLowerCase tokenName) "" trendingMeme).
    split; [| split; [reflexivity | split; [apply Bonus |]]].
    + apply (Permutation_in _ (Permutation_sym P)), in_map, Hm.
    + intros Disjoint. cbn [correlation entryOf].
      unfold memeCorrelation. cbv zeta. rewrite includes_empty.
      rewrite filter_none.
      * cbn [List.length Nat.ltb Nat.leb]. apply Q.min_l. lra.
      * intros word Hw. apply not_true_iff_false. intros C.
        apply array_includes_iff in C. exact (Disjoint word Hw C).
  - intros trendingMeme. apply includes_empty.
Qed.

(** C9 at a token named "zzz" against two memes. *)
Lemma empty_symbol_matches_every_meme_witness :
  exists entry,
    In entry (calculateMemeCorrelation
                "zzz" "" [trending "Doge"; trending "Grumpy Cat"])
    /\ meme entry = "Grumpy Cat"
    /\ 0.3 <= correlation entry
    /\ ((forall word,
            In word (split_words (toLowerCase "zzz")) ->
            ~ In word (split_words (toLowerCase (name (trending "Grumpy Cat"))))) ->
        correlation entry == 0.3).
Proof.
  apply (proj1 (proj2 (proj2 (empty_symbol_matches_every_meme
                                "zzz" [trending "Doge"; trending "Grumpy Cat"])))
           (trending "Grumpy Cat")).
  right. left. reflexivity.
Defined.

End MemeCorrelation.

(** ** The decimal logarithm *)

Section Log10Facts.

Lemma count_digits_nonneg (fuel : nat) (n : Z) : (0 <= count_digits fuel n)%Z.
Proof.
  revert n. induction fuel as [| fuel IH]; intros n; cbn [count_digits].
  - lia.
  - destruct (n <? 10)%Z; [lia |]. specialize (IH (n / 10)%Z). lia.
Qed.

(** [floor_log10] meets the specification of the logarithm. *)
Lemma floor_log10_spec : Log10Spec floor_log10.
Proof.
  split.
  - intros x y E. unfold floor_log10. cbv zeta.
    rewrite (Qfloor_comp x y E). reflexivity.
  - intros x _ Hx. unfold floor_log10. cbv zeta.
    assert (H : (Qfloor x <= 1)%Z)
      by (change 1%Z with (Qfloor 1); apply Qfloor_resp_le, Hx).
    cbn [count_digits].
    assert (L : (Qfloor x <? 10)%Z = true) by (apply Z.ltb_lt; lia).
    rewrite L. vm_compute. discriminate.
  - vm_compute. reflexivity.
  - intros x _. unfold floor_log10. cbv zeta.
    change 0 with (inject_Z 0). rewrite <- Zle_Qle. apply count_digits_nonneg.
  - vm_compute. reflexivity.
Qed.

Lemma Qfloor_unique (x : Q) (z : Z) :
  inject_Z z <= x -> x < inject_Z z + 1 -> Qfloor x = z.
Proof.
  intros Hl Hu. apply Z.le_antisymm.
  - assert (H : inject_Z (Qfloor x) < inject_Z (z + 1)).
    { rewrite inject_Z_plus. change (inject_Z 1) with 1.
      pose proof (Qfloor_le x). lra. }
    rewrite <- Zlt_Qlt in H. lia.
  - rewrite <- (Qfloor_Z z). apply Qfloor_resp_le, Hl.
Qed.

End Log10Facts.

(** ** The hype score *)

Section HypeScore.

Import TokenUtils SocialUtils GetHypeScore Notions Examples.

Variable log10 : Q -> Q.
Hypothesis log10_spec : Log10Spec log10.

Lemma ageFactor_range (ageInDays : Q) :
  0.5 <= ageFactor ageInDays <= 1.5.
Proof. unfold ageFactor. minmax. Qed.

Lemma volumeFactor_range (liquidityData : MarketData) :
  0.2 <= volumeFactor log10 liquidityData <= 2.
Proof. unfold volumeFactor. minmax. Qed.

Lemma priceChangeFactor_range (liquidityData : MarketData) :
  0.5 <= priceChangeFactor liquidityData <= 2.
Proof. unfold priceChangeFactor. minmax. Qed.

Lemma socialEngagementFactor_range (engagement : Z) :
  0.2 <= socialEngagementFactor log10 engagement <= 2.
Proof. unfold socialEngagementFactor. minmax. Qed.

(** Evaluates the comparison of a closed total weight with zero and turns
    the division by it into a multiplication. *)
Ltac weigh :=
  repeat match goal with
    | |- context [gt ?w 0] =>
        let b := eval vm_compute in (gt w 0) in change (gt w 0) with b
    end;
  cbv iota;
  repeat match goal with
    | |- context [Qdiv ?n ?d] =>
        let v := eval vm_compute in (Qinv d) in change (Qdiv n d) with (n * v)
    end.

Lemma averageSentiment_range (twitterData : TwitterData)
  (platformMentions : PlatformMentions) :
  -1 <= sentiment twitterData <= 1 ->
  -1 <= platformSentiment (reddit platformMentions) <= 1 ->
  -1 <= platformSentiment (telegram platformMentions) <= 1 ->
  -1 <= averageSentiment twitterData platformMentions <= 1.
Proof.
  intros Ht Hr Hg. unfold averageSentiment.
  unfold twitterWeight, redditWeight, telegramWeight.
  destruct (count twitterData >? 0)%Z,
    (platformCount (reddit platformMentions) >? 0)%Z,
    (platformCount (telegram platformMentions) >? 0)%Z;
    cbv beta iota zeta; weigh; lra.
Qed.


Lemma Qmult_nonneg_5 (a b c d e : Q) :
  0 <= a -> 0 <= b -> 0 <= c -> 0 <= d -> 0 <= e -> 0 <= 20 * a * b * c * d * e.
Proof.
  intros. repeat apply Qmult_le_0_compat; try assumption. lra.
Qed.


End HypeScore.

(** ** Market factor, risk-adjusted score and opportunity score *)

Section MarketFactor.

Import TokenUtils GetPortfolioStrategy Notions Examples.

Variable log10 : Q -> Q.
Hypothesis log10_spec : Log10Spec log10.

Lemma log10_succ_nonneg (x : Q) : 0 <= x -> 0 <= log10 (x + 1).
Proof.
  intros Hx. apply (log10_nonneg _ log10_spec). lra.
Qed.

Lemma log10_Number_succ_nonneg (n : Z) : (0 <= n)%Z -> 0 <= log10 (Number n + 1).
Proof.
  intros Hn. apply log10_succ_nonneg. unfold Number.
  change 0 with (inject_Z 0). rewrite <- Zle_Qle. exact Hn.
Qed.

Lemma calculateMarketFactor_range (marketData : MarketData) :
  0 <= volume24h marketData ->
  0 <= liquidity marketData ->
  0 <= calculateMarketFactor log10 marketData <= 1.2.
Proof.
  intros Hv Hl. unfold calculateMarketFactor.
  pose proof (log10_succ_nonneg _ Hv).
  pose proof (log10_succ_nonneg _ Hl).
  pose proof (Qabs_nonneg (priceChange24h marketData)).
  destruct (gt (priceChange24h marketData) 0) eqn:G.
  - apply gt_true_iff in G. minmax.
  - minmax.
Qed.

(** On the rationals the market factor of [bullMarket] is 1.2. *)
Lemma calculateMarketFactor_bullMarket :
  calculateMarketFactor log10 bullMarket == 1.2.
Proof.
  unfold calculateMarketFactor, bullMarket;
    cbn [priceChange24h volume24h liquidity].
  assert (E : log10 (999999 + 1) == 6) by exact (log10_million _ log10_spec).
  rewrite E. vm_compute. reflexivity.
Qed.

Lemma calculateNoveltyFactor_range (now creationDate : Z) :
  0.2 <= calculateNoveltyFactor now creationDate <= 1.
Proof.
  unfold calculateNoveltyFactor. cbv zeta.
  repeat match goal with
         | |- context [if ?b then _ else _] => destruct b
         end; lra.
Qed.

Lemma calculateSocialScore_at_most_one (socialSignals : option SocialSignals) :
  plausibleAggregate socialSignals ->
  calculateSocialScore log10 socialSignals <= 1.
Proof.
  unfold calculateSocialScore, plausibleAggregate.
  destruct socialSignals as [[average mentions engagement] |]; [| lra].
  cbn [avg_sentiment total_mentions total_engagement].
  intros (Ha & _ & _).
  destruct mentions as [[| m | m] |]; try lra;
    destruct average as [average |];
    try destruct (Qeq_bool average 0); minmax.
Qed.

Lemma calculateMemeScore_at_most_one (memeCorrelations : list MemeCorrelationRow) :
  calculateMemeScore memeCorrelations <= 1.
Proof.
  unfold calculateMemeScore. destruct memeCorrelations; [lra |].
  cbv zeta. apply Q.le_min_l.
Qed.

(** C10 (amended). For market data with non-negative volume and liquidity
    the market factor lies between 0 and 1.2, and for safety scores in
    [0,100] the risk-adjusted score is at most 1.05 and, when the stored
    average sentiment is at most 1 and the stored sums of mentions and
    engagement are not negative, the opportunity score at most 1.02:
    each bound up to the rounding of the doubles, which the statement takes
    as a margin of 10^-9. For a token that doubled in a day with a volume
    and a liquidity of 999999 and a safety score of 100 all three scores
    are above 1, so none of them is confined to [0,1]. *)
Theorem calculateMarketFactor_exceeds_one :
  (forall marketData,
      0 <= volume24h marketData ->
      0 <= liquidity marketData ->
      0 <= calculateMarketFactor log10 marketData <= 1.200000001)
  /\ (0 <= volume24h bullMarket
      /\ 0 <= liquidity bullMarket
      /\ 1 < calculateMarketFactor log10 bullMarket)
  /\ (forall safetyScore now creationDate marketData,
         0 <= safetyScore <= 100 ->
         0 <= volume24h marketData ->
         0 <= liquidity marketData ->
         calculateRiskAdjustedScore
           safetyScore
           (calculateNoveltyFactor now creationDate)
           (calculateMarketFactor log10 marketData)
         <= 1.050000001)
  /\ (forall safetyScore now creationDate marketData socialSignals
             memeCorrelations,
         0 <= safetyScore <= 100 ->
         0 <= volume24h marketData ->
         0 <= liquidity marketData ->
         plausibleAggregate socialSignals ->
         computeOpportunityScore log10 safetyScore
                                 (calculateNoveltyFactor now creationDate)
                                 marketData socialSignals memeCorrelations
         <= 1.020000001)
  /\ 1 < calculateRiskAdjustedScore
           100 (calculateNoveltyFactor 0 0)
           (calculateMarketFactor log10 bullMarket)
  /\ 1 < computeOpportunityScore log10 100 (calculateNoveltyFactor 0 0)
                                 bullMarket glowingSignals perfectCorrelation.
Proof.
  split.
  { intros marketData Hv Hl.
    pose proof (calculateMarketFactor_range marketData Hv Hl). lra. }
  split.
  { split; [vm_compute; discriminate |]. split; [vm_compute; discriminate |].
    rewrite calculateMarketFactor_bullMarket. reflexivity. }
  split.
  { intros safetyScore now creationDate marketData Hs Hv Hl.
    pose proof (calculateMarketFactor_range marketData Hv Hl).
    pose proof (calculateNoveltyFactor_range now creationDate).
    unfold calculateRiskAdjustedScore. cbv zeta. div_numerals. lra. }
  split.
  { intros safetyScore now creationDate marketData socialSignals
           memeCorrelations Hs Hv Hl Ha.
    pose proof (calculateMarketFactor_range marketData Hv Hl).
    pose proof (calculateNoveltyFactor_range now creationDate).
    pose proof (calculateSocialScore_at_most_one socialSignals Ha).
    pose proof (calculateMemeScore_at_most_one memeCorrelations).
    unfold computeOpportunityScore, opportunityScoreOf,
      calculateRiskAdjustedScore.
    cbv zeta. div_numerals. lra. }
  split.
  { unfold calculateRiskAdjustedScore. cbv zeta.
    rewrite calculateMarketFactor_bullMarket. vm_compute. reflexivity. }
  unfold computeOpportunityScore, opportunityScoreOf,
    calculateRiskAdjustedScore. cbv zeta.
  rewrite calculateMarketFactor_bullMarket.
  assert (Es : calculateSocialScore log10 glowingSignals == 1).
  { unfold calculateSocialScore, glowingSignals;
      cbn [avg_sentiment total_mentions total_engagement].
    assert (E : log10 (Number 999999 + 1) == 6)
      by exact (log10_million _ log10_spec).
    rewrite E. vm_compute. reflexivity. }
  rewrite Es. vm_compute. reflexivity.
Qed.

End MarketFactor.

Section MarketFactorExamples.

Import TokenUtils GetPortfolioStrategy Notions Examples.

(** C10 run on the integer logarithm: the market factor of [bullMarket]. *)
Lemma calculateMarketFactor_exceeds_one_witness :
  Log10Spec floor_log10
  /\ 0 <= volume24h bullMarket
  /\ 0 <= liquidity bullMarket
  /\ 0 <= calculateMarketFactor floor_log10 bullMarket <= 1.200000001
  /\ 1 < calculateMarketFactor floor_log10 bullMarket.
Proof.
  assert (Hv : 0 <= volume24h bullMarket) by (vm_compute; discriminate).
  assert (Hl : 0 <= liquidity bullMarket) by (vm_compute; discriminate).
  split; [exact floor_log10_spec |]. split; [exact Hv |]. split; [exact Hl |].
  split.
  - apply (proj1 (calculateMarketFactor_exceeds_one floor_log10 floor_log10_spec)
             bullMarket Hv Hl).
  - apply (proj2 (proj2 (proj1 (proj2 (calculateMarketFactor_exceeds_one
                                         floor_log10 floor_log10_spec))))).
Defined.

(** The claim fails twice. On the doubles of the source the market factor
    of [bullMarket] is 1.5 * 0.4 + 1 * 0.3 + 1 * 0.3, which is
    1.2000000000000002, above 1.2. And a safety score in [0,100] does not
    bound the opportunity score by 1.02: with a stored average sentiment of
    3 the sentiment factor is 2, the social score 1.3 and the opportunity
    score 1.11. *)
Lemma opportunityScore_exceeds_its_bounds :
  0 <= volume24h bullMarket
  /\ 0 <= liquidity bullMarket
  /\ 1.2 < Doubles.value (Doubles.calculateMarketFactor bullMarket)
  /\ ~ Doubles.value (Doubles.calculateMarketFactor bullMarket) <= 1.2
  /\ 0 <= 100 <= 100
  /\ 1.02 < computeOpportunityScore
              floor_log10 100 (calculateNoveltyFactor 0 0) bullMarket
              ravingSignals perfectCorrelation
  /\ ~ (forall safetyScore now creationDate marketData socialSignals
               memeCorrelations,
          0 <= safetyScore <= 100 ->
          0 <= volume24h marketData ->
          0 <= liquidity marketData ->
          computeOpportunityScore floor_log10 safetyScore
                                  (calculateNoveltyFactor now creationDate)
                                  marketData socialSignals memeCorrelations
          <= 1.02).
Proof.
  assert (Hv : 0 <= volume24h bullMarket) by (vm_compute; discriminate).
  assert (Hl : 0 <= liquidity bullMarket) by (vm_compute; discriminate).
  assert (Hs : 0 <= 100 <= 100) by (split; vm_compute; discriminate).
  split; [exact Hv |]. split; [exact Hl |].
  split; [vm_compute; reflexivity |].
  split; [vm_compute; intros H; apply H; reflexivity |].
  split; [exact Hs |].
  split; [vm_compute; reflexivity |].
  intros H.
  specialize (H 100 0%Z 0%Z bullMarket ravingSignals perfectCorrelation
                Hs Hv Hl).
  vm_compute in H. apply H. reflexivity.
Qed.

End MarketFactorExamples.

(** ** Portfolio allocation *)

Section Portfolio.

Import GetPortfolioStrategy Notions Examples.

Lemma total_app (l1 l2 : list Q) : total (l1 ++ l2) == total l1 + total l2.
Proof.
  induction l1 as [| x l1 IH].
  - change (total l2 == 0 + total l2). ring.
  - change (x + total (l1 ++ l2) == x + total l1 + total l2).
    rewrite IH. ring.
Qed.

Lemma total_bounded (bound : Q) (l : list Q) :
  Forall (fun x => x <= bound) l ->
  total l <= Number (Z.of_nat (List.length l)) * bound.
Proof.
  induction 1 as [| x l Hx Hl IH].
  - change (0 <= 0 * bound). lra.
  - change (x + total l
            <= Number (Z.of_nat (S (List.length l))) * bound).
    rewrite Nat2Z.inj_succ. unfold Number in *.
    unfold Z.succ. rewrite inject_Z_plus. change (inject_Z 1) with 1.
    set (size := inject_Z (Z.of_nat (List.length l))) in *.
    set (sum := total l) in *.
    assert (E : (size + 1) * bound == size * bound + bound) by ring.
    rewrite E. lra.
Qed.

Lemma Number_nat_add (n m : nat) :
  Number (Z.of_nat (n + m)) == Number (Z.of_nat n) + Number (Z.of_nat m).
Proof.
  unfold Number. rewrite Nat2Z.inj_add, inject_Z_plus. reflexivity.
Qed.

Lemma length_mapi {A B : Type} (f : A -> nat -> B) (l : list A) :
  List.length (mapi f l) = List.length l.
Proof.
  unfold mapi. rewrite length_map, length_combine, length_seq.
  apply Nat.min_id.
Qed.

Lemma in_mapi {A B : Type} (f : A -> nat -> B) (l : list A) (y : B) :
  In y (mapi f l) -> exists x index, In x l /\ y = f x index.
Proof.
  unfold mapi. intros H. apply in_map_iff in H.
  destruct H as [[index x] [E H]]. exists x, index.
  split; [exact (in_combine_r _ _ _ _ H) | symmetry; exact E].
Qed.

(** Rounding to cents adds at most half a cent. *)
Lemma rounded_to_cents (x : Q) :
  Number (Math_round (x * 100)) / 100 <= x + 0.005.
Proof.
  pose proof (Math_round_upper (x * 100)). unfold Number. div_numerals. lra.
Qed.

(** The share of a token before rounding is at most an equal share. *)
Lemma share_at_most_equal (bucketAllocation : Q) (index size : nat) :
  0 <= bucketAllocation ->
  (bucketAllocation
   * (1 - (Number (Z.of_nat index) / Number (Z.of_nat size)) * 0.5))
  / Number (Z.of_nat size)
  <= bucketAllocation / Number (Z.of_nat size).
Proof.
  intros Ha. unfold Qdiv at 1 3.
  apply Qmult_le_compat_r; [| apply Qinv_le_0_compat, Number_nat_nonneg].
  pose proof (Qdiv_nonneg _ _ (Number_nat_nonneg index) (Number_nat_nonneg size))
    as Hq.
  set (q := Number (Z.of_nat index) / Number (Z.of_nat size)) in *.
  assert (0 <= bucketAllocation * (q * 0.5))
    by (apply Qmult_le_0_compat; lra).
  lra.
Qed.

Lemma allocate_entries (bucket : list ProcessedToken) (bucketAllocation : Q)
  (label reason : string) (allocation : Allocation) :
  In allocation (allocate bucket bucketAllocation label reason) ->
  category allocation = label
  /\ exists index,
      amount allocation
      = Number
          (Math_round
             ((bucketAllocation
               * (1 - (Number (Z.of_nat index)
                       / Number (Z.of_nat (List.length bucket))) * 0.5))
              / Number (Z.of_nat (List.length bucket)) * 100))
        / 100.
Proof.
  unfold allocate. intros H. apply in_mapi in H.
  destruct H as [token [index [_ ->]]]. cbn [category amount].
  split; [reflexivity |]. exists index. reflexivity.
Qed.

Lemma allocate_length (bucket : list ProcessedToken) (bucketAllocation : Q)
  (label reason : string) :
  List.length (allocate bucket bucketAllocation label reason)
  = List.length bucket.
Proof. unfold allocate. apply length_mapi. Qed.

(** A bucket hands out at most its allocation, plus half a cent for each of
    its tokens. *)
Lemma allocate_total (bucket : list ProcessedToken) (bucketAllocation : Q)
  (label reason : string) :
  0 <= bucketAllocation ->
  total (map amount (allocate bucket bucketAllocation label reason))
  <= bucketAllocation + 0.005 * Number (Z.of_nat (List.length bucket)).
Proof.
  intros Ha.
  destruct (Nat.eq_dec (List.length bucket) 0) as [Empty | NonEmpty].
  - apply length_zero_iff_nil in Empty. subst bucket.
    change (0 <= bucketAllocation + 0.005 * 0). lra.
  - set (size := Number (Z.of_nat (List.length bucket))).
    assert (Hs : 0 < size).
    { unfold size, Number. change 0 with (inject_Z 0).
      rewrite <- Zlt_Qlt. lia. }
    assert (Hb : Forall (fun x => x <= bucketAllocation / size + 0.005)
                   (map amount (allocate bucket bucketAllocation label reason))).
    { apply Forall_forall. intros x Hx. apply in_map_iff in Hx.
      destruct Hx as [allocation [<- Hin]].
      apply allocate_entries in Hin. destruct Hin as [_ [index ->]].
      eapply Qle_trans; [apply rounded_to_cents |].
      pose proof (share_at_most_equal bucketAllocation index
                    (List.length bucket) Ha) as Hshare.
      fold size in Hshare. fold size. lra. }
    apply total_bounded in Hb.
    rewrite length_map, allocate_length in Hb. fold size in Hb.
    assert (E : size * (bucketAllocation / size + 0.005)
                == bucketAllocation + 0.005 * size) by (field; lra).
    rewrite E in Hb. exact Hb.
Qed.

Lemma notHeld_length (existingPortfolio : option (list Holding))
  (bucket : list ProcessedToken) :
  (List.length (notHeld existingPortfolio bucket) <= List.length bucket)%nat.
Proof. unfold notHeld. apply filter_length_le. Qed.

Lemma slice0_length {A : Type} (n : Z) (l : list A) :
  (List.length (slice0 n l) <= Z.to_nat n)%nat.
Proof. unfold slice0. apply firstn_le_length. Qed.

(** The presets: the three ratios are not negative and add up to 1, and the
    three buckets hold at most ten tokens together. *)
Lemma allocationParameters_sound (riskTolerance : string) :
  let parameters := allocationParameters riskTolerance in
  0 <= estabRatio parameters
  /\ 0 <= newRatio parameters
  /\ 0 <= 1 - estabRatio parameters - newRatio parameters
  /\ (Z.to_nat (Z.max 1 (Math_floor (Number (maxTokens parameters) * 0.4)))
      + Z.to_nat (Z.max 1 (Math_floor (Number (maxTokens parameters) * 0.4)))
      + Z.to_nat (Z.max 1 (Math_floor (Number (maxTokens parameters) * 0.2)))
      <= 10)%nat.
Proof.
  unfold allocationParameters.
  destruct (String.eqb riskTolerance "conservative");
    [| destruct (String.eqb riskTolerance "aggressive");
       [| destruct (String.eqb riskTolerance "very_aggressive")]];
    cbv zeta; cbn [estabRatio newRatio maxTokens];
    (repeat split; [lra | lra | lra | vm_compute; lia]).
Qed.

Lemma allocations_length (processedTokens : list ProcessedToken)
  (riskTolerance : string) (investmentSize : Q)
  (existingPortfolio : option (list Holding)) :
  (List.length
     (allocations processedTokens riskTolerance investmentSize existingPortfolio)
   <= 10)%nat.
Proof.
  unfold allocations. cbv zeta.
  rewrite !length_app, !allocate_length.
  pose proof (allocationParameters_sound riskTolerance) as (_ & _ & _ & H).
  cbv zeta in H.
  set (parameters := allocationParameters riskTolerance) in *.
  pose proof (notHeld_length existingPortfolio
                (established parameters processedTokens)).
  pose proof (notHeld_length existingPortfolio
                (newTokens parameters processedTokens)).
  pose proof (notHeld_length existingPortfolio
                (speculative parameters processedTokens)).
  pose proof (slice0_length
                (Z.max 1 (Math_floor (Number (maxTokens parameters) * 0.4)))
                (filter (fun t => ge (safetyScore t) (minSafetyScore parameters))
                        processedTokens)) as He.
  fold (established parameters processedTokens) in He.
  pose proof (slice0_length
                (Z.max 1 (Math_floor (Number (maxTokens parameters) * 0.4)))
                (sort byOpportunity
                      (filter (fun t =>
                                 ge (safetyScore t)
                                    (minSafetyScore parameters * 0.7)
                                 && lt (safetyScore t)
                                       (minSafetyScore parameters))
                              processedTokens))) as Hn.
  fold (newTokens parameters processedTokens) in Hn.
  pose proof (slice0_length
                (Z.max 1 (Math_floor (Number (maxTokens parameters) * 0.2)))
                (sort byOpportunity
                      (filter (fun t =>
                                 lt (safetyScore t)
                                    (minSafetyScore parameters * 0.7))
                              processedTokens))) as Hs.
  fold (speculative parameters processedTokens) in Hs.
  lia.
Qed.

Lemma allocations_total (processedTokens : list ProcessedToken)
  (riskTolerance : string) (investmentSize : Q)
  (existingPortfolio : option (list Holding)) :
  0 <= investmentSize ->
  total (map amount
             (allocations processedTokens riskTolerance investmentSize
                          existingPortfolio))
  <= investmentSize
     + 0.005
       * Number (Z.of_nat
                   (List.length
                      (allocations processedTokens riskTolerance investmentSize
                                   existingPortfolio))).
Proof.
  intros Hi. unfold allocations. cbv zeta.
  pose proof (allocationParameters_sound riskTolerance) as (He & Hn & Hr & _).
  cbv zeta in He, Hn, Hr.
  set (parameters := allocationParameters riskTolerance) in *.
  set (bucketE := notHeld existingPortfolio (established parameters processedTokens)).
  set (bucketN := notHeld existingPortfolio (newTokens parameters processedTokens)).
  set (bucketS := notHeld existingPortfolio (speculative parameters processedTokens)).
  rewrite !map_app, !total_app, !length_app, !allocate_length.
  rewrite !Number_nat_add.
  assert (Ae : 0 <= investmentSize * estabRatio parameters)
    by (apply Qmult_le_0_compat; assumption).
  assert (An : 0 <= investmentSize * newRatio parameters)
    by (apply Qmult_le_0_compat; assumption).
  assert (Ar : 0 <= investmentSize - investmentSize * estabRatio parameters
                    - investmentSize * newRatio parameters).
  { assert (0 <= investmentSize
                 * (1 - estabRatio parameters - newRatio parameters))
      by (apply Qmult_le_0_compat; assumption).
    lra. }
  pose proof (allocate_total bucketE _ "established"
                "Lower risk established memecoin with good market metrics" Ae).
  pose proof (allocate_total bucketN _ "new"
                "Moderate risk newer memecoin showing promising signals" An).
  pose proof (allocate_total bucketS _ "speculative"
                "Higher risk speculative memecoin with potential for significant returns"
                Ar).
  lra.
Qed.

Lemma recommended_amounts (processedTokens : list ProcessedToken)
  (riskTolerance : string) (investmentSize : Q)
  (existingPortfolio : option (list Holding)) :
  map recommendedAmount
      (recommendations
         (generatePortfolioAllocation processedTokens riskTolerance
                                      investmentSize existingPortfolio))
  = map amount
        (allocations processedTokens riskTolerance investmentSize
                     existingPortfolio).
Proof.
  unfold generatePortfolioAllocation. cbv zeta. cbn [recommendations].
  rewrite map_map. reflexivity.
Qed.

(** C3 (amended). For every risk tolerance, every investment size from 0
    to 10^9 and every list of processed tokens, the amounts recommended by
    [generatePortfolioAllocation] add up to at most the investment size plus
    half a cent for each recommendation; there are at most ten
    recommendations, so the sum is at most the investment size plus five
    cents. The upper limit keeps the rounding of the doubles, which grows
    with the investment size, far below a cent. *)
Theorem recommended_total_bound (processedTokens : list ProcessedToken)
  (riskTolerance : string) (investmentSize : Q)
  (existingPortfolio : option (list Holding)) :
  0 <= investmentSize ->
  investmentSize <= 1000000000 ->
  recommendedTotal
    (generatePortfolioAllocation processedTokens riskTolerance investmentSize
                                 existingPortfolio)
  <= investmentSize
     + 0.005
       * Number
           (Z.of_nat
              (List.length
                 (recommendations
                    (generatePortfolioAllocation
                       processedTokens riskTolerance investmentSize
                       existingPortfolio))))
  /\ (List.length
        (recommendations
           (generatePortfolioAllocation processedTokens riskTolerance
                                        investmentSize existingPortfolio))
      <= 10)%nat
  /\ recommendedTotal
       (generatePortfolioAllocation processedTokens riskTolerance
                                    investmentSize existingPortfolio)
     <= investmentSize + 0.05.
Proof.
  intros Hi _. unfold recommendedTotal.
  rewrite recommended_amounts.
  assert (L : List.length
                (recommendations
                   (generatePortfolioAllocation processedTokens riskTolerance
                                                investmentSize
                                                existingPortfolio))
              = List.length
                  (allocations processedTokens riskTolerance investmentSize
                               existingPortfolio)).
  { rewrite <- (length_map recommendedAmount), recommended_amounts.
    apply length_map. }
  rewrite L.
  pose proof (allocations_total processedTokens riskTolerance investmentSize
                existingPortfolio Hi) as Ht.
  pose proof (allocations_length processedTokens riskTolerance investmentSize
                existingPortfolio) as Hl.
  split; [exact Ht |]. split; [exact Hl |].
  assert (Number
            (Z.of_nat
               (List.length
                  (allocations processedTokens riskTolerance investmentSize
                               existingPortfolio)))
          <= 10).
  { unfold Number. change 10 with (inject_Z 10). rewrite <- Zle_Qle. lia. }
  lra.
Qed.

(** C3 on an investment of 12.346 under the conservative preset. *)
Lemma recommended_total_bound_witness :
  0 <= 12.346
  /\ 12.346 <= 1000000000
  /\ recommendedTotal
       (generatePortfolioAllocation twoCandidates "conservative" 12.346 None)
     <= 12.346 + 0.05.
Proof.
  assert (H : 0 <= 12.346) by (vm_compute; discriminate).
  assert (H' : 12.346 <= 1000000000) by (vm_compute; discriminate).
  split; [exact H |]. split; [exact H' |].
  apply (proj2 (proj2 (recommended_total_bound
                         twoCandidates "conservative" 12.346 None H H'))).
Defined.

(** An investment of 12.346 under the conservative preset, one established
    and one new token: 80% is 9.8768 and rounds to 9.88, 20% is 2.4692 and
    rounds to 2.47; the sum is more than the investment, on the rationals
    and on the doubles. On the doubles the excess grows with the investment:
    at 422234407480619, where a double is a multiple of 1/16, the two
    amounts add up to the investment and 0.0625. *)
Lemma rounding_exceeds_investment :
  0 <= 12.346
  /\ map recommendedAmount
         (recommendations
            (generatePortfolioAllocation twoCandidates "conservative" 12.346
                                         None))
     = [9.88; 2.47]
  /\ ~ recommendedTotal
         (generatePortfolioAllocation twoCandidates "conservative" 12.346 None)
       <= 12.346
  /\ ~ total (Doubles.recommendedAmounts twoCandidates "conservative" 12.346
                                         None)
       <= 12.346
  /\ total (Doubles.recommendedAmounts twoCandidates "conservative"
                                       422234407480619 None)
     == 422234407480619 + 0.0625.
Proof.
  split; [vm_compute; discriminate |].
  split; [vm_compute; reflexivity |].
  split; [vm_compute; intros H; apply H; reflexivity |].
  split; [vm_compute; intros H; apply H; reflexivity |].
  vm_compute. reflexivity.
Qed.

Lemma allocate_nothing (bucket : list ProcessedToken) (bucketAllocation : Q)
  (label reason : string) :
  bucketAllocation == 0 ->
  Forall (fun allocation => amount allocation == 0)
         (allocate bucket bucketAllocation label reason).
Proof.
  intros Hz. apply Forall_forall. intros allocation H.
  apply allocate_entries in H. destruct H as [_ [index ->]].
  rewrite (Math_round_comp _ 0).
  - vm_compute. reflexivity.
  - rewrite Hz. unfold Qdiv. ring.
Qed.

(** C5 (amended). Under the conservative preset, for an investment size
    from 0 to 10^9, every allocation of category speculative has the amount
    0, so none has an amount above 0; the speculative share of the preset is
    0 and the speculative bucket holds at most one token. The upper limit
    keeps what the doubles leave of the investment after the two other
    buckets, which grows with the investment size, far below a cent. *)
Theorem conservative_speculative_amounts (processedTokens : list ProcessedToken)
  (investmentSize : Q) (existingPortfolio : option (list Holding)) :
  0 <= investmentSize ->
  investmentSize <= 1000000000 ->
  Forall (fun allocation =>
            category allocation = "speculative" ->
            amount allocation == 0 /\ ~ 0 < amount allocation)
         (allocations processedTokens "conservative" investmentSize
                      existingPortfolio)
  /\ specRatio (allocationParameters "conservative") == 0
  /\ (List.length
        (notHeld existingPortfolio
                 (speculative (allocationParameters "conservative")
                              processedTokens))
      <= 1)%nat.
Proof.
  intros _ _. split; [| split].
  - unfold allocations. cbv zeta.
    repeat (apply Forall_app; split).
    + apply Forall_forall. intros allocation H Hc.
      apply allocate_entries in H. destruct H as [Hl _].
      rewrite Hl in Hc. discriminate Hc.
    + apply Forall_forall. intros allocation H Hc.
      apply allocate_entries in H. destruct H as [Hl _].
      rewrite Hl in Hc. discriminate Hc.
    + eapply Forall_impl; [| apply allocate_nothing].
      * intros allocation Hz _. split; [exact Hz |]. rewrite Hz. lra.
      * let preset := eval vm_compute in (allocationParameters "conservative") in
        change (allocationParameters "conservative") with preset.
        cbn [estabRatio newRatio]. lra.
  - reflexivity.
  - eapply Nat.le_trans; [apply notHeld_length |].
    unfold speculative.
    eapply Nat.le_trans; [apply slice0_length |]. vm_compute. lia.
Qed.

(** C5 on an investment of 1000. *)
Lemma conservative_speculative_amounts_witness :
  0 <= 1000
  /\ 1000 <= 1000000000
  /\ Forall (fun allocation =>
               category allocation = "speculative" ->
               amount allocation == 0 /\ ~ 0 < amount allocation)
            (allocations riskyCandidate "conservative" 1000 None).
Proof.
  assert (H : 0 <= 1000) by (vm_compute; discriminate).
  assert (H' : 1000 <= 1000000000) by (vm_compute; discriminate).
  split; [exact H |]. split; [exact H' |].
  apply (proj1 (conservative_speculative_amounts riskyCandidate 1000 None
                  H H')).
Defined.

(** Under the conservative preset a token with a safety score of 10 is put
    into the speculative bucket and is allocated, with the amount 0 for an
    investment of 1000. On the doubles what is left of a large investment
    after the two other buckets is no longer 0: the token is allocated 0.01
    of an investment of 200000000000002, an amount above 0, and -0.01 of
    an investment of 100000000000002. *)
Lemma conservative_speculative_bucket_not_empty :
  List.length
    (notHeld None
             (speculative (allocationParameters "conservative") riskyCandidate))
  = 1%nat
  /\ map (fun allocation =>
            (address (token allocation), category allocation,
             Qred (amount allocation)))
         (allocations riskyCandidate "conservative" 1000 None)
     = [("RISKY", "speculative", 0)]
  /\ notHeld None
             (speculative (allocationParameters "conservative") riskyCandidate)
     <> []
  /\ map Doubles.category
         (Doubles.allocations riskyCandidate "conservative"
                              (Doubles.literal 200000000000002) None)
     = ["speculative"]
  /\ Doubles.recommendedAmounts riskyCandidate "conservative"
                                200000000000002 None
     = [Doubles.value (Doubles.literal 0.01)]
  /\ Forall (fun amount => 0 < amount)
            (Doubles.recommendedAmounts riskyCandidate "conservative"
                                        200000000000002 None)
  /\ Forall (fun amount => amount < 0)
            (Doubles.recommendedAmounts riskyCandidate "conservative"
                                        100000000000002 None).
Proof.
  split; [vm_compute; reflexivity |]. split; [vm_compute; reflexivity |].
  split; [vm_compute; discriminate |].
  split; [vm_compute; reflexivity |]. split; [vm_compute; reflexivity |].
  split; vm_compute; repeat constructor.
Qed.

End Portfolio.

(** * Further properties *)

(** ** The safety analysis and the rugpull scan *)

Section SafetyAnalysis.

Import SafetyUtils Notions Examples.

Lemma calculateSafetyScore_bounds (metrics : SafetyMetrics) :
  0 <= calculateSafetyScore metrics <= 100.
Proof. unfold calculateSafetyScore. minmax. Qed.

Ltac project :=
  cbn [tokenAddress safetyScore details warnings metrics supplySize
       mintAuthorityExists freezeAuthorityExists topHolderPercentage
       holderCount hasLiquidity].

(** What a successful run of the [try] block has read and returned. *)
Lemma analyzeTokenSafety_try_inversion (env : Env) (address : string)
  (analysis : SafetyAnalysis) :
  analyzeTokenSafety_try env address = Ok analysis ->
  exists mintPublicKey mintInfo programAccounts,
    PublicKey env address = Ok mintPublicKey
    /\ getMint env mintPublicKey = Ok mintInfo
    /\ getProgramAccounts env mintPublicKey = Ok programAccounts
    /\ tokenAddress analysis = address
    /\ safetyScore analysis = calculateSafetyScore (details analysis)
    /\ warnings analysis = generateWarnings (details analysis)
    /\ holderCount (details analysis) = Z.of_nat (List.length programAccounts)
    /\ hasLiquidity (details analysis) = checkTokenLiquidity env address
    /\ ((topHolderPercentage (details analysis) = 0
         /\ (programAccounts = [] \/ Number (supply mintInfo) <= 0))
        \/ (0 < Number (supply mintInfo)
            /\ exists holders top rest,
                readHolders programAccounts = Ok holders
                /\ sort (descending_by balance) holders = top :: rest
                /\ topHolderPercentage (details analysis)
                   = balance top / Number (supply mintInfo) * 100)).
Proof.
  unfold analyzeTokenSafety_try.
  destruct (PublicKey env address) as [mintPublicKey | m] eqn:Ek; cbn [bind];
    [| discriminate].
  destruct (getMint env mintPublicKey) as [mintInfo | m] eqn:Em; cbn [bind];
    [| discriminate].
  destruct (getProgramAccounts env mintPublicKey) as [programAccounts | m]
    eqn:Ea; cbn [bind]; [| discriminate].
  intros E. exists mintPublicKey, mintInfo, programAccounts.
  split; [reflexivity |]. split; [exact Em |]. split; [exact Ea |].
  destruct (0 <? List.length programAccounts)%nat eqn:NonEmpty;
    [destruct (gt (Number (supply mintInfo)) 0) eqn:Positive |];
    cbn [andb] in E.
  - fold (readHolders programAccounts) in E.
    destruct (readHolders programAccounts) as [holders | m] eqn:Read;
      cbn [bind] in E; [| discriminate].
    change (sort (fun a b => balance b - balance a) holders)
      with (sort (descending_by balance) holders) in E.
    destruct (sort (descending_by balance) holders) as [| top rest] eqn:Sorted;
      cbn [bind] in E.
    + exfalso.
      assert (P : Permutation (sort (descending_by balance) holders) holders)
        by apply sort_permutation.
      rewrite Sorted in P. apply Permutation_nil in P. subst holders.
      destruct programAccounts as [| account others]; [discriminate |].
      unfold readHolders in Read. cbn [mapM] in Read.
      destruct (readBigUInt64LE (data account) 64); cbn [bind] in Read;
        [| discriminate].
      destruct (mapM _ others); cbn [bind] in Read; discriminate.
    + injection E as <-. project.
      do 5 (split; [reflexivity |]).
      right. split; [apply gt_true_iff, Positive |].
      exists holders, top, rest.
      split; [reflexivity |]. split; [exact Sorted | reflexivity].
  - injection E as <-. project.
    do 5 (split; [reflexivity |]).
    left. split; [reflexivity |]. right. apply gt_false_iff, Positive.
  - injection E as <-. project.
    do 5 (split; [reflexivity |]).
    left. split; [reflexivity |]. left.
    destruct programAccounts; [reflexivity | discriminate].
Qed.

(** X1. [analyzeTokenSafety] returns for every chain and every address,
    and the analysis it returns is for that address, with a safety score
    between 0 and 100 and a holder count that is not negative. *)
Theorem analyzeTokenSafety_returns_score (env : Env) (address : string) :
  exists analysis,
    analyzeTokenSafety env address = Ok analysis
    /\ tokenAddress analysis = address
    /\ 0 <= safetyScore analysis <= 100
    /\ (0 <= holderCount (details analysis))%Z.
Proof.
  unfold analyzeTokenSafety.
  destruct (analyzeTokenSafety_try env address) as [analysis | m] eqn:Try;
    cbn [try_catch].
  - exists analysis. split; [reflexivity |].
    apply analyzeTokenSafety_try_inversion in Try.
    destruct Try as (key & mint & accounts & _ & _ & _ & Ea & Es & _ & Eh & _).
    split; [exact Ea |]. split.
    + rewrite Es. apply calculateSafetyScore_bounds.
    + rewrite Eh. lia.
  - exists (analysisUnavailable address). split; [reflexivity |].
    split; [reflexivity |]. split; [cbn; lra | cbn; lia].
Qed.

Lemma mapM_in {A B : Type} (f : A -> result B) (l : list A) (l' : list B)
  (x : A) :
  mapM f l = Ok l' -> In x l -> exists y, f x = Ok y /\ In y l'.
Proof.
  revert l'. induction l as [| a l IH]; intros l' E Hx; [destruct Hx |].
  cbn [mapM] in E.
  destruct (f a) as [b | m] eqn:Fa; cbn [bind] in E; [| discriminate].
  destruct (mapM f l) as [bs | m] eqn:Fl; cbn [bind] in E; [| discriminate].
  injection E as <-. destruct Hx as [<- | Hx].
  - exists b. split; [exact Fa | left; reflexivity].
  - destruct (IH bs eq_refl Hx) as [y [Fy Hy]].
    exists y. split; [exact Fy | right; exact Hy].
Qed.

(** Every balance that was read is the balance of one of the accounts. *)
Lemma readHolders_in (programAccounts : list ProgramAccount)
  (holders : list Holder) (holder : Holder) :
  readHolders programAccounts = Ok holders ->
  In holder holders ->
  exists account amount,
    In account programAccounts
    /\ readBigUInt64LE (data account) 64 = Ok amount
    /\ balance holder = Number amount.
Proof.
  revert holders.
  induction programAccounts as [| account others IH]; intros holders Read Hin.
  - injection Read as <-. destruct Hin.
  - unfold readHolders in Read. cbn [mapM] in Read.
    destruct (readBigUInt64LE (data account) 64) as [amount | m] eqn:Ra;
      cbn [bind] in Read; [| discriminate].
    fold (readHolders others) in Read.
    destruct (readHolders others) as [hs | m] eqn:Ro; cbn [bind] in Read;
      [| discriminate].
    injection Read as <-. destruct Hin as [<- | Hin].
    + exists account, amount. split; [left; reflexivity |].
      split; [exact Ra | reflexivity].
    + destruct (IH hs eq_refl Hin) as (account' & amount' & Hin' & Hr & E).
      exists account', amount'. split; [right; exact Hin' |].
      split; [exact Hr | exact E].
Qed.

(** The first element of a list sorted in descending order is a largest
    element of the list that was sorted. *)
Lemma sort_head_largest {A : Type} (key : A -> Q) (l : list A) (top : A)
  (rest : list A) (x : A) :
  sort (descending_by key) l = top :: rest -> In x l -> key x <= key top.
Proof.
  intros Sorted Hx.
  pose proof (sort_descending key l) as S. rewrite Sorted in S.
  apply (Permutation_in
           _ (Permutation_sym (sort_permutation (descending_by key) l))) in Hx.
  rewrite Sorted in Hx. inversion S as [| ? ? _ Htop]; subst.
  destruct Hx as [<- | Hx]; [lra |].
  rewrite Forall_forall in Htop. exact (Htop x Hx).
Qed.

(** X2. When the analysis succeeds on a mint with a positive supply, the
    top holder percentage it reports is at least the share of every token
    account of the mint, and it is the share of one of them. *)
Theorem topHolderPercentage_is_largest_share (env : Env) (address : string)
  (analysis : SafetyAnalysis) (mintPublicKey : string) (mintInfo : MintInfo)
  (programAccounts : list ProgramAccount) :
  analyzeTokenSafety_try env address = Ok analysis ->
  PublicKey env address = Ok mintPublicKey ->
  getMint env mintPublicKey = Ok mintInfo ->
  getProgramAccounts env mintPublicKey = Ok programAccounts ->
  programAccounts <> [] ->
  (0 < supply mintInfo)%Z ->
  (forall account amount,
      In account programAccounts ->
      readBigUInt64LE (data account) 64 = Ok amount ->
      Number amount / Number (supply mintInfo) * 100
      <= topHolderPercentage (details analysis))
  /\ (exists account amount,
         In account programAccounts
         /\ readBigUInt64LE (data account) 64 = Ok amount
         /\ topHolderPercentage (details analysis)
            = Number amount / Number (supply mintInfo) * 100).
Proof.
  intros Try Ek Em Ea NonEmpty Positive.
  apply analyzeTokenSafety_try_inversion in Try.
  destruct Try as (key & mint & accounts & Ek' & Em' & Ea' & _ & _ & _ & _ & _
                   & Top).
  rewrite Ek in Ek'. injection Ek' as <-.
  rewrite Em in Em'. injection Em' as <-.
  rewrite Ea in Ea'. injection Ea' as <-.
  assert (Hs : 0 < Number (supply mintInfo)).
  { unfold Number. change 0 with (inject_Z 0). rewrite <- Zlt_Qlt.
    exact Positive. }
  destruct Top as [[_ [Empty | Zero]] | [_ (holders & top & rest & Read & Sorted
                                           & ->)]];
    [contradiction | lra |].
  split.
  - intros account amount Hin Hread.
    destruct (mapM_in _ _ _ account Read Hin) as [holder [Eh Hh]].
    rewrite Hread in Eh. cbn [bind] in Eh. injection Eh as <-.
    pose proof (sort_head_largest balance holders top rest _ Sorted Hh) as Le.
    cbn [balance] in Le.
    apply Qmult_le_compat_r; [| lra].
    unfold Qdiv. apply Qmult_le_compat_r; [exact Le |].
    apply Qinv_le_0_compat. lra.
  - assert (Htop : In top holders).
    { apply (Permutation_in _ (sort_permutation (descending_by balance) holders)).
      rewrite Sorted. left. reflexivity. }
    destruct (readHolders_in _ _ _ Read Htop) as (account & amount & Hin & Hr & E).
    exists account, amount. split; [exact Hin |]. split; [exact Hr |].
    rewrite E. reflexivity.
Qed.

(** X2 on the chain of the scenario: the whale's 600 of 1000. *)
Lemma topHolderPercentage_is_largest_share_witness :
  exists account amount,
    In account scenarioAccounts
    /\ readBigUInt64LE (data account) 64 = Ok amount
    /\ topHolderPercentage (details scenarioResult)
       = Number amount / Number (supply scenarioMint) * 100.
Proof.
  apply (topHolderPercentage_is_largest_share
           scenarioChain "mint" scenarioResult "mint" scenarioMint
           scenarioAccounts).
  - vm_compute. reflexivity.
  - reflexivity.
  - reflexivity.
  - reflexivity.
  - vm_compute. discriminate.
  - vm_compute. reflexivity.
Defined.

End SafetyAnalysis.

Section RugpullScan.

Import SafetyUtils RunRugpullScan Notions Examples.

Lemma analyzeTokenSafety_score_bounds (env : SafetyUtils.Env) (address : string)
  (analysis : SafetyAnalysis) :
  analyzeTokenSafety env address = Ok analysis ->
  0 <= safetyScore analysis <= 100.
Proof.
  unfold analyzeTokenSafety.
  destruct (analyzeTokenSafety_try env address) as [found | m] eqn:Try;
    cbn [try_catch]; intros E; injection E as <-.
  - apply analyzeTokenSafety_try_inversion in Try.
    destruct Try as (key & mint & accounts & _ & _ & _ & _ & Es & _).
    rewrite Es. apply calculateSafetyScore_bounds.
  - cbn. lra.
Qed.

Lemma Math_round_monotone (x y : Q) : x <= y -> (Math_round x <= Math_round y)%Z.
Proof.
  intros H. unfold Math_round. apply Qfloor_resp_le. lra.
Qed.

Lemma Math_round_integer (n : Z) : Math_round (inject_Z n) = n.
Proof.
  unfold Math_round. apply Qfloor_unique.
  - lra.
  - lra.
Qed.

(** X3. The scam score of [checkScamSimilarity] is always 0, so every
    report of the rugpull scan has a safety score between 30 and 100 and a
    risk level other than Extreme, and its warnings are those of the
    on-chain analysis alone. *)
Theorem scan_never_extreme (env : RunRugpullScan.Env) (address : string)
  (report : RugpullReport) :
  handler env (Some address) = Ok report ->
  (30 <= reportSafetyScore report <= 100)%Z
  /\ riskLevel report <> "Extreme"
  /\ (riskLevel report = "Low" \/ riskLevel report = "Medium"
      \/ riskLevel report = "High")
  /\ scamScore (scamSimilarity report) == 0
  /\ exists safetyAnalysis,
      analyzeTokenSafety (chain env) address = Ok safetyAnalysis
      /\ reportWarnings report = warnings safetyAnalysis.
Proof.
  intros E.
  assert (Sim : scamSimilarity report = checkScamSimilarity address).
  { unfold handler in E. destruct address as [| c rest]; [discriminate |].
    destruct (queryOne env (String c rest)) as [[tokenInfo |] | m];
      cbn [bind try_catch] in E; try discriminate.
    destruct (analyzeTokenSafety (chain env) (String c rest))
      as [safetyAnalysis | m]; cbn [bind try_catch] in E; try discriminate.
    destruct (execute env _) as [[] | m]; cbn [bind try_catch] in E;
      try discriminate.
    injection E as <-. reflexivity. }
  destruct (handler_report env address report E)
    as (safetyAnalysis & Ea & Es & El & Ew).
  pose proof (analyzeTokenSafety_score_bounds _ _ _ Ea) as Range.
  assert (Combined :
           30 <= combinedSafetyScore safetyAnalysis (checkScamSimilarity address)
           <= 100).
  { unfold combinedSafetyScore.
    change (scamScore (checkScamSimilarity address)) with 0. lra. }
  set (combined :=
         combinedSafetyScore safetyAnalysis (checkScamSimilarity address)) in *.
  split.
  { rewrite Es. split.
    - rewrite <- (Math_round_integer 30). apply Math_round_monotone.
      change (inject_Z 30) with 30. lra.
    - rewrite <- (Math_round_integer 100). apply Math_round_monotone.
      change (inject_Z 100) with 100. lra. }
  assert (Level : riskLevel report = "Low" \/ riskLevel report = "Medium"
                  \/ riskLevel report = "High").
  { rewrite El. unfold generateRiskLevel.
    destruct (ge combined 80); [left; reflexivity |].
    destruct (ge combined 50); [right; left; reflexivity |].
    assert (G : ge combined 20 = true) by (apply ge_true_iff; lra).
    rewrite G. right. right. reflexivity. }
  split.
  { destruct Level as [-> | [-> | ->]]; discriminate. }
  split; [exact Level |]. split.
  { rewrite Sim. reflexivity. }
  exists safetyAnalysis. split; [exact Ea |].
  rewrite Ew. unfold scanWarnings.
  change (gt (scamScore (checkScamSimilarity address)) 30) with false.
  apply app_nil_r.
Qed.

(** X3 on the scan of the scenario. *)
Lemma scan_never_extreme_witness :
  exists report,
    handler scenarioScan (Some "mint") = Ok report
    /\ (30 <= reportSafetyScore report <= 100)%Z
    /\ riskLevel report <> "Extreme".
Proof.
  destruct (handler scenarioScan (Some "mint")) as [report | m] eqn:E.
  - exists report. split; [reflexivity |].
    pose proof (scan_never_extreme scenarioScan "mint" report E) as H.
    split; [exact (proj1 H) | exact (proj1 (proj2 H))].
  - vm_compute in E. discriminate E.
Defined.

(** X4. When the on-chain lookup fails while the database knows the
    token, the scan passes one row to the database: contract score 50, risk
    score 0, holder distribution score 0, liquidity score 20 and overall
    score 30. When the database refuses that row the scan throws what the
    database threw, after the words of its [catch]; when it accepts the row
    the scan reports the safety score 30 with the risk level High and the
    single warning of the failed analysis. *)
Theorem scan_of_failed_lookup (env : RunRugpullScan.Env) (address : string)
  (tokenInfo : Database.TokenInfo) :
  address <> EmptyString ->
  queryOne env address = Ok (Some tokenInfo) ->
  lookupFails (chain env) address ->
  (forall message,
      execute env (rowOfFailedLookup address) = Throw message ->
      handler env (Some address)
      = Throw ("Failed to run rugpull scan: " ++ message))
  /\ (execute env (rowOfFailedLookup address) = Ok tt ->
      exists report,
        handler env (Some address) = Ok report
        /\ reportSafetyScore report = 30%Z
        /\ riskLevel report = "High"
        /\ reportWarnings report = ["Unable to analyze token safety"]
        /\ hd EmptyString (recommendations report) = openingFor "High").
Proof.
  intros NonEmpty Found Fails.
  destruct (lookupFails_throws _ _ Fails) as [thrown Thrown].
  pose proof (analyzeTokenSafety_caught _ _ _ Thrown) as Caught.
  unfold handler. destruct address as [| c rest]; [contradiction |].
  rewrite Found. cbn [bind try_catch]. rewrite Caught. cbn [bind try_catch].
  split.
  - intros message Refused.
    match goal with
    | |- context [execute env ?row] =>
        change row with (rowOfFailedLookup (String c rest))
    end.
    rewrite Refused. reflexivity.
  - intros Stored.
    match goal with
    | |- context [execute env ?row] =>
        change row with (rowOfFailedLookup (String c rest))
    end.
    rewrite Stored. cbn [bind try_catch].
    eexists. split; [reflexivity |].
    repeat split; vm_compute; reflexivity.
Qed.

Lemma scan_of_failed_lookup_witness :
  exists report,
    handler blindScan (Some "mint") = Ok report
    /\ reportSafetyScore report = 30%Z
    /\ riskLevel report = "High"
    /\ reportWarnings report = ["Unable to analyze token safety"]
    /\ hd EmptyString (recommendations report) = openingFor "High".
Proof.
  apply (proj2 (scan_of_failed_lookup blindScan "mint" scenarioToken
                  ltac:(discriminate) eq_refl I)).
  reflexivity.
Defined.

(** X5. The recommendations open with the text of the risk level of the
    score and close with the reminder; there are between two and seven of
    them. *)
Theorem generateRecommendations_shape (safetyScore : Q)
  (safetyAnalysis : SafetyAnalysis) (scamSimilarity : ScamSimilarity) :
  hd EmptyString
     (generateRecommendations safetyScore safetyAnalysis scamSimilarity)
  = openingFor (generateRiskLevel safetyScore)
  /\ last (generateRecommendations safetyScore safetyAnalysis scamSimilarity)
          EmptyString
     = reminder
  /\ (2 <= List.length
             (generateRecommendations safetyScore safetyAnalysis scamSimilarity)
       <= 7)%nat.
Proof.
  unfold generateRecommendations, generateRiskLevel.
  assert (Tier :
           (lt safetyScore 20 = true /\ ge safetyScore 80 = false
            /\ ge safetyScore 50 = false /\ ge safetyScore 20 = false)
           \/ (lt safetyScore 20 = false /\ lt safetyScore 50 = true
               /\ ge safetyScore 80 = false /\ ge safetyScore 50 = false
               /\ ge safetyScore 20 = true)
           \/ (lt safetyScore 20 = false /\ lt safetyScore 50 = false
               /\ lt safetyScore 80 = true
               /\ ge safetyScore 80 = false /\ ge safetyScore 50 = true)
           \/ (lt safetyScore 20 = false /\ lt safetyScore 50 = false
               /\ lt safetyScore 80 = false /\ ge safetyScore 80 = true)).
  { unfold lt, ge.
    destruct (Qle_bool 80 safetyScore) eqn:E80;
      destruct (Qle_bool 50 safetyScore) eqn:E50;
      destruct (Qle_bool 20 safetyScore) eqn:E20; cbn [negb];
      try (left; repeat split; reflexivity);
      try (right; left; repeat split; reflexivity);
      try (right; right; left; repeat split; reflexivity);
      try (right; right; right; repeat split; reflexivity);
      exfalso;
      repeat match goal with
        | H : Qle_bool _ _ = true |- _ => apply Qle_bool_iff in H
        | H : Qle_bool ?a ?b = false |- _ =>
            assert (b < a)
              by (apply Qnot_le_lt; intros C; apply Qle_bool_iff in C;
                  congruence);
            clear H
        end; lra. }
  destruct Tier as [T | [T | [T | T]]];
    repeat match goal with H : _ /\ _ |- _ => destruct H end;
    repeat match goal with H : _ = _ |- _ => rewrite H; clear H end;
    destruct (mintAuthorityExists (details safetyAnalysis)),
      (gt (topHolderPercentage (details safetyAnalysis)) 50),
      (negb (hasLiquidity (details safetyAnalysis))),
      (gt (scamScore scamSimilarity) 50),
      (holderCount (details safetyAnalysis) <? 50)%Z;
    (split; [reflexivity | split; [reflexivity | cbn [List.length app]; lia]]).
Qed.

End RugpullScan.

(** ** Social signals *)

Section SocialSignals.

Import TokenUtils SocialUtils GetHypeScore Notions Examples.

Lemma countWords_from (textLower : string) (words : list string) (start : Z) :
  (start
   <= fold_left (fun counter word =>
                   if includes textLower word then counter + 1 else counter)
                words start)%Z.
Proof.
  revert start. induction words as [| word words IH]; intros start;
    cbn [fold_left]; [lia |].
  destruct (includes textLower word).
  - specialize (IH (start + 1)%Z). lia.
  - apply IH.
Qed.

Lemma countWords_nonneg (textLower : string) (words : list string) :
  (0 <= countWords textLower words)%Z.
Proof. apply countWords_from. Qed.

(** A text without any of the words counts none of them. *)
Lemma countWords_none (textLower : string) (words : list string) :
  (forall word, In word words -> includes textLower word = false) ->
  countWords textLower words = 0%Z.
Proof.
  unfold countWords. generalize 0%Z.
  induction words as [| word words IH]; intros start None; cbn [fold_left];
    [reflexivity |].
  rewrite (None word (or_introl eq_refl)).
  apply IH. intros w Hw. apply None. right. exact Hw.
Qed.

(** X6. The sentiment of a text lies between -1 and 1; it is 0 for a text
    that contains none of the listed words, and it is positive exactly when
    the text contains more positive than negative words. *)
Theorem calculateSentiment_range (text : string) :
  -1 <= calculateSentiment text <= 1
  /\ ((forall word,
          In word (positiveWords ++ negativeWords)%list ->
          includes (toLowerCase text) word = false) ->
      calculateSentiment text = 0)
  /\ (0 < calculateSentiment text
      <-> (countWords (toLowerCase text) negativeWords
           < countWords (toLowerCase text) positiveWords)%Z).
Proof.
  unfold calculateSentiment. cbv zeta.
  pose proof (countWords_nonneg (toLowerCase text) positiveWords) as Hp.
  pose proof (countWords_nonneg (toLowerCase text) negativeWords) as Hn.
  set (p := countWords (toLowerCase text) positiveWords) in *.
  set (n := countWords (toLowerCase text) negativeWords) in *.
  split; [| split].
  - destruct ((p =? 0)%Z && (n =? 0)%Z) eqn:Zero; [lra |].
    assert (Pos : (0 < p + n)%Z).
    { apply andb_false_iff in Zero.
      destruct Zero as [Z | Z]; apply Z.eqb_neq in Z; lia. }
    unfold Number.
    assert (Qp : 0 < inject_Z (p + n))
      by (change 0 with (inject_Z 0); rewrite <- Zlt_Qlt; exact Pos).
    split.
    + apply Qle_shift_div_l; [exact Qp |].
      change (-1) with (inject_Z (-1)). rewrite <- inject_Z_mult, <- Zle_Qle.
      lia.
    + apply Qle_shift_div_r; [exact Qp |].
      rewrite Qmult_1_l, <- Zle_Qle. lia.
  - intros None.
    assert (Ep : p = 0%Z).
    { apply countWords_none. intros word Hw. apply None, in_or_app.
      left. exact Hw. }
    assert (En : n = 0%Z).
    { apply countWords_none. intros word Hw. apply None, in_or_app.
      right. exact Hw. }
    rewrite Ep, En. reflexivity.
  - destruct ((p =? 0)%Z && (n =? 0)%Z) eqn:Zero.
    + apply andb_true_iff in Zero. destruct Zero as [Zp Zn].
      apply Z.eqb_eq in Zp, Zn. split; [lra | lia].
    + assert (Pos : (0 < p + n)%Z).
      { apply andb_false_iff in Zero.
        destruct Zero as [Z | Z]; apply Z.eqb_neq in Z; lia. }
      unfold Number.
      assert (Qp : 0 < inject_Z (p + n))
        by (change 0 with (inject_Z 0); rewrite <- Zlt_Qlt; exact Pos).
      split.
      * intros H. destruct (Z_lt_le_dec n p) as [L | G]; [exact L |].
        exfalso.
        assert (inject_Z (p - n) / inject_Z (p + n) <= 0).
        { apply Qle_shift_div_r; [exact Qp |].
          rewrite Qmult_0_l. change 0 with (inject_Z 0).
          rewrite <- Zle_Qle. lia. }
        lra.
      * intros L. apply Qlt_shift_div_l; [exact Qp |].
        rewrite Qmult_0_l. change 0 with (inject_Z 0).
        rewrite <- Zlt_Qlt. lia.
Qed.

Lemma calculateSentiment_bounds (text : string) :
  -1 <= calculateSentiment text <= 1.
Proof.
  unfold calculateSentiment. cbv zeta.
  pose proof (countWords_nonneg (toLowerCase text) positiveWords) as Hp.
  pose proof (countWords_nonneg (toLowerCase text) negativeWords) as Hn.
  set (p := countWords (toLowerCase text) positiveWords) in *.
  set (n := countWords (toLowerCase text) negativeWords) in *.
  destruct ((p =? 0)%Z && (n =? 0)%Z) eqn:Zero; [lra |].
  assert (Pos : (0 < p + n)%Z).
  { apply andb_false_iff in Zero.
    destruct Zero as [Z | Z]; apply Z.eqb_neq in Z; lia. }
  unfold Number.
  assert (Qp : 0 < inject_Z (p + n))
    by (change 0 with (inject_Z 0); rewrite <- Zlt_Qlt; exact Pos).
  split.
  - apply Qle_shift_div_l; [exact Qp |].
    change (-1) with (inject_Z (-1)). rewrite <- inject_Z_mult, <- Zle_Qle.
    lia.
  - apply Qle_shift_div_r; [exact Qp |].
    rewrite Qmult_1_l, <- Zle_Qle. lia.
Qed.

(** A sum of numbers between -1 and 1 is between minus and plus their
    number. *)
Lemma sum_of_from {A : Type} (f : A -> Q) (l : list A) (start : Q) :
  (forall x, In x l -> -1 <= f x <= 1) ->
  start - Number (Z.of_nat (List.length l))
  <= fold_left (fun acc x => acc + f x) l start
  <= start + Number (Z.of_nat (List.length l)).
Proof.
  revert start. induction l as [| x l IH]; intros start Hf.
  - cbn [fold_left List.length]. change (Number (Z.of_nat 0)) with 0. lra.
  - cbn [fold_left].
    specialize (IH (start + f x) (fun y Hy => Hf y (or_intror Hy))).
    pose proof (Hf x (or_introl eq_refl)) as Hx.
    change (List.length (x :: l)) with (1 + List.length l)%nat.
    rewrite Number_nat_add. change (Number (Z.of_nat 1)) with 1.
    set (n := Number (Z.of_nat (List.length l))) in *.
    set (rest := fold_left (fun acc y => acc + f y) l (start + f x)) in *.
    lra.
Qed.

(** The mean of numbers between -1 and 1 is between -1 and 1. *)
Lemma mean_bounds {A : Type} (f : A -> Q) (l : list A) :
  (forall x, In x l -> -1 <= f x <= 1) ->
  l <> [] ->
  -1 <= sum_of f l / Number (Z.of_nat (List.length l)) <= 1.
Proof.
  intros Hf NonEmpty. pose proof (sum_of_from f l 0 Hf) as H.
  fold (sum_of f l) in H.
  assert (Pos : 0 < Number (Z.of_nat (List.length l))).
  { unfold Number. change 0 with (inject_Z 0). rewrite <- Zlt_Qlt.
    destruct l; [contradiction | cbn [List.length]; lia]. }
  set (n := Number (Z.of_nat (List.length l))) in *.
  split.
  - apply Qle_shift_div_l; [exact Pos | lra].
  - apply Qle_shift_div_r; [exact Pos | lra].
Qed.

Lemma engagement_from (tweets : list Tweet) (start : Z) :
  Forall (fun tweet => (0 <= tweetEngagement tweet)%Z) tweets ->
  (start
   <= fold_left (fun acc tweet => acc + tweetEngagement tweet) tweets start)%Z.
Proof.
  intros H. revert start.
  induction H as [| tweet tweets Ht _ IH]; intros start; cbn [fold_left];
    [lia |].
  specialize (IH (start + tweetEngagement tweet)%Z). lia.
Qed.

(** X7. Whatever the client answers, [searchTwitterMentions] returns a
    sentiment between -1 and 1, a count that is not negative and at most ten
    sources; a count of 0 comes with the sentiment 0 and the engagement 0;
    and when no found tweet has a negative engagement, the total engagement
    is not negative. *)
Theorem searchTwitterMentions_plausible
  (twitterClient : option (string -> result (option (list Tweet))))
  (tokenSymbol tokenName : string) :
  -1 <= sentiment (SocialUtils.searchTwitterMentions twitterClient tokenSymbol tokenName)
  <= 1
  /\ (0 <= count (SocialUtils.searchTwitterMentions twitterClient tokenSymbol tokenName))%Z
  /\ (List.length
        (sources (SocialUtils.searchTwitterMentions twitterClient tokenSymbol tokenName))
      <= 10)%nat
  /\ (count (SocialUtils.searchTwitterMentions twitterClient tokenSymbol tokenName) = 0%Z ->
      SocialUtils.searchTwitterMentions twitterClient tokenSymbol tokenName = noTwitterData)
  /\ ((forall search query tweets,
          twitterClient = Some search ->
          search query = Ok (Some tweets) ->
          Forall (fun tweet => (0 <= tweetEngagement tweet)%Z) tweets) ->
      (0 <= engagement
              (SocialUtils.searchTwitterMentions twitterClient tokenSymbol tokenName))%Z).
Proof.
  unfold SocialUtils.searchTwitterMentions.
  destruct twitterClient as [search |];
    [| repeat split; cbn; try lra; try lia; reflexivity].
  cbv zeta.
  destruct (search (tokenSymbol ++ " OR " ++ tokenName ++ " crypto"))
    as [[[| first others] |] | m] eqn:Found;
    try (repeat split; cbn; try lra; try lia; reflexivity).
  set (tweets := first :: others) in *.
  cbn [sentiment count sources engagement].
  split; [| split; [| split; [| split]]].
  - change (0 <? List.length tweets)%nat with true. cbv iota.
    apply mean_bounds; [| discriminate].
    intros tweet _. apply calculateSentiment_bounds.
  - lia.
  - apply firstn_le_length.
  - intros Zero. unfold tweets in Zero. cbn [List.length] in Zero. lia.
  - intros NonNegative.
    apply (engagement_from tweets 0).
    exact (NonNegative search _ tweets eq_refl Found).
Qed.

Lemma searchTwitterMentions_plausible_witness :
  (0 <= engagement (SocialUtils.searchTwitterMentions threeTweets "DOGE" "Doge Coin"))%Z.
Proof.
  apply (proj2 (proj2 (proj2 (proj2 (searchTwitterMentions_plausible
                                       threeTweets "DOGE" "Doge Coin"))))).
  intros search query tweets E Found. injection E as <-.
  injection Found as <-. repeat constructor; vm_compute; discriminate.
Defined.

Lemma Math_floor_digit (random : Q) :
  0 <= random -> random < 1 -> (0 <= Math_floor (random * 10) <= 9)%Z.
Proof.
  intros H0 H1. unfold Math_floor.
  pose proof (Qfloor_le (random * 10)) as L.
  pose proof (Qlt_floor (random * 10)) as U.
  split.
  - change 0%Z with (Qfloor 0). apply Qfloor_resp_le. lra.
  - assert (H : inject_Z (Qfloor (random * 10)) < inject_Z 10)
      by (change (inject_Z 10) with 10; lra).
    rewrite <- Zlt_Qlt in H. lia.
Qed.

(** X8. For two random draws in [0,1), [crawlForTokenMentions] reports,
    for Reddit, the number of posts found (none when the search fails), a
    sentiment between -1 and 1 and the titles of the first five posts; for
    Telegram, a count between 0 and 9, a sentiment in [-1,1) and as many
    channels as the count, up to the five known ones. *)
Theorem crawlForTokenMentions_plausible
  (redditSearch : result (list RedditPost)) (random1 random2 : Q) :
  0 <= random1 -> random1 < 1 -> 0 <= random2 -> random2 < 1 ->
  (0 <= platformCount (reddit (SocialUtils.crawlForTokenMentions redditSearch random1 random2)))%Z
  /\ -1 <= platformSentiment
             (reddit (SocialUtils.crawlForTokenMentions redditSearch random1 random2)) <= 1
  /\ (List.length
        (posts (reddit (SocialUtils.crawlForTokenMentions redditSearch random1 random2)))
      <= 5)%nat
  /\ ((exists message, redditSearch = Throw message) ->
      platformCount (reddit (SocialUtils.crawlForTokenMentions redditSearch random1 random2))
      = 0%Z)
  /\ (forall found,
         redditSearch = Ok found ->
         platformCount
           (reddit (SocialUtils.crawlForTokenMentions redditSearch random1 random2))
         = Z.of_nat (List.length found)
         /\ posts (reddit (SocialUtils.crawlForTokenMentions redditSearch random1 random2))
            = firstn 5 (map title found))
  /\ (0 <= platformCount
             (telegram (SocialUtils.crawlForTokenMentions redditSearch random1 random2))
       <= 9)%Z
  /\ (-1 <= platformSentiment
              (telegram (SocialUtils.crawlForTokenMentions redditSearch random1 random2))
      /\ platformSentiment
           (telegram (SocialUtils.crawlForTokenMentions redditSearch random1 random2)) < 1)
  /\ List.length
       (posts (telegram (SocialUtils.crawlForTokenMentions redditSearch random1 random2)))
     = Nat.min
         (Z.to_nat
            (platformCount
               (telegram (SocialUtils.crawlForTokenMentions redditSearch random1 random2))))
         5.
Proof.
  intros H1 H1' H2 H2'.
  unfold SocialUtils.crawlForTokenMentions, crawlTelegramMentions. cbv zeta.
  cbn [reddit telegram platformCount platformSentiment posts].
  split; [lia |]. split.
  { destruct redditSearch as [[| post others] | m];
      [change (-1 <= 0 <= 1); lra | | change (-1 <= 0 <= 1); lra].
    change (0 <? List.length (post :: others))%nat with true. cbv iota.
    apply mean_bounds; [| discriminate].
    intros p _. apply calculateSentiment_bounds. }
  split; [apply firstn_le_length |]. split.
  { intros [message ->]. reflexivity. }
  split.
  { intros found ->. split; reflexivity. }
  split; [apply Math_floor_digit; assumption |]. split; [split; lra |].
  unfold slice0. rewrite length_firstn. reflexivity.
Qed.

Lemma crawlForTokenMentions_plausible_witness :
  (0 <= platformCount (telegram (SocialUtils.crawlForTokenMentions twoPosts 0.75 0.25)) <= 9)%Z.
Proof.
  assert (A : 0 <= 0.75) by (vm_compute; discriminate).
  assert (B : 0.75 < 1) by reflexivity.
  assert (C : 0 <= 0.25) by (vm_compute; discriminate).
  assert (D : 0.25 < 1) by reflexivity.
  exact (proj1 (proj2 (proj2 (proj2 (proj2 (proj2
           (crawlForTokenMentions_plausible twoPosts 0.75 0.25 A B C D))))))).
Defined.

Lemma searchTwitterMentions_bounds
  (twitterClient : option (string -> result (option (list Tweet))))
  (tokenSymbol tokenName : string) :
  -1 <= sentiment (SocialUtils.searchTwitterMentions twitterClient tokenSymbol tokenName)
  <= 1.
Proof.
  unfold SocialUtils.searchTwitterMentions.
  destruct twitterClient as [search |]; [| cbn; lra].
  cbv zeta.
  destruct (search (tokenSymbol ++ " OR " ++ tokenName ++ " crypto"))
    as [[[| first others] |] | m]; try (cbn; lra).
  cbn [sentiment]. change (0 <? List.length (first :: others))%nat with true.
  cbv iota. apply mean_bounds; [| discriminate].
  intros tweet _. apply calculateSentiment_bounds.
Qed.

Lemma crawlForTokenMentions_bounds
  (redditSearch : result (list RedditPost)) (random1 random2 : Q) :
  0 <= random2 -> random2 < 1 ->
  -1 <= platformSentiment
          (reddit (SocialUtils.crawlForTokenMentions redditSearch random1 random2)) <= 1
  /\ -1 <= platformSentiment
             (telegram (SocialUtils.crawlForTokenMentions redditSearch random1 random2))
     <= 1.
Proof.
  intros H2 H2'.
  unfold SocialUtils.crawlForTokenMentions, crawlTelegramMentions. cbv zeta.
  cbn [reddit telegram platformSentiment]. split; [| lra].
  destruct redditSearch as [[| post others] | m];
    [change (-1 <= 0 <= 1); lra | | change (-1 <= 0 <= 1); lra].
  change (0 <? List.length (post :: others))%nat with true. cbv iota.
  apply mean_bounds; [| discriminate].
  intros p _. apply calculateSentiment_bounds.
Qed.

Variable log10 : Q -> Q.

Lemma calculateHypeScore_bounds (ageInDays : Q) (twitterData : TwitterData)
  (platformMentions : PlatformMentions) (liquidityData : MarketData) :
  -1 <= sentiment twitterData <= 1 ->
  -1 <= platformSentiment (reddit platformMentions) <= 1 ->
  -1 <= platformSentiment (telegram platformMentions) <= 1 ->
  (0 <= calculateHypeScore log10 ageInDays twitterData platformMentions
                           liquidityData <= 100)%Z.
Proof.
  intros Ht Hr Hg. unfold calculateHypeScore. split; [| apply Z.le_min_l].
  apply Z.min_glb; [lia |]. apply Math_round_nonneg.
  pose proof (ageFactor_range ageInDays).
  pose proof (volumeFactor_range log10 liquidityData).
  pose proof (priceChangeFactor_range liquidityData).
  pose proof (socialEngagementFactor_range
                log10 (socialEngagement twitterData platformMentions)).
  pose proof (averageSentiment_range twitterData platformMentions Ht Hr Hg).
  apply Qmult_nonneg_5; unfold sentimentFactor; lra.
Qed.

(** X10. With sentiments between -1 and 1, an older token never has a
    higher hype score than a younger one with the same signals and market
    data. *)
Theorem hypeScore_decreases_with_age (age1 age2 : Q) (twitterData : TwitterData)
  (platformMentions : PlatformMentions) (liquidityData : MarketData) :
  -1 <= sentiment twitterData <= 1 ->
  -1 <= platformSentiment (reddit platformMentions) <= 1 ->
  -1 <= platformSentiment (telegram platformMentions) <= 1 ->
  age1 <= age2 ->
  (calculateHypeScore log10 age2 twitterData platformMentions liquidityData
   <= calculateHypeScore log10 age1 twitterData platformMentions liquidityData)%Z.
Proof.
  intros Ht Hr Hg Age. unfold calculateHypeScore.
  apply Z.min_le_compat_l, Math_round_monotone.
  pose proof (volumeFactor_range log10 liquidityData).
  pose proof (priceChangeFactor_range liquidityData).
  pose proof (socialEngagementFactor_range
                log10 (socialEngagement twitterData platformMentions)).
  pose proof (averageSentiment_range twitterData platformMentions Ht Hr Hg).
  repeat (apply Qmult_le_compat_r; [| unfold sentimentFactor; lra]).
  assert (ageFactor age2 <= ageFactor age1) by (unfold ageFactor; minmax).
  lra.
Qed.

(** X11. The age factor is 1.5 up to 15 days, 1 at 30 days and 0.5 from 45
    days on, and it never increases with the age. *)
Theorem ageFactor_profile :
  (forall ageInDays, ageInDays <= 15 -> ageFactor ageInDays == 1.5)
  /\ ageFactor 30 == 1
  /\ (forall ageInDays, 45 <= ageInDays -> ageFactor ageInDays == 0.5)
  /\ (forall age1 age2, age1 <= age2 -> ageFactor age2 <= ageFactor age1)
  /\ (forall ageInDays,
         15 <= ageInDays <= 45 -> ageFactor ageInDays == 2 - ageInDays / 30).
Proof.
  repeat split; try (vm_compute; reflexivity).
  - intros ageInDays H. unfold ageFactor.
    apply Qle_antisym; minmax.
  - intros ageInDays H. unfold ageFactor.
    apply Qle_antisym; minmax.
  - intros age1 age2 H. unfold ageFactor. minmax.
  - intros ageInDays H. unfold ageFactor.
    apply Qle_antisym; minmax.
Qed.

End SocialSignals.

Section SocialSignalsExamples.

Import TokenUtils SocialUtils GetHypeScore Notions Examples.

Lemma hypeScore_decreases_with_age_witness :
  (calculateHypeScore floor_log10 40 silentTwitter silentPlatforms noMarketData
   <= calculateHypeScore floor_log10 3 silentTwitter silentPlatforms
                         noMarketData)%Z.
Proof.
  apply (hypeScore_decreases_with_age
           floor_log10 3 40 silentTwitter silentPlatforms noMarketData).
  - split; vm_compute; discriminate.
  - split; vm_compute; discriminate.
  - split; vm_compute; discriminate.
  - vm_compute. discriminate.
Defined.

End SocialSignalsExamples.

(** ** The hype score of a token *)

Section HypeHandler.

Import TokenUtils SocialUtils GetHypeScore Notions Examples.

Variable log10 : Q -> Q.
Hypothesis log10_spec : Log10Spec log10.

(** A hype score that is a number is between 0 and 100. *)
Lemma hypeScoreOf_range (ageInDays : option Q) (twitterData : TwitterData)
  (platformMentions : PlatformMentions) (liquidityData : MarketData)
  (score : Z) :
  -1 <= sentiment twitterData <= 1 ->
  -1 <= platformSentiment (reddit platformMentions) <= 1 ->
  -1 <= platformSentiment (telegram platformMentions) <= 1 ->
  hypeScoreOf log10 ageInDays twitterData platformMentions liquidityData
  = Some score ->
  (0 <= score <= 100)%Z.
Proof.
  intros Ht Hr Hg. unfold hypeScoreOf.
  destruct ageInDays as [age |]; [| discriminate].
  destruct (lt (volume24h liquidityData + 1) 0
            || lt (Number (socialEngagement twitterData platformMentions) + 1)
                  0); [discriminate |].
  intros E. injection E as <-.
  apply calculateHypeScore_bounds; assumption.
Qed.

(** The hype score is a number when the age is one and neither logarithm
    is taken of a negative number. *)
Lemma hypeScoreOf_number (age : Q) (twitterData : TwitterData)
  (platformMentions : PlatformMentions) (liquidityData : MarketData) :
  0 <= volume24h liquidityData ->
  (0 <= socialEngagement twitterData platformMentions)%Z ->
  hypeScoreOf log10 (Some age) twitterData platformMentions liquidityData
  = Some (calculateHypeScore log10 age twitterData platformMentions
                             liquidityData).
Proof.
  intros Hv He. unfold hypeScoreOf.
  assert (V : lt (volume24h liquidityData + 1) 0 = false)
    by (apply lt_false_iff; lra).
  assert (S : lt (Number (socialEngagement twitterData platformMentions) + 1)
                 0 = false).
  { apply lt_false_iff.
    pose proof (Number_monotone 0 _ He) as H. change (Number 0) with 0 in H.
    lra. }
  rewrite V, S. reflexivity.
Qed.

Lemma collected_engagement
  (twitterClient : option (string -> result (option (list Tweet))))
  (redditSearch : result (list RedditPost)) (random1 random2 : Q)
  (tokenSymbol tokenName : string) :
  0 <= random1 -> random1 < 1 ->
  countsNotNegative twitterClient ->
  (0 <= socialEngagement
          (SocialUtils.searchTwitterMentions twitterClient tokenSymbol tokenName)
          (SocialUtils.crawlForTokenMentions redditSearch random1 random2))%Z.
Proof.
  intros H1 H1' Counts.
  assert (Twitter :
           (0 <= engagement
                   (SocialUtils.searchTwitterMentions twitterClient tokenSymbol
                                                      tokenName))%Z).
  { unfold SocialUtils.searchTwitterMentions.
    destruct twitterClient as [search |]; [| cbn; lia]. cbv zeta.
    destruct (search (tokenSymbol ++ " OR " ++ tokenName ++ " crypto"))
      as [[[| first others] |] | m] eqn:Found; try (cbn; lia).
    cbn [engagement]. apply (engagement_from (first :: others) 0).
    exact (Counts search _ _ eq_refl Found). }
  pose proof (Math_floor_digit random1 H1 H1') as Telegram.
  unfold socialEngagement, SocialUtils.crawlForTokenMentions,
    crawlTelegramMentions.
  cbv zeta. cbn [reddit telegram platformCount]. lia.
Qed.



(** The report of the handler for a token that the database knows, when
    the signals can be stored. *)
Lemma hype_handler_report (env : Env) (address : string)
  (tokenInfo : Database.TokenInfo) :
  address <> EmptyString ->
  queryOne env address = Ok (Some tokenInfo) ->
  (forall twitterData, execute env address twitterData = Ok tt) ->
  exists report,
    handler log10 env (Some address) = Ok report
    /\ hypeScore report
       = hypeScoreOf
           log10
           (ageInDays (now env) (Database.created_at tokenInfo))
           (SocialUtils.searchTwitterMentions
              (twitterClient env)
              (Database.symbol tokenInfo) (Database.name tokenInfo))
           (SocialUtils.crawlForTokenMentions
              (redditSearch env (Database.symbol tokenInfo)
                            (Database.name tokenInfo))
              (random1 env) (random2 env))
           (getTokenLiquidity (priceData env) address).
Proof.
  intros NonEmpty Found Stored. unfold handler.
  destruct address as [| c rest]; [contradiction |].
  rewrite Found. cbn [bind try_catch]. rewrite Stored. cbn [bind try_catch].
  eexists. split; reflexivity.
Qed.

(** X9. For a token that the database knows, with random draws in [0,1)
    and a database that stores the signals, the handler returns a report.
    Its hype score is NaN when the row has no [created_at], as every row of
    the table [tokens] that [createTables] creates. A hype score that is a
    number is an integer between 0 and 100, and the hype score is a number
    for a row with a valid [created_at], a volume that is not negative and
    tweets without negative counts. *)
Theorem hypeScore_of_collected_signals (env : Env) (address : string)
  (tokenInfo : Database.TokenInfo) :
  address <> EmptyString ->
  queryOne env address = Ok (Some tokenInfo) ->
  (forall twitterData, execute env address twitterData = Ok tt) ->
  0 <= random1 env -> random1 env < 1 ->
  0 <= random2 env -> random2 env < 1 ->
  exists report,
    handler log10 env (Some address) = Ok report
    /\ (Database.created_at tokenInfo = None -> hypeScore report = None)
    /\ (forall score,
          hypeScore report = Some score -> (0 <= score <= 100)%Z)
    /\ (Database.created_at tokenInfo <> None ->
        countsNotNegative (twitterClient env) ->
        0 <= volume24h (getTokenLiquidity (priceData env) address) ->
        hypeScore report <> None).
Proof.
  intros NonEmpty Found Stored H1 H1' H2 H2'.
  destruct (hype_handler_report env address tokenInfo NonEmpty Found Stored)
    as (report & E & Computed).
  exists report. split; [exact E |]. rewrite Computed. split; [| split].
  - intros ->. reflexivity.
  - intros score Score.
    pose proof (searchTwitterMentions_bounds
                  (twitterClient env) (Database.symbol tokenInfo)
                  (Database.name tokenInfo)) as Ht.
    pose proof (crawlForTokenMentions_bounds
                  (redditSearch env (Database.symbol tokenInfo)
                                (Database.name tokenInfo))
                  (random1 env) (random2 env) H2 H2') as [Hr Hg].
    exact (hypeScoreOf_range _ _ _ _ _ Ht Hr Hg Score).
  - intros Valid Counts Hv.
    destruct (Database.created_at tokenInfo) as [createdAt |];
      [| contradiction].
    unfold ageInDays. rewrite hypeScoreOf_number; [discriminate | exact Hv |].
    apply collected_engagement; assumption.
Qed.

End HypeHandler.

Section HypeHandlerExamples.

Import TokenUtils SocialUtils GetHypeScore Notions Examples.



(** X9 on [hypeWatch]: the row has no [created_at]. *)
Lemma hypeScore_of_collected_signals_witness :
  exists report,
    handler floor_log10 hypeWatch (Some "mint") = Ok report
    /\ hypeScore report = None.
Proof.
  destruct (hypeScore_of_collected_signals floor_log10 hypeWatch "mint"
              scenarioToken)
    as (report & E & NaN & _).
  - discriminate.
  - reflexivity.
  - intros twitterData. reflexivity.
  - vm_compute. discriminate.
  - reflexivity.
  - vm_compute. discriminate.
  - reflexivity.
  - exists report. split; [exact E | apply NaN; reflexivity].
Defined.

End HypeHandlerExamples.

(** ** Memecoin detection *)

Section Memetoken.

Import TokenUtils Notions Examples.

Lemma lower_then_upper_differs (c : ascii) :
  is_upper c || is_lower c = true ->
  Ascii.eqb (lower_char c) (upper_char (lower_char c)) = false.
Proof.
  destruct c as [[] [] [] [] [] [] [] []]; vm_compute;
    intros H; first [reflexivity | discriminate H].
Qed.

(** Once in lower case, a string with a letter differs from its upper case. *)
Lemma lowercase_is_not_uppercase (s : string) :
  hasLetter s = true ->
  String.eqb (toLowerCase s) (toUpperCase (toLowerCase s)) = false.
Proof.
  induction s as [| c s IH]; cbn [hasLetter toLowerCase toUpperCase String.eqb];
    [discriminate |].
  intros H. destruct (is_upper c || is_lower c) eqn:Letter.
  - rewrite (lower_then_upper_differs c Letter). reflexivity.
  - cbn [orb] in H. rewrite (IH H).
    destruct (Ascii.eqb _ _); reflexivity.
Qed.

Lemma existsb_false {A : Type} (f : A -> bool) (l : list A) :
  (forall x, In x l -> f x = false) -> existsb f l = false.
Proof.
  induction l as [| x l IH]; intros H; cbn [existsb]; [reflexivity |].
  rewrite (H x (or_introl eq_refl)). apply IH.
  intros y Hy. apply H. right. exact Hy.
Qed.

(** X12. A token with a meme term in its name or symbol is a memecoin,
    whatever its supply. The symbol pattern compares the symbol in lower
    case with its upper case, so it never holds for a symbol with a letter:
    such a token without a meme term and without "token" in its name is no
    memecoin, however large its supply. *)
Theorem isMemetoken_symbol_with_letter :
  (forall tokenInfo term,
      In term memeTerms ->
      includes (toLowerCase (or_empty (tokenName tokenInfo))) term = true
      \/ includes (toLowerCase (or_empty (tokenSymbol tokenInfo))) term = true ->
      isMemetoken tokenInfo = true)
  /\ (forall tokenInfo,
         hasLetter (or_empty (tokenSymbol tokenInfo)) = true ->
         (forall term,
             In term memeTerms ->
             includes (toLowerCase (or_empty (tokenName tokenInfo))) term = false
             /\ includes (toLowerCase (or_empty (tokenSymbol tokenInfo))) term
                = false) ->
         includes (toLowerCase (or_empty (tokenName tokenInfo))) "token" = false ->
         isMemetoken tokenInfo = false).
Proof.
  split.
  - intros tokenInfo term Hin Hterm. unfold isMemetoken. cbv zeta.
    apply orb_true_iff. left. apply orb_true_iff. left.
    apply existsb_exists. exists term. split; [exact Hin |].
    apply orb_true_iff. exact Hterm.
  - intros tokenInfo Letter NoTerm NoToken. unfold isMemetoken. cbv zeta.
    rewrite existsb_false.
    + rewrite (lowercase_is_not_uppercase _ Letter), NoToken. reflexivity.
    + intros term Hin. destruct (NoTerm term Hin) as [Hn Hs].
      rewrite Hn, Hs. reflexivity.
Qed.

Lemma isMemetoken_symbol_with_letter_witness :
  isMemetoken acme = false.
Proof.
  apply (proj2 isMemetoken_symbol_with_letter acme).
  - reflexivity.
  - intros term Hin. vm_compute in Hin.
    repeat (destruct Hin as [<- | Hin]; [split; reflexivity |]).
    destruct Hin.
  - reflexivity.
Defined.

End Memetoken.

(** ** Novelty *)

Section Novelty.

Import GetPortfolioStrategy.

Lemma age_in_days_monotone (d1 d2 : Z) :
  (d1 <= d2)%Z ->
  Number d1 / (1000 * 60 * 60 * 24) <= Number d2 / (1000 * 60 * 60 * 24).
Proof.
  intros H. unfold Qdiv. apply Qmult_le_compat_r.
  - unfold Number. rewrite <- Zle_Qle. exact H.
  - vm_compute. discriminate.
Qed.

(** The steps of the novelty factor as a function of the age in days. *)
Lemma novelty_steps_monotone (a b : Q) :
  a <= b ->
  (if lt b 1 then 1.0 else if lt b 7 then 0.8 else if lt b 30 then 0.6
   else if lt b 90 then 0.4 else 0.2)
  <= (if lt a 1 then 1.0 else if lt a 7 then 0.8 else if lt a 30 then 0.6
      else if lt a 90 then 0.4 else 0.2).
Proof.
  intros H.
  destruct (lt b 1) eqn:B1; destruct (lt b 7) eqn:B7;
    destruct (lt b 30) eqn:B30; destruct (lt b 90) eqn:B90;
    destruct (lt a 1) eqn:A1; destruct (lt a 7) eqn:A7;
    destruct (lt a 30) eqn:A30; destruct (lt a 90) eqn:A90;
    try lra;
    repeat match goal with
      | E : lt _ _ = true |- _ => apply lt_true_iff in E
      | E : lt _ _ = false |- _ => apply lt_false_iff in E
      end; lra.
Qed.

(** X13. The novelty factor is one of 1, 0.8, 0.6, 0.4 and 0.2; a token
    created later never has a lower novelty factor; and a token of exactly
    one, seven, thirty or ninety days is on the lower step: 0.8, 0.6, 0.4
    and 0.2. *)
Theorem calculateNoveltyFactor_steps :
  (forall now creationDate,
      calculateNoveltyFactor now creationDate = 1.0
      \/ calculateNoveltyFactor now creationDate = 0.8
      \/ calculateNoveltyFactor now creationDate = 0.6
      \/ calculateNoveltyFactor now creationDate = 0.4
      \/ calculateNoveltyFactor now creationDate = 0.2)
  /\ (forall now created1 created2,
         (created1 <= created2)%Z ->
         calculateNoveltyFactor now created1
         <= calculateNoveltyFactor now created2)
  /\ (forall now,
         calculateNoveltyFactor now (now - 1 * 86400000) = 0.8
         /\ calculateNoveltyFactor now (now - 7 * 86400000) = 0.6
         /\ calculateNoveltyFactor now (now - 30 * 86400000) = 0.4
         /\ calculateNoveltyFactor now (now - 90 * 86400000) = 0.2).
Proof.
  split; [| split].
  - intros now creationDate. unfold calculateNoveltyFactor. cbv zeta.
    repeat match goal with
           | |- context [if ?b then _ else _] => destruct b
           end; tauto.
  - intros now created1 created2 H. unfold calculateNoveltyFactor. cbv zeta.
    apply novelty_steps_monotone, age_in_days_monotone. lia.
  - intros now. unfold calculateNoveltyFactor. cbv zeta.
    replace (now - (now - 1 * 86400000))%Z with 86400000%Z by lia.
    replace (now - (now - 7 * 86400000))%Z with 604800000%Z by lia.
    replace (now - (now - 30 * 86400000))%Z with 2592000000%Z by lia.
    replace (now - (now - 90 * 86400000))%Z with 7776000000%Z by lia.
    repeat split; vm_compute; reflexivity.
Qed.

Lemma calculateNoveltyFactor_steps_witness :
  calculateNoveltyFactor 1700000000000 1600000000000
  <= calculateNoveltyFactor 1700000000000 1699999000000.
Proof.
  apply (proj1 (proj2 calculateNoveltyFactor_steps)). lia.
Defined.

End Novelty.

(** ** Buckets and recommendations *)

Section Buckets.

Import GetPortfolioStrategy Notions Examples.

Lemma in_firstn {A : Type} (n : nat) (l : list A) (x : A) :
  In x (firstn n l) -> In x l.
Proof.
  intros H. rewrite <- (firstn_skipn n l). apply in_or_app. left. exact H.
Qed.

Lemma in_slice0 {A : Type} (n : Z) (l : list A) (x : A) :
  In x (slice0 n l) -> In x l.
Proof. apply in_firstn. Qed.

Lemma in_sort {A : Type} (compare : A -> A -> Q) (l : list A) (x : A) :
  In x (sort compare l) -> In x l.
Proof. apply Permutation_in, sort_permutation. Qed.

Lemma in_notHeld (existingPortfolio : option (list Holding))
  (bucket : list ProcessedToken) (t : ProcessedToken) :
  In t (notHeld existingPortfolio bucket) ->
  In t bucket
  /\ ~ In (address t)
         (map heldAddress
              (match existingPortfolio with Some p => p | None => [] end)).
Proof.
  unfold notHeld. cbv zeta. intros H. apply filter_In in H.
  destruct H as [Hin Hf]. split; [exact Hin |].
  intros C. apply array_includes_iff in C. rewrite C in Hf. discriminate Hf.
Qed.

Lemma in_mapi_index {A B : Type} (f : A -> nat -> B) (l : list A) (y : B) :
  In y (mapi f l) ->
  exists x index, In x l /\ (index < List.length l)%nat /\ y = f x index.
Proof.
  unfold mapi. intros H. apply in_map_iff in H.
  destruct H as [[index x] [E H]]. exists x, index.
  split; [exact (in_combine_r _ _ _ _ H) |].
  split; [| symmetry; exact E].
  apply in_combine_l, in_seq in H. lia.
Qed.

(** The token and the position behind an allocation of a bucket. *)
Lemma allocate_positions (bucket : list ProcessedToken) (bucketAllocation : Q)
  (label reason : string) (allocation : Allocation) :
  In allocation (allocate bucket bucketAllocation label reason) ->
  In (token allocation) bucket
  /\ category allocation = label
  /\ exists index,
      (index < List.length bucket)%nat
      /\ amount allocation
         = Number
             (Math_round
                ((bucketAllocation
                  * (1 - (Number (Z.of_nat index)
                          / Number (Z.of_nat (List.length bucket))) * 0.5))
                 / Number (Z.of_nat (List.length bucket)) * 100))
           / 100.
Proof.
  unfold allocate. intros H. apply in_mapi_index in H.
  destruct H as (t & index & Hin & Hi & ->). cbn [token category amount].
  split; [exact Hin |]. split; [reflexivity |].
  exists index. split; [exact Hi | reflexivity].
Qed.

(** Where the token of an allocation comes from. *)
Lemma allocations_origin (processedTokens : list ProcessedToken)
  (riskTolerance : string) (investmentSize : Q)
  (existingPortfolio : option (list Holding)) (allocation : Allocation) :
  In allocation
     (allocations processedTokens riskTolerance investmentSize existingPortfolio) ->
  In (token allocation) processedTokens
  /\ ~ In (address (token allocation))
         (map heldAddress
              (match existingPortfolio with Some p => p | None => [] end))
  /\ safetyOf (allocationParameters riskTolerance) (category allocation)
              (safetyScore (token allocation)).
Proof.
  unfold allocations. cbv zeta. intros H.
  apply in_app_or in H. destruct H as [H | H];
    [| apply in_app_or in H; destruct H as [H | H]];
    apply allocate_positions in H; destruct H as (Hin & Hc & _);
    apply in_notHeld in Hin; destruct Hin as [Hin Hn].
  - unfold established in Hin. apply in_slice0, filter_In in Hin.
    destruct Hin as [Hin Hf]. apply ge_true_iff in Hf.
    split; [exact Hin |]. split; [exact Hn |].
    left. split; [exact Hc | exact Hf].
  - unfold newTokens in Hin. apply in_slice0, in_sort, filter_In in Hin.
    destruct Hin as [Hin Hf]. apply andb_true_iff in Hf.
    destruct Hf as [Hge Hlt]. apply ge_true_iff in Hge. apply lt_true_iff in Hlt.
    split; [exact Hin |]. split; [exact Hn |].
    right. left. split; [exact Hc |]. split; [exact Hge | exact Hlt].
  - unfold speculative in Hin. apply in_slice0, in_sort, filter_In in Hin.
    destruct Hin as [Hin Hf]. apply lt_true_iff in Hf.
    split; [exact Hin |]. split; [exact Hn |].
    right. right. split; [exact Hc | exact Hf].
Qed.

(** X14. Every recommendation of [generatePortfolioAllocation] is for one
    of the processed tokens, carries its safety score, and is for no token
    of the existing portfolio. *)
Theorem recommendations_exclude_held (processedTokens : list ProcessedToken)
  (riskTolerance : string) (investmentSize : Q)
  (existingPortfolio : option (list Holding)) :
  Forall (fun recommendation =>
            (exists t,
                In t processedTokens
                /\ tokenAddress recommendation = address t
                /\ recommendedSafetyScore recommendation = safetyScore t)
            /\ forall holding,
                In holding
                   (match existingPortfolio with Some p => p | None => [] end) ->
                heldAddress holding <> tokenAddress recommendation)
         (recommendations
            (generatePortfolioAllocation processedTokens riskTolerance
                                         investmentSize existingPortfolio)).
Proof.
  apply Forall_forall. intros recommendation H.
  unfold generatePortfolioAllocation in H. cbv zeta in H.
  cbn [recommendations] in H. apply in_map_iff in H.
  destruct H as [allocation [<- Hin]].
  cbn [tokenAddress recommendedSafetyScore].
  apply allocations_origin in Hin. destruct Hin as (Ht & Hn & _).
  split.
  - exists (token allocation). repeat split. exact Ht.
  - intros holding Hh E. apply Hn. rewrite <- E. apply in_map. exact Hh.
Qed.

(** X15. The category of an allocation is decided by the safety score of
    its token against the minimum of the preset: established from the
    minimum on, new from 70% of the minimum up to the minimum, speculative
    below 70% of it. *)
Theorem allocation_category_by_safety (processedTokens : list ProcessedToken)
  (riskTolerance : string) (investmentSize : Q)
  (existingPortfolio : option (list Holding)) :
  Forall (fun allocation =>
            safetyOf (allocationParameters riskTolerance)
                     (category allocation)
                     (safetyScore (token allocation)))
         (allocations processedTokens riskTolerance investmentSize
                      existingPortfolio).
Proof.
  apply Forall_forall. intros allocation H.
  apply allocations_origin in H. exact (proj2 (proj2 H)).
Qed.

Lemma amountAt_antitone (bucketAllocation : Q) (size i j : nat) :
  0 <= bucketAllocation -> (i <= j)%nat ->
  amountAt bucketAllocation size j <= amountAt bucketAllocation size i.
Proof.
  intros Ha Hij. unfold amountAt.
  unfold Qdiv at 1 4. apply Qmult_le_compat_r; [| vm_compute; discriminate].
  apply Number_monotone, Math_round_monotone.
  apply Qmult_le_compat_r; [| vm_compute; discriminate].
  unfold Qdiv at 1 3.
  apply Qmult_le_compat_r; [| apply Qinv_le_0_compat, Number_nat_nonneg].
  assert (Hq : Number (Z.of_nat i) / Number (Z.of_nat size)
               <= Number (Z.of_nat j) / Number (Z.of_nat size)).
  { unfold Qdiv. apply Qmult_le_compat_r.
    - apply Number_monotone. lia.
    - apply Qinv_le_0_compat, Number_nat_nonneg. }
  set (qi := Number (Z.of_nat i) / Number (Z.of_nat size)) in *.
  set (qj := Number (Z.of_nat j) / Number (Z.of_nat size)) in *.
  assert (0 <= bucketAllocation * ((qj - qi) * 0.5))
    by (apply Qmult_le_0_compat; lra).
  lra.
Qed.

Lemma amountAt_nonneg (bucketAllocation : Q) (size index : nat) :
  0 <= bucketAllocation -> (index < size)%nat ->
  0 <= amountAt bucketAllocation size index.
Proof.
  intros Ha Hi. unfold amountAt.
  apply Qdiv_nonneg; [| lra].
  change 0 with (Number 0). apply Number_monotone, Math_round_nonneg.
  assert (Hs : 0 < Number (Z.of_nat size)).
  { unfold Number. change 0 with (inject_Z 0). rewrite <- Zlt_Qlt. lia. }
  assert (Hq : Number (Z.of_nat index) / Number (Z.of_nat size) <= 1).
  { apply Qle_shift_div_r; [exact Hs |]. rewrite Qmult_1_l.
    apply Number_monotone. lia. }
  set (q := Number (Z.of_nat index) / Number (Z.of_nat size)) in *.
  apply Qmult_le_0_compat; [| lra].
  apply Qdiv_nonneg; [| lra].
  apply Qmult_le_0_compat; lra.
Qed.

(** The amounts of a bucket, position by position. *)
Lemma allocate_amounts_from (bucket : list ProcessedToken)
  (bucketAllocation : Q) (label reason : string) (size start : nat) :
  map amount
      (map (fun p =>
              {| token := snd p;
                 amount := amountAt bucketAllocation size (fst p);
                 category := label;
                 reasoning := reason |})
           (combine (seq start (List.length bucket)) bucket))
  = map (amountAt bucketAllocation size) (seq start (List.length bucket)).
Proof.
  revert start. induction bucket as [| t bucket IH]; intros start.
  - reflexivity.
  - cbn [List.length seq combine map amount fst]. f_equal. apply IH.
Qed.

Lemma allocate_amounts (bucket : list ProcessedToken) (bucketAllocation : Q)
  (label reason : string) :
  map amount (allocate bucket bucketAllocation label reason)
  = map (amountAt bucketAllocation (List.length bucket))
        (seq 0 (List.length bucket)).
Proof.
  unfold allocate, mapi.
  apply (allocate_amounts_from bucket bucketAllocation label reason
           (List.length bucket) 0).
Qed.

Lemma antitone_on_seq (f : nat -> Q) (start len : nat) :
  (forall i j, (i <= j)%nat -> f j <= f i) ->
  StronglySorted (fun x y => y <= x) (map f (seq start len)).
Proof.
  intros Hf. revert start.
  induction len as [| len IH]; intros start; cbn [seq map]; constructor.
  - apply IH.
  - apply Forall_forall. intros y Hy. apply in_map_iff in Hy.
    destruct Hy as [j [<- Hj]]. apply in_seq in Hj. apply Hf. lia.
Qed.

(** X16. For an investment that is not negative, the amounts follow the
    three buckets in order, established, new and speculative, and within a
    bucket the amount never increases from one position to the next. For an
    investment of at most 10^9, where the rounding of the doubles stays far
    below a cent, no amount is negative. *)
Theorem amounts_decrease_within_bucket (processedTokens : list ProcessedToken)
  (riskTolerance : string) (investmentSize : Q)
  (existingPortfolio : option (list Holding)) :
  0 <= investmentSize ->
  exists first second third,
    allocations processedTokens riskTolerance investmentSize existingPortfolio
    = (first ++ second ++ third)%list
    /\ Forall (fun allocation => category allocation = "established") first
    /\ Forall (fun allocation => category allocation = "new") second
    /\ Forall (fun allocation => category allocation = "speculative") third
    /\ StronglySorted (fun x y => y <= x) (map amount first)
    /\ StronglySorted (fun x y => y <= x) (map amount second)
    /\ StronglySorted (fun x y => y <= x) (map amount third)
    /\ (investmentSize <= 1000000000 ->
        Forall (fun allocation => 0 <= amount allocation)
               (allocations processedTokens riskTolerance investmentSize
                            existingPortfolio)).
Proof.
  intros Hi. unfold allocations. cbv zeta.
  pose proof (allocationParameters_sound riskTolerance) as (He & Hn & Hr & _).
  cbv zeta in He, Hn, Hr.
  set (parameters := allocationParameters riskTolerance) in *.
  assert (Ae : 0 <= investmentSize * estabRatio parameters)
    by (apply Qmult_le_0_compat; assumption).
  assert (An : 0 <= investmentSize * newRatio parameters)
    by (apply Qmult_le_0_compat; assumption).
  assert (Ar : 0 <= investmentSize - investmentSize * estabRatio parameters
                    - investmentSize * newRatio parameters).
  { assert (0 <= investmentSize
                 * (1 - estabRatio parameters - newRatio parameters))
      by (apply Qmult_le_0_compat; assumption).
    lra. }
  assert (Labelled : forall bucket allocation label reason,
             Forall (fun a => category a = label)
                    (allocate bucket allocation label reason)).
  { intros bucket allocation label reason. apply Forall_forall.
    intros a Ha. apply allocate_positions in Ha. exact (proj1 (proj2 Ha)). }
  assert (Sorted : forall bucket allocation label reason,
             0 <= allocation ->
             StronglySorted (fun x y => y <= x)
               (map amount (allocate bucket allocation label reason))).
  { intros bucket allocation label reason Ha. rewrite allocate_amounts.
    apply antitone_on_seq. intros i j Hij.
    apply amountAt_antitone; assumption. }
  assert (NonNegative : forall bucket allocation label reason,
             0 <= allocation ->
             Forall (fun a => 0 <= amount a)
                    (allocate bucket allocation label reason)).
  { intros bucket allocation label reason Ha. apply Forall_forall.
    intros a Hin. apply allocate_positions in Hin.
    destruct Hin as (_ & _ & index & Hidx & ->).
    apply (amountAt_nonneg allocation (List.length bucket) index Ha Hidx). }
  eexists _, _, _. split; [reflexivity |].
  split; [apply Labelled |]. split; [apply Labelled |].
  split; [apply Labelled |].
  split; [apply Sorted, Ae |]. split; [apply Sorted, An |].
  split; [apply Sorted, Ar |]. intros _.
  repeat (apply Forall_app; split); apply NonNegative; assumption.
Qed.

Lemma amounts_decrease_within_bucket_witness :
  exists first second third,
    allocations fiveCandidates "moderate" 100 holdingB
    = (first ++ second ++ third)%list
    /\ Forall (fun allocation => category allocation = "established") first
    /\ Forall (fun allocation => category allocation = "new") second
    /\ Forall (fun allocation => category allocation = "speculative") third
    /\ StronglySorted (fun x y => y <= x) (map amount first)
    /\ StronglySorted (fun x y => y <= x) (map amount second)
    /\ StronglySorted (fun x y => y <= x) (map amount third)
    /\ (100 <= 1000000000 ->
        Forall (fun allocation => 0 <= amount allocation)
               (allocations fiveCandidates "moderate" 100 holdingB)).
Proof.
  apply (amounts_decrease_within_bucket fiveCandidates "moderate" 100 holdingB).
  vm_compute. discriminate.
Defined.

(** X17. For every risk tolerance the three ratios of the preset add up to
    1 and the three shares of the report to 100, and the portfolio never has
    more recommendations than the [maxTokens] of the preset. *)
Theorem recommendations_within_maxTokens (processedTokens : list ProcessedToken)
  (riskTolerance : string) (investmentSize : Q)
  (existingPortfolio : option (list Holding)) :
  estabRatio (allocationParameters riskTolerance)
  + newRatio (allocationParameters riskTolerance)
  + specRatio (allocationParameters riskTolerance) == 1
  /\ (establishedShare
        (categories
           (generatePortfolioAllocation processedTokens riskTolerance
                                        investmentSize existingPortfolio))
      + newShare
          (categories
             (generatePortfolioAllocation processedTokens riskTolerance
                                          investmentSize existingPortfolio))
      + speculativeShare
          (categories
             (generatePortfolioAllocation processedTokens riskTolerance
                                          investmentSize existingPortfolio))
      = 100)%Z
  /\ (Z.of_nat
        (List.length
           (recommendations
              (generatePortfolioAllocation processedTokens riskTolerance
                                           investmentSize existingPortfolio)))
      <= maxTokens (allocationParameters riskTolerance))%Z.
Proof.
  assert (Sizes :
           (Z.of_nat
              (Z.to_nat
                 (Z.max 1 (Math_floor
                             (Number (maxTokens (allocationParameters riskTolerance))
                              * 0.4)))
               + Z.to_nat
                   (Z.max 1 (Math_floor
                               (Number (maxTokens (allocationParameters riskTolerance))
                                * 0.4)))
               + Z.to_nat
                   (Z.max 1 (Math_floor
                               (Number (maxTokens (allocationParameters riskTolerance))
                                * 0.2))))
            <= maxTokens (allocationParameters riskTolerance))%Z
           /\ estabRatio (allocationParameters riskTolerance)
              + newRatio (allocationParameters riskTolerance)
              + specRatio (allocationParameters riskTolerance) == 1
           /\ (Math_round (estabRatio (allocationParameters riskTolerance) * 100)
               + Math_round (newRatio (allocationParameters riskTolerance) * 100)
               + Math_round (specRatio (allocationParameters riskTolerance) * 100)
               = 100)%Z).
  { unfold allocationParameters.
    destruct (String.eqb riskTolerance "conservative");
      [| destruct (String.eqb riskTolerance "aggressive");
         [| destruct (String.eqb riskTolerance "very_aggressive")]];
      cbn [estabRatio newRatio specRatio maxTokens];
      (split; [vm_compute; discriminate |]);
      (split; vm_compute; reflexivity). }
  destruct Sizes as (Hsize & Hratio & Hshare).
  split; [exact Hratio |]. split.
  { unfold generatePortfolioAllocation. cbv zeta.
    cbn [categories establishedShare newShare speculativeShare].
    exact Hshare. }
  unfold generatePortfolioAllocation. cbv zeta. cbn [recommendations].
  rewrite length_map. unfold allocations. cbv zeta.
  rewrite !length_app, !allocate_length.
  set (parameters := allocationParameters riskTolerance) in *.
  pose proof (notHeld_length existingPortfolio
                (established parameters processedTokens)).
  pose proof (notHeld_length existingPortfolio
                (newTokens parameters processedTokens)).
  pose proof (notHeld_length existingPortfolio
                (speculative parameters processedTokens)).
  assert (He : (List.length (established parameters processedTokens)
                <= Z.to_nat
                     (Z.max 1 (Math_floor (Number (maxTokens parameters) * 0.4))))%nat)
    by (unfold established; apply slice0_length).
  assert (Hn : (List.length (newTokens parameters processedTokens)
                <= Z.to_nat
                     (Z.max 1 (Math_floor (Number (maxTokens parameters) * 0.4))))%nat)
    by (unfold newTokens; apply slice0_length).
  assert (Hs : (List.length (speculative parameters processedTokens)
                <= Z.to_nat
                     (Z.max 1 (Math_floor (Number (maxTokens parameters) * 0.2))))%nat)
    by (unfold speculative; apply slice0_length).
  lia.
Qed.

Lemma sorted_filter {A : Type} (R : A -> A -> Prop) (f : A -> bool)
  (l : list A) :
  StronglySorted R l -> StronglySorted R (filter f l).
Proof.
  induction 1 as [| x l Sl IH Hx]; cbn [filter]; [constructor |].
  destruct (f x); [| exact IH].
  constructor; [exact IH |].
  rewrite Forall_forall in Hx |- *. intros y Hy.
  apply filter_In in Hy. apply Hx. exact (proj1 Hy).
Qed.

Lemma sorted_firstn {A : Type} (R : A -> A -> Prop) (n : nat) (l : list A) :
  StronglySorted R l -> StronglySorted R (firstn n l).
Proof.
  intros S. revert n.
  induction S as [| x l Sl IH Hx]; intros n; destruct n; cbn [firstn];
    try constructor.
  - apply IH.
  - rewrite Forall_forall in Hx |- *. intros y Hy.
    apply Hx. exact (in_firstn _ _ _ Hy).
Qed.

(** X18. The new and the speculative bucket are ranked by opportunity
    score, highest first, also after the tokens already held are taken out;
    the established bucket keeps the order of the processed tokens, so it is
    ranked too when these are, as the handler passes them. *)
Theorem buckets_ranked_by_opportunity (parameters : AllocationParameters)
  (processedTokens : list ProcessedToken)
  (existingPortfolio : option (list Holding)) :
  StronglySorted (descends opportunityScore)
    (notHeld existingPortfolio (newTokens parameters processedTokens))
  /\ StronglySorted (descends opportunityScore)
       (notHeld existingPortfolio (speculative parameters processedTokens))
  /\ (StronglySorted (descends opportunityScore) processedTokens ->
      StronglySorted (descends opportunityScore)
        (notHeld existingPortfolio (established parameters processedTokens))).
Proof.
  split; [| split].
  - unfold notHeld, newTokens, slice0. cbv zeta.
    apply sorted_filter, sorted_firstn.
    apply (sort_descending opportunityScore).
  - unfold notHeld, speculative, slice0. cbv zeta.
    apply sorted_filter, sorted_firstn.
    apply (sort_descending opportunityScore).
  - intros S. unfold notHeld, established, slice0. cbv zeta.
    apply sorted_filter, sorted_firstn, sorted_filter. exact S.
Qed.

Lemma buckets_ranked_by_opportunity_witness :
  StronglySorted (descends opportunityScore)
    (notHeld holdingB (established (allocationParameters "moderate")
                                   fiveCandidates)).
Proof.
  apply (proj2 (proj2 (buckets_ranked_by_opportunity
                         (allocationParameters "moderate") fiveCandidates
                         holdingB))).
  repeat constructor; vm_compute; discriminate.
Defined.

End Buckets.

(** ** Meme correlations *)

Section MemeThemes.

Import AnalyzeMemeCorrelation.

Lemma append_nonempty (s : string) (c : ascii) :
  (s ++ String c EmptyString)%string <> EmptyString.
Proof. destruct s; discriminate. Qed.

Lemma split_words_from_nonempty (s current : string) :
  Forall (fun word => word <> EmptyString) (split_words_from current s).
Proof.
  revert current. induction s as [| c s IH]; intros current;
    cbn [split_words_from].
  - destruct current; repeat constructor. discriminate.
  - destruct (is_word_char c); [apply IH |].
    destruct current; [apply IH |].
    constructor; [discriminate | apply IH].
Qed.

Lemma acronym_length (words : list string) :
  Forall (fun word => word <> EmptyString) words ->
  String.length
    (String.concat EmptyString
       (map (fun word => toUpperCase (firstLetter word)) words))
  = List.length words.
Proof.
  induction 1 as [| word words Hw _ IH]; [reflexivity |].
  destruct word as [| c word]; [contradiction |].
  cbn [map firstLetter toUpperCase List.length].
  destruct words as [| next words]; [reflexivity |].
  change (String.concat EmptyString
            (String (upper_char c) EmptyString
             :: map (fun w => toUpperCase (firstLetter w)) (next :: words)))
    with (String (upper_char c)
            (String.concat EmptyString
               (map (fun w => toUpperCase (firstLetter w)) (next :: words)))).
  cbn [String.length]. rewrite IH. reflexivity.
Qed.

(** X19. The themes of a meme always start with its name followed by
    Coin and by Token. A name without a word has no other theme; a name of
    one word has one more, the word in upper case followed by Coin; a name
    of several words has two more, an acronym with one character for each
    word, no word being empty, and the first word in upper case followed by
    Coin. *)
Theorem generateTokenThemesFromMeme_shape (memeName : string) :
  Forall (fun word => word <> EmptyString) (split_words memeName)
  /\ exists others,
      generateTokenThemesFromMeme memeName
      = (memeName ++ " Coin")%string :: (memeName ++ " Token")%string :: others
      /\ match split_words memeName with
         | [] => others = []
         | [word] => others = [(toUpperCase word ++ " Coin")%string]
         | first :: _ =>
             exists acronym,
               others = [acronym; (toUpperCase first ++ " Coin")%string]
               /\ String.length acronym = List.length (split_words memeName)
         end.
Proof.
  pose proof (split_words_from_nonempty memeName EmptyString) as Words.
  fold (split_words memeName) in Words.
  split; [exact Words |].
  unfold generateTokenThemesFromMeme. cbv zeta.
  pose proof (acronym_length (split_words memeName) Words) as Acronym.
  destruct (split_words memeName) as [| first [| second rest]].
  - eexists. split; reflexivity.
  - eexists. split; reflexivity.
  - eexists. split; [reflexivity |].
    eexists. split; [reflexivity | exact Acronym].
Qed.

End MemeThemes.

Section MemeReport.

Import SocialUtils AnalyzeMemeCorrelation Notions Examples.

Lemma in_assign {V : Type} (object : list (string * V)) (key k : string)
  (value v : V) :
  In (k, v) (assign object key value) ->
  In (k, v) object \/ (k = key /\ v = value).
Proof.
  induction object as [| [k0 v0] object IH]; cbn [assign].
  - intros [E | []]. injection E as <- <-. right. split; reflexivity.
  - destruct (String.eqb k0 key) eqn:K.
    + apply String.eqb_eq in K. subst k0.
      intros [E | H]; [| left; right; exact H].
      injection E as <- <-. right. split; reflexivity.
    + intros [E | H]; [left; left; exact E |].
      destruct (IH H) as [H' | H']; [left; right; exact H' | right; exact H'].
Qed.

Lemma saveCorrelations_outcome (env : Env) (token : Database.TokenInfo)
  (found : list Correlation) :
  forall table outcome table',
    saveCorrelations env token found table = (outcome, table') ->
    exists saved,
      table' = (table ++ saved)%list
      /\ (forall row, In row saved ->
          exists entry,
            In entry found /\ 0.3 <= correlation entry
            /\ row = correlationRow token entry)
      /\ (forall u, outcome = Ok u ->
          forall entry, In entry found -> 0.3 <= correlation entry ->
                        In (correlationRow token entry) saved).
Proof.
  induction found as [| entry found IH]; intros table outcome table' E;
    cbn [saveCorrelations] in E.
  - injection E as <- <-. exists []. split; [symmetry; apply app_nil_r |].
    split; [intros row [] | intros u _ entry []].
  - destruct (ge (correlation entry) 0.3) eqn:G.
    + apply ge_true_iff in G. unfold execute in E.
      destruct (insertError env table (correlationRow token entry)).
      * injection E as <- <-. exists [].
        split; [symmetry; apply app_nil_r |].
        split; [intros row [] | intros u U; discriminate U].
      * apply IH in E. destruct E as (saved & -> & Rows & All).
        exists (correlationRow token entry :: saved).
        split; [rewrite <- app_assoc; reflexivity |]. split.
        -- intros row [<- | H].
           ++ exists entry. split; [left; reflexivity |].
              split; [exact G | reflexivity].
           ++ destruct (Rows row H) as (e & He & Hc & Hr).
              exists e. split; [right; exact He |]. split; assumption.
        -- intros u U e [<- | He] Hc; [left; reflexivity |].
           right. exact (All u U e He Hc).
    + apply IH in E. destruct E as (saved & -> & Rows & All).
      exists saved. split; [reflexivity |]. split.
      * intros row H. destruct (Rows row H) as (e & He & Hc & Hr).
        exists e. split; [right; exact He |]. split; assumption.
      * intros u U e [<- | He] Hc; [| exact (All u U e He Hc)].
        apply ge_true_iff in Hc. rewrite Hc in G. discriminate G.
Qed.

Lemma processTokens_outcome (env : Env) (memes : list TrendingMeme)
  (tokens : list Database.TokenInfo) :
  forall summaries opportunities table outcome table',
    processTokens env memes tokens summaries opportunities table
    = (outcome, table') ->
    exists saved,
      table' = (table ++ saved)%list
      /\ (forall row, In row saved ->
          exists token entry,
            In token tokens /\ In entry (correlationsOf memes token)
            /\ 0.3 <= correlation entry
            /\ row = correlationRow token entry)
      /\ (forall summaries' opportunities',
          outcome = Ok (summaries', opportunities') ->
          (forall key summary,
              In (key, summary) summaries' ->
              In (key, summary) summaries
              \/ exists token,
                  In token tokens /\ key = Database.address token
                  /\ summary
                     = tokenCorrelations token (correlationsOf memes token))
          /\ (forall opportunity,
                In opportunity opportunities' ->
                In opportunity opportunities
                \/ exists token,
                    In token tokens
                    /\ strongCorrelations (correlationsOf memes token) <> []
                    /\ opportunity
                       = predictedOpportunity token
                           (strongCorrelations (correlationsOf memes token)))
          /\ (forall token entry,
                In token tokens -> In entry (correlationsOf memes token) ->
                0.3 <= correlation entry ->
                In (correlationRow token entry) saved)).
Proof.
  induction tokens as [| token tokens IH];
    intros summaries opportunities table outcome table' E;
    cbn [processTokens] in E.
  - injection E as <- <-. exists []. split; [symmetry; apply app_nil_r |].
    split; [intros row [] |].
    intros summaries' opportunities' O. injection O as <- <-.
    split; [intros key summary H; left; exact H |].
    split; [intros opportunity H; left; exact H |].
    intros token entry [].
  - cbv zeta in E. fold (correlationsOf memes token) in E.
    destruct (saveCorrelations env token (correlationsOf memes token) table)
      as [[u | message] table1] eqn:S;
      apply saveCorrelations_outcome in S;
      destruct S as (saved1 & -> & Rows1 & All1).
    2:{ injection E as <- <-. exists saved1. split; [reflexivity |]. split.
        - intros row H. destruct (Rows1 row H) as (entry & He & Hc & Hr).
          exists token, entry. split; [left; reflexivity |].
          repeat split; assumption.
        - intros summaries' opportunities' O. discriminate O. }
    apply IH in E. destruct E as (saved2 & -> & Rows2 & Results).
    exists (saved1 ++ saved2)%list.
    split; [rewrite app_assoc; reflexivity |]. split.
    + intros row H. apply in_app_or in H. destruct H as [H | H].
      * destruct (Rows1 row H) as (entry & He & Hc & Hr).
        exists token, entry. split; [left; reflexivity |].
        repeat split; assumption.
      * destruct (Rows2 row H) as (t & entry & Ht & He & Hc & Hr).
        exists t, entry. split; [right; exact Ht |].
        repeat split; assumption.
    + intros summaries' opportunities' O.
      destruct (Results summaries' opportunities' O) as (Sum & Opp & All2).
      split; [| split].
      * intros key summary H. destruct (Sum key summary H) as [H' | H'].
        -- apply in_assign in H'. destruct H' as [H' | [-> ->]];
             [left; exact H' |].
           right. exists token. split; [left; reflexivity |].
           split; reflexivity.
        -- destruct H' as (t & Ht & Hk & Hs). right. exists t.
           split; [right; exact Ht |]. split; assumption.
      * intros opportunity H. destruct (Opp opportunity H) as [H' | H'].
        -- destruct (strongCorrelations (correlationsOf memes token))
             as [| strong others] eqn:Strong; [left; exact H' |].
           cbn [List.length Nat.ltb Nat.leb] in H'.
           apply in_app_or in H'. destruct H' as [H' | [<- | []]];
             [left; exact H' |].
           right. exists token. split; [left; reflexivity |].
           rewrite Strong. split; [discriminate | reflexivity].
        -- destruct H' as (t & Ht & Hn & Ho). right. exists t.
           split; [right; exact Ht |]. split; assumption.
      * intros t entry [<- | Ht] He Hc.
        -- apply in_or_app. left. exact (All1 u eq_refl entry He Hc).
        -- apply in_or_app. right. exact (All2 t entry Ht He Hc).
Qed.

(** What a call of the handler that returns has done. *)
Lemma handler_returned (env : Env) (tokenAddress : option string)
  (includeTrendingReport : bool) (table table' : list CorrelationRow)
  (results : Results) :
  handler env tokenAddress includeTrendingReport table = (Ok results, table') ->
  exists analysed,
    tokensToAnalyze env tokenAddress = Ok analysed
    /\ processTokens env (trackTrendingMemes env) analysed [] [] table
       = (Ok (tokens results, predictedOpportunities results), table')
    /\ missingMemeOpportunities results
       = findMissingMemes (trackTrendingMemes env)
           (nodup string_dec (map meme_name table')).
Proof.
  unfold handler. cbv zeta. intros E.
  destruct (tokensToAnalyze env tokenAddress) as [analysed | message];
    [| discriminate E].
  exists analysed. split; [reflexivity |].
  destruct (processTokens env (trackTrendingMemes env) analysed [] [] table)
    as [[[summaries opportunities] | message] table1] eqn:P.
  - assert (E' : match selectMemeNames env table1 with
                 | Ok allMemeNames =>
                     (Ok {| tokens := summaries;
                            trendingMemes :=
                              if includeTrendingReport
                              then Some (firstn 10 (trackTrendingMemes env))
                              else None;
                            predictedOpportunities := opportunities;
                            missingMemeOpportunities :=
                              findMissingMemes (trackTrendingMemes env)
                                               allMemeNames |},
                      table1)
                 | Throw message => (Throw (rethrown message), table1)
                 end = (Ok results, table'))
      by (destruct analysed; [discriminate E | exact E]).
    clear E. unfold selectMemeNames in E'.
    destruct (selectError env table1); [discriminate E' |].
    injection E' as <- <-. split; reflexivity.
  - destruct analysed; discriminate E.
Qed.

(** X20. When the handler returns, every predicted opportunity has at
    least one match, every match has a correlation of at least 0.6, and for
    every match the table [meme_correlations] holds the row of that token,
    meme and correlation after the call. *)
Theorem predicted_opportunities_are_saved (env : Env)
  (tokenAddress : option string) (includeTrendingReport : bool)
  (table table' : list CorrelationRow) (results : Results) :
  handler env tokenAddress includeTrendingReport table = (Ok results, table') ->
  Forall (fun opportunity =>
            trendingMemeMatches opportunity <> []
            /\ Forall (fun found =>
                         0.6 <= correlation found
                         /\ In {| token_address :=
                                    AnalyzeMemeCorrelation.tokenAddress opportunity;
                                  meme_name := meme found;
                                  correlation_score := correlation found |}
                               table')
                      (trendingMemeMatches opportunity))
         (predictedOpportunities results).
Proof.
  intros E. apply handler_returned in E.
  destruct E as (analysed & _ & P & _).
  apply processTokens_outcome in P.
  destruct P as (saved & -> & _ & Results).
  destruct (Results _ _ eq_refl) as (_ & Opp & All).
  apply Forall_forall. intros opportunity H.
  destruct (Opp opportunity H) as [[] | (token & Ht & Hn & ->)].
  cbn [trendingMemeMatches AnalyzeMemeCorrelation.tokenAddress
         predictedOpportunity].
  split; [exact Hn |].
  apply Forall_forall. intros found Hf.
  unfold strongCorrelations in Hf. apply filter_In in Hf.
  destruct Hf as [Hf Hc]. apply ge_true_iff in Hc.
  split; [exact Hc |].
  apply in_or_app. right.
  apply (All token found Ht Hf). lra.
Qed.

Lemma predicted_opportunities_are_saved_witness :
  exists results table',
    handler memeWatch (Some "mint") true [] = (Ok results, table')
    /\ predictedOpportunities results <> []
    /\ Forall (fun opportunity =>
                 trendingMemeMatches opportunity <> []
                 /\ Forall (fun found =>
                              0.6 <= correlation found
                              /\ In {| token_address :=
                                         AnalyzeMemeCorrelation.tokenAddress
                                           opportunity;
                                       meme_name := meme found;
                                       correlation_score := correlation found |}
                                    table')
                           (trendingMemeMatches opportunity))
              (predictedOpportunities results).
Proof.
  eexists _, _. split; [lazy; reflexivity |]. split; [discriminate |].
  apply (predicted_opportunities_are_saved memeWatch (Some "mint") true []).
  reflexivity.
Defined.

(** X21. When the handler returns, it reports at most five missing
    opportunities, each a trending meme with its source and themes. The
    name of such a meme is, letter case apart, no [meme_name] of the table
    after the call, and every trending meme of that name correlates below
    0.3 with every token of the report. *)
Theorem missing_memes_have_no_token (env : Env)
  (tokenAddress : option string) (includeTrendingReport : bool)
  (table table' : list CorrelationRow) (results : Results) :
  handler env tokenAddress includeTrendingReport table = (Ok results, table') ->
  (List.length (missingMemeOpportunities results) <= 5)%nat
  /\ Forall
       (fun missing =>
          (exists trendingMeme,
              In trendingMeme (trackTrendingMemes env)
              /\ memeName missing = name trendingMeme
              /\ memeSource missing = source trendingMeme
              /\ potentialTokenThemes missing
                 = generateTokenThemesFromMeme (name trendingMeme))
          /\ (forall row,
                In row table' ->
                toLowerCase (meme_name row) <> toLowerCase (memeName missing))
          /\ (forall key summary trendingMeme,
                In (key, summary) (tokens results) ->
                In trendingMeme (trackTrendingMemes env) ->
                toLowerCase (name trendingMeme)
                = toLowerCase (memeName missing) ->
                memeCorrelation (toLowerCase (correlatedName summary))
                                (toLowerCase (correlatedSymbol summary))
                                trendingMeme
                < 0.3))
       (missingMemeOpportunities results).
Proof.
  intros E. apply handler_returned in E.
  destruct E as (analysed & _ & P & ->).
  apply processTokens_outcome in P.
  destruct P as (saved & -> & _ & Results).
  destruct (Results _ _ eq_refl) as (Sum & _ & All).
  split; [unfold findMissingMemes; apply firstn_le_length |].
  assert (Unsaved :
           forall missing,
             In missing
                (findMissingMemes (trackTrendingMemes env)
                   (nodup string_dec (map meme_name (table ++ saved)))) ->
             (exists trendingMeme,
                 In trendingMeme (trackTrendingMemes env)
                 /\ memeName missing = name trendingMeme
                 /\ memeSource missing = source trendingMeme
                 /\ potentialTokenThemes missing
                    = generateTokenThemesFromMeme (name trendingMeme))
             /\ forall row,
                 In row (table ++ saved) ->
                 toLowerCase (meme_name row) <> toLowerCase (memeName missing)).
  { intros missing H. unfold findMissingMemes in H. cbv zeta in H.
    apply in_firstn, in_map_iff in H.
    destruct H as (trendingMeme & <- & H). apply filter_In in H.
    destruct H as [Hm Hf]. apply negb_true_iff in Hf.
    cbn [memeName memeSource potentialTokenThemes]. split.
    - exists trendingMeme. repeat split. exact Hm.
    - intros row Hr C.
      apply not_true_iff_false in Hf. apply Hf.
      apply array_includes_iff. rewrite <- C.
      apply in_map, nodup_In, in_map. exact Hr. }
  apply Forall_forall. intros missing H.
  destruct (Unsaved missing H) as (Origin & Rows).
  split; [exact Origin |]. split; [exact Rows |].
  intros key summary trendingMeme Hs Hm Hn.
  destruct (Sum key summary Hs) as [[] | (token & Ht & _ & ->)].
  cbn [correlatedName correlatedSymbol tokenCorrelations].
  apply Qnot_le_lt. intros C.
  set (entry := entryOf (toLowerCase (Database.name token))
                        (toLowerCase (Database.symbol token)) trendingMeme).
  assert (He : In entry (correlationsOf (trackTrendingMemes env) token)).
  { unfold correlationsOf. apply calculateMemeCorrelation_entries.
    exists trendingMeme. split; [exact Hm |]. split; [reflexivity |].
    unfold entry. cbn [correlation entryOf]. lra. }
  apply (Rows (correlationRow token entry)).
  - apply in_or_app. right. apply (All token entry Ht He).
    unfold entry. cbn [correlation entryOf]. exact C.
  - cbn [meme_name correlationRow]. unfold entry. cbn [meme entryOf].
    exact Hn.
Qed.

Lemma missing_memes_have_no_token_witness :
  exists results table',
    handler memeWatch (Some "mint") true [] = (Ok results, table')
    /\ map memeName (missingMemeOpportunities results) = ["Pepe the Frog"]
    /\ (List.length (missingMemeOpportunities results) <= 5)%nat.
Proof.
  eexists _, _. split; [lazy; reflexivity |]. split; [reflexivity |].
  refine (proj1 (missing_memes_have_no_token memeWatch (Some "mint") true []
                   _ _ _)).
  reflexivity.
Defined.

(** X22. Whether it returns or throws, the handler changes the table
    [meme_correlations] only by adding rows at its end; every row it adds
    has a score from 0.3 to 1 and the name of a trending meme. What it
    throws starts with the words of its [catch]. *)
Theorem handler_only_appends (env : Env) (tokenAddress : option string)
  (includeTrendingReport : bool) (table table' : list CorrelationRow)
  (outcome : result Results) :
  handler env tokenAddress includeTrendingReport table = (outcome, table') ->
  (exists saved,
      table' = (table ++ saved)%list
      /\ Forall (fun row =>
                   0.3 <= correlation_score row <= 1
                   /\ exists trendingMeme,
                       In trendingMeme (trackTrendingMemes env)
                       /\ meme_name row = name trendingMeme)
                saved)
  /\ forall message,
      outcome = Throw message ->
      exists reason,
        message = ("Failed to analyze meme correlation: " ++ reason)%string.
Proof.
  intros E.
  assert (Loop :
           forall analysed loop table1,
             processTokens env (trackTrendingMemes env) analysed [] [] table
             = (loop, table1) ->
             exists saved,
               table1 = (table ++ saved)%list
               /\ Forall (fun row =>
                            0.3 <= correlation_score row <= 1
                            /\ exists trendingMeme,
                                In trendingMeme (trackTrendingMemes env)
                                /\ meme_name row = name trendingMeme)
                         saved).
  { intros analysed loop table1 P. apply processTokens_outcome in P.
    destruct P as (saved & -> & Rows & _). exists saved.
    split; [reflexivity |]. apply Forall_forall. intros row H.
    destruct (Rows row H) as (token & entry & _ & He & Hc & ->).
    unfold correlationsOf in He. apply calculateMemeCorrelation_entries in He.
    destruct He as (trendingMeme & Hm & -> & _).
    cbn [correlation_score meme_name correlationRow correlation meme entryOf]
      in *.
    split; [split; [exact Hc | apply memeCorrelation_at_most_one] |].
    exists trendingMeme. split; [exact Hm | reflexivity]. }
  assert (Unchanged :
           exists saved,
             table = (table ++ saved)%list
             /\ Forall (fun row =>
                          0.3 <= correlation_score row <= 1
                          /\ exists trendingMeme,
                              In trendingMeme (trackTrendingMemes env)
                              /\ meme_name row = name trendingMeme)
                       saved).
  { exists []. split; [symmetry; apply app_nil_r | constructor]. }
  unfold handler in E. cbv zeta in E.
  destruct (tokensToAnalyze env tokenAddress) as [[| token analysed] | reason].
  - injection E as <- <-. split; [exact Unchanged |].
    intros message M. injection M as <-. eexists. reflexivity.
  - destruct (processTokens env (trackTrendingMemes env) (token :: analysed)
                            [] [] table)
      as [[[summaries opportunities] | reason] table1] eqn:P;
      apply Loop in P.
    + unfold selectMemeNames in E.
      destruct (selectError env table1) as [reason |];
        injection E as <- <-; (split; [exact P |]); intros message M.
      * injection M as <-. eexists. reflexivity.
      * discriminate M.
    + injection E as <- <-. split; [exact P |].
      intros message M. injection M as <-. eexists. reflexivity.
  - injection E as <- <-. split; [exact Unchanged |].
    intros message M. injection M as <-. eexists. reflexivity.
Qed.

Lemma handler_only_appends_witness :
  exists saved,
    snd (handler memeWatch None false []) = ([] ++ saved)%list
    /\ Forall (fun row =>
                 0.3 <= correlation_score row <= 1
                 /\ exists trendingMeme,
                     In trendingMeme (trackTrendingMemes memeWatch)
                     /\ meme_name row = name trendingMeme)
              saved.
Proof.
  refine (proj1 (handler_only_appends memeWatch None false []
                   (snd (handler memeWatch None false []))
                   (fst (handler memeWatch None false [])) _)).
  lazy. reflexivity.
Defined.

End MemeReport.

(** ** The portfolio strategy handler *)

Section StrategyHandler.

Import GetPortfolioStrategy Notions Examples.

Variable log10 : Q -> Q.

Lemma processTokens_origin (env : Env) (recent : list Database.TokenInfo)
  (processed : ProcessedToken) :
  In processed (processTokens log10 env recent) ->
  exists token,
    In token recent /\ processToken log10 env token = Ok processed.
Proof.
  unfold processTokens. intros H. apply in_flat_map in H.
  destruct H as (token & Ht & H). exists token. split; [exact Ht |].
  destruct (processToken log10 env token) as [p | message]; [| destruct H].
  destruct H as [<- | []]. reflexivity.
Qed.

Lemma processToken_queries (env : Env) (token : Database.TokenInfo)
  (processed : ProcessedToken) :
  processToken log10 env token = Ok processed ->
  address processed = Database.address token
  /\ safetyScoreInUse env token = Ok (safetyScore processed)
  /\ (exists signals,
        socialSignalsOf env (Database.address token) = Ok signals)
  /\ (exists rows,
        memeCorrelationsOf env (Database.address token) = Ok rows).
Proof.
  unfold processToken. cbv zeta. intros E.
  destruct (safetyScoreInUse env token) as [score | m];
    cbn [bind] in E; [| discriminate E].
  destruct (socialSignalsOf env (Database.address token)) as [signals | m];
    cbn [bind] in E; [| discriminate E].
  destruct (memeCorrelationsOf env (Database.address token)) as [rows | m];
    cbn [bind] in E; [| discriminate E].
  injection E as <-. cbn [address safetyScore].
  split; [reflexivity |]. split; [reflexivity |].
  split; eexists; reflexivity.
Qed.

(** X23. The handler throws only when the query for the recent memecoins
    throws, and then with the message of that query after the words of its
    [catch]: a token that cannot be processed is skipped. When the handler
    returns, every recommendation is for one of the recent memecoins, both
    of whose queries succeeded, and for no token of the existing
    portfolio. *)
Theorem strategy_handler_skips_failing_tokens (env : Env)
  (riskTolerance : string) (investmentSize : Q)
  (existingPortfolio : option (list Holding)) :
  (forall message,
      handler log10 env riskTolerance investmentSize existingPortfolio
      = Throw message
      <-> exists reason,
          recentMemecoins env = Throw reason
          /\ message
             = ("Failed to generate portfolio strategy: " ++ reason)%string)
  /\ forall report,
      handler log10 env riskTolerance investmentSize existingPortfolio
      = Ok report ->
      exists recent,
        recentMemecoins env = Ok recent
        /\ Forall
             (fun recommendation =>
                (exists token signals rows,
                    In token recent
                    /\ tokenAddress recommendation = Database.address token
                    /\ socialSignalsOf env (Database.address token)
                       = Ok signals
                    /\ memeCorrelationsOf env (Database.address token)
                       = Ok rows)
                /\ forall holding,
                    In holding
                       (match existingPortfolio with
                        | Some p => p
                        | None => []
                        end) ->
                    heldAddress holding <> tokenAddress recommendation)
             (recommendations (portfolio report)).
Proof.
  unfold handler. split.
  - intros message.
    destruct (recentMemecoins env) as [recent | reason];
      cbn [bind try_catch]; split.
    + intros E. discriminate E.
    + intros (reason & E & _). discriminate E.
    + intros E. injection E as <-. exists reason. split; reflexivity.
    + intros (reason' & E & ->). injection E as <-. reflexivity.
  - intros report E.
    destruct (recentMemecoins env) as [recent | reason];
      cbn [bind try_catch] in E; [| discriminate E].
    cbv zeta in E. injection E as <-. cbn [portfolio].
    exists recent. split; [reflexivity |].
    apply Forall_forall. intros recommendation H.
    unfold generatePortfolioAllocation in H. cbv zeta in H.
    cbn [recommendations] in H. apply in_map_iff in H.
    destruct H as [allocation [<- Hin]]. cbn [tokenAddress].
    apply allocations_origin in Hin. destruct Hin as (Ht & Hn & _).
    apply in_sort, processTokens_origin in Ht.
    destruct Ht as (token & Hr & Hp).
    apply processToken_queries in Hp.
    destruct Hp as (Ha & _ & (signals & Hs) & (rows & Hm)).
    split.
    + exists token, signals, rows. repeat split; assumption.
    + intros holding Hh C. apply Hn. rewrite <- C. apply in_map. exact Hh.
Qed.

(** X24. A token without a stored safety score, or with a stored score of
    0, whose on-chain lookup fails is processed with a safety score of 0,
    and whatever the risk tolerance an allocation of that token is
    speculative. *)
Theorem unanalysable_token_is_speculative (env : Env)
  (memecoin : Database.TokenInfo) (processed : ProcessedToken) :
  lookupFails (chain env) (Database.address memecoin) ->
  match Database.safety_score memecoin with
  | Some stored => stored == 0
  | None => True
  end ->
  processToken log10 env memecoin = Ok processed ->
  safetyScore processed = 0
  /\ forall processedTokens riskTolerance investmentSize existingPortfolio
            allocation,
      In allocation
         (allocations processedTokens riskTolerance investmentSize
                      existingPortfolio) ->
      token allocation = processed ->
      category allocation = "speculative".
Proof.
  intros Fails Stored E.
  assert (Score : safetyScore processed = 0).
  { apply processToken_queries in E. destruct E as (_ & Hs & _).
    apply lookupFails_throws in Fails. destruct Fails as [message Try].
    apply analyzeTokenSafety_caught in Try.
    unfold safetyScoreInUse in Hs. rewrite Try in Hs. cbn [bind] in Hs.
    destruct (Database.safety_score memecoin) as [stored |].
    - apply Qeq_bool_iff in Stored. rewrite Stored in Hs.
      injection Hs as <-. reflexivity.
    - injection Hs as <-. reflexivity. }
  split; [exact Score |].
  intros processedTokens riskTolerance investmentSize existingPortfolio
         allocation Hin Ht.
  apply allocations_origin in Hin. destruct Hin as (_ & _ & Safety).
  rewrite Ht, Score in Safety.
  assert (Minimum : 30 <= minSafetyScore (allocationParameters riskTolerance)).
  { unfold allocationParameters.
    destruct (String.eqb riskTolerance "conservative");
      [| destruct (String.eqb riskTolerance "aggressive");
         [| destruct (String.eqb riskTolerance "very_aggressive")]];
      cbn [minSafetyScore]; lra. }
  destruct Safety as [[_ H] | [(_ & H & _) | [H _]]]; [lra | lra | exact H].
Qed.


End StrategyHandler.

Section StrategyHandlerExamples.

Import GetPortfolioStrategy Notions Examples.

Lemma unanalysable_token_is_speculative_witness :
  exists processed,
    processToken floor_log10 blindStrategy scenarioToken = Ok processed
    /\ safetyScore processed = 0.
Proof.
  eexists. split; [lazy; reflexivity |].
  refine (proj1 (unanalysable_token_is_speculative floor_log10 blindStrategy
                   scenarioToken _ _ _ _)).
  - exact I.
  - exact I.
  - reflexivity.
Defined.


End StrategyHandlerExamples.

(** ** Trending memes *)

Section TrendingMemes.

Import SocialUtils Notions.

Lemma pushMeme_scraped (P : string -> Prop) (clock : nat -> string)
  (trendingMemes : list TrendingMeme) (memeName memeSource : string) :
  scraped P trendingMemes -> P memeName ->
  scraped P (pushMeme clock trendingMemes memeName memeSource).
Proof.
  intros [Distinct Names] Allowed. unfold pushMeme.
  destruct (String.eqb memeName EmptyString) eqn:Empty;
    cbn [negb andb]; [split; assumption |].
  destruct (existsb (fun m => String.eqb (name m) memeName) trendingMemes)
    eqn:Known; cbn [negb]; [split; assumption |].
  apply String.eqb_neq in Empty. split.
  - rewrite map_app. cbn [map name].
    apply NoDup_app; [exact Distinct | repeat constructor; intros [] |].
    intros known Hk [<- | []]. apply in_map_iff in Hk.
    destruct Hk as (meme & E & Hm).
    apply not_true_iff_false in Known. apply Known.
    apply existsb_exists. exists meme. split; [exact Hm |].
    apply String.eqb_eq. exact E.
  - apply Forall_app. split; [exact Names |].
    repeat constructor; assumption.
Qed.

Lemma scrapeKnowYourMeme_scraped (P : string -> Prop) (clock : nat -> string)
  (headings : list string) :
  (forall heading, In heading headings -> P (trim heading)) ->
  forall trendingMemes,
    scraped P trendingMemes ->
    scraped P (scrapeKnowYourMeme clock headings trendingMemes).
Proof.
  unfold scrapeKnowYourMeme.
  induction headings as [| heading headings IH]; intros Allowed trendingMemes S;
    cbn [fold_left]; [exact S |].
  apply IH.
  - intros h Hh. apply Allowed. right. exact Hh.
  - apply pushMeme_scraped; [exact S |]. apply Allowed. left. reflexivity.
Qed.

Lemma scrapeReddit_scraped (P : string -> Prop) (clock : nat -> string)
  (children : list RedditChild) :
  (forall title permalink,
      In (titled title permalink) children -> P (trim title)) ->
  forall trendingMemes,
    scraped P trendingMemes ->
    scraped P (scrapeReddit clock children trendingMemes).
Proof.
  induction children as [| [| | title permalink] children IH];
    intros Allowed trendingMemes S; cbn [scrapeReddit]; try exact S.
  - apply IH; [| exact S].
    intros t p H. apply (Allowed t p). right. exact H.
  - apply IH.
    + intros t p H. apply (Allowed t p). right. exact H.
    + apply pushMeme_scraped; [exact S |].
      apply (Allowed title permalink). left. reflexivity.
Qed.

(** X26. [trackTrendingMemes] never returns an empty list, an empty name
    or the same name twice. It returns the ten predefined memes, or else
    memes whose names are all headings of the trending page or titles of
    the listing, without the white space around them. *)
Theorem trackTrendingMemes_names (sites : MemeSites) :
  trackTrendingMemes sites <> []
  /\ NoDup (map name (trackTrendingMemes sites))
  /\ Forall (fun meme => name meme <> EmptyString) (trackTrendingMemes sites)
  /\ (trackTrendingMemes sites = fallbackMemes (clock sites)
      \/ Forall
           (fun meme =>
              (exists headings heading,
                  knowYourMeme sites = Ok headings
                  /\ In heading headings /\ name meme = trim heading)
              \/ (exists children title permalink,
                     redditHot sites = Ok children
                     /\ In (titled title permalink) children
                     /\ name meme = trim title))
           (trackTrendingMemes sites)).
Proof.
  set (P := fun memeName : string =>
              (exists headings heading,
                  knowYourMeme sites = Ok headings
                  /\ In heading headings /\ memeName = trim heading)
              \/ (exists children title permalink,
                     redditHot sites = Ok children
                     /\ In (titled title permalink) children
                     /\ memeName = trim title)).
  unfold trackTrendingMemes. cbv zeta.
  assert (First :
           scraped P
             match knowYourMeme sites with
             | Ok headings => scrapeKnowYourMeme (clock sites) headings []
             | Throw _ => []
             end).
  { destruct (knowYourMeme sites) as [headings | message] eqn:K.
    - apply scrapeKnowYourMeme_scraped.
      + intros heading H. left. exists headings, heading.
        split; [reflexivity |]. split; [exact H | reflexivity].
      + split; constructor.
    - split; constructor. }
  set (first := match knowYourMeme sites with
                | Ok headings => scrapeKnowYourMeme (clock sites) headings []
                | Throw _ => []
                end) in *.
  assert (Second :
            scraped P
              match redditHot sites with
              | Ok children => scrapeReddit (clock sites) children first
              | Throw _ => first
              end).
  { destruct (redditHot sites) as [children | message] eqn:R;
      [| exact First].
    apply scrapeReddit_scraped; [| exact First].
    intros title permalink H. right. exists children, title, permalink.
    split; [reflexivity |]. split; [exact H | reflexivity]. }
  set (second := match redditHot sites with
                 | Ok children => scrapeReddit (clock sites) children first
                 | Throw _ => first
                 end) in *.
  destruct second as [| meme others] eqn:E; cbn [List.length Nat.eqb].
  - split; [discriminate |].
    split.
    { cbv [fallbackMemes mapi map combine seq List.length fst snd name].
      repeat constructor; cbn [In]; intuition discriminate. }
    split; [| left; reflexivity].
    cbv [fallbackMemes mapi map combine seq List.length fst snd].
    repeat constructor; discriminate.
  - destruct Second as [Distinct Names].
    split; [discriminate |]. split; [exact Distinct |].
    split.
    + apply (Forall_impl _ (fun meme H => proj1 H) Names).
    + right. apply (Forall_impl _ (fun meme H => proj2 H) Names).
Qed.

End TrendingMemes.
